(** * ai-jersey-designer: the image-generation proxies

    A shallow embedding of the four request paths of the repository:

    - [Imagen.handler]      netlify/functions/generateImage.js (text to image,
                            endpoint [:predict]);
    - [Multimodal.handler]  the multi-modal variant of generateImage.js
                            (prompt and logo, endpoint [:generateContent]);
    - [Jersey.handler]      netlify/functions/generate-jersey.js;
    - [AppsScript.generateImage]  the Google Apps Script variant.

    JavaScript values that come out of [JSON.parse] are modelled by
    [JSValue]; the operations the handlers apply to them (property reads,
    optional chaining, truthiness, template strings, the few String and
    Array methods in use) follow ECMAScript on those values.  Network
    traffic and exceptions are explicit: a computation runs in a world that
    counts the [fetch] calls and records what was sent, and it ends either
    with a value or with a thrown exception. *)

From Stdlib Require Import ZArith List String Ascii Bool Lia DecimalString Sorted.
Import ListNotations.
Open Scope list_scope.
Open Scope string_scope.

Set Implicit Arguments.
Set Warnings "-register-all".

(* ================================================================== *)
(** ** JavaScript values *)
(* ================================================================== *)

(** A value produced by [JSON.parse], or [undefined].  Numbers are the
    integral ones; the handlers only test numbers for truthiness, compare a
    [length] with zero and print them, and how a number prints is left to
    the runtime.  In an object the last binding of a key is the one in
    force, as [JSON.parse] has it for duplicate keys. *)
Inductive JSValue : Type :=
| JUndefined
| JNull
| JBool (b : bool)
| JNum (n : Z)
| JStr (s : string)
| JArr (elems : list JSValue)
| JObj (fields : list (string * JSValue)).

(** ToBoolean. *)
Definition truthy (v : JSValue) : bool :=
  match v with
  | JUndefined | JNull => false
  | JBool b => b
  | JNum n => negb (n =? 0)%Z
  | JStr s => negb (s =? "")
  | JArr _ | JObj _ => true
  end.

Definition nullish (v : JSValue) : bool :=
  match v with
  | JUndefined | JNull => true
  | _ => false
  end.

(** [a || b] *)
Definition js_or (a b : JSValue) : JSValue := if truthy a then a else b.

(** [v === 0] *)
Definition strictly_zero (v : JSValue) : bool :=
  match v with
  | JNum n => (n =? 0)%Z
  | _ => false
  end.

Definition string_of_Z (n : Z) : string := NilZero.string_of_int (Z.to_int n).

(** Own property of an object built by [JSON.parse]. *)
Fixpoint lookup_field (k : string) (fields : list (string * JSValue))
  : option JSValue :=
  match fields with
  | [] => None
  | (k', v) :: rest =>
      match lookup_field k rest with
      | Some later => Some later
      | None => if k' =? k then Some v else None
      end
  end.

(** *** Strings *)

Definition is_digit (c : ascii) : bool :=
  let n := nat_of_ascii c in (48 <=? n)%nat && (n <=? 57)%nat.

(** A property key that is a canonical array index: decimal digits with no
    leading zero. *)
Fixpoint digits_value (acc : nat) (s : string) : option nat :=
  match s with
  | "" => Some acc
  | String c rest =>
      if is_digit c
      then digits_value (10 * acc + (nat_of_ascii c - 48)) rest
      else None
  end.

Definition index_of_key (k : string) : option nat :=
  match k with
  | "" => None
  | String "0" "" => Some 0%nat
  | String "0" _ => None
  | _ => digits_value 0 k
  end.

(** [s.includes(c)] for a one-character needle. *)
Fixpoint includes_char (c : ascii) (s : string) : bool :=
  match s with
  | "" => false
  | String d rest => Ascii.eqb d c || includes_char c rest
  end.

(** [s.split(c)] for a one-character separator: never empty. *)
Fixpoint split_char (c : ascii) (s : string) : list string :=
  match s with
  | "" => [""]
  | String d rest =>
      if Ascii.eqb d c then "" :: split_char c rest
      else match split_char c rest with
           | [] => [String d ""]
           | piece :: pieces => String d piece :: pieces
           end
  end.

(** [pieces.join(sep)] on an array of strings. *)
Fixpoint join (sep : string) (pieces : list string) : string :=
  match pieces with
  | [] => ""
  | [p] => p
  | p :: rest => p ++ sep ++ join sep rest
  end.

(** The text after the first occurrence of [c], when there is one. *)
Fixpoint after_first (c : ascii) (s : string) : option string :=
  match s with
  | "" => None
  | String d rest => if Ascii.eqb d c then Some rest else after_first c rest
  end.

(** [s] without its prefix [p], when it starts with [p]. *)
Fixpoint drop_prefix (p s : string) : option string :=
  match p, s with
  | "", _ => Some s
  | String a p', String b s' =>
      if Ascii.eqb a b then drop_prefix p' s' else None
  | String _ _, "" => None
  end.

(** [t] occurs in [s]. *)
Definition contains (s t : string) : Prop :=
  exists before after, s = before ++ t ++ after.

(* ================================================================== *)
(** ** Exceptions *)
(* ================================================================== *)

Inductive TypeErrorCause : Type :=
| ReadOfNullish (base : JSValue) (prop : string)
| NotAFunction (prop : string)
| NotPrimitive (v : JSValue).

(** What a handler can see thrown.  [ApiError] is the [Error] that
    [callApiWithBackoff] creates; the other three are raised by the
    runtime. *)
Inductive Exn : Type :=
| ApiError (status : Z) (errorBody : string)
| TypeError (cause : TypeErrorCause)
| SyntaxError (input : string)
| FetchFailed (reason : string).

(** The part of the JavaScript runtime that is not fixed by the handlers:
    [JSON.parse] ([None] when the text is not well-formed), the wording of
    the messages of the errors the engine raises, whether the number a
    string converts to is above zero, and the text a number prints as. *)
Record Runtime : Type := {
  JSON_parse : string -> option JSValue;
  engine_message : Exn -> string;
  string_above_zero : string -> bool;
  Number_toString : Z -> string
}.

(** [error.message].  The status in the text of an [ApiError] is the
    integer of an HTTP status line, printed digit by digit. *)
Definition message (rt : Runtime) (e : Exn) : string :=
  match e with
  | ApiError st errorBody =>
      "External API Error " ++ string_of_Z st ++ ": " ++ errorBody
  | FetchFailed reason => reason
  | _ => engine_message rt e
  end.

(** Result of evaluating an expression that may throw. *)
Inductive Outcome (A : Type) : Type :=
| Ret (a : A)
| Throw (e : Exn).
Arguments Ret {A} a.
Arguments Throw {A} e.

Definition obind {A B} (c : Outcome A) (k : A -> Outcome B) : Outcome B :=
  match c with
  | Ret a => k a
  | Throw e => Throw e
  end.

Notation "'let*' x ':=' c 'in' k" := (obind c (fun x => k))
  (at level 10, x name, c at level 100, k at level 200).

(** [v.key] and [v[key]], for the keys the handlers read: none of them
    names a member of a prototype, so a key that is not an own property,
    an index or [length] reads as [undefined]. *)
Definition Get (v : JSValue) (key : string) : Outcome JSValue :=
  match v with
  | JUndefined | JNull => Throw (TypeError (ReadOfNullish v key))
  | JObj fields =>
      Ret (match lookup_field key fields with Some x => x | None => JUndefined end)
  | JArr elems =>
      if key =? "length" then Ret (JNum (Z.of_nat (List.length elems)))
      else match index_of_key key with
           | Some i => Ret (nth i elems JUndefined)
           | None => Ret JUndefined
           end
  | JStr s =>
      if key =? "length" then Ret (JNum (Z.of_nat (String.length s)))
      else match index_of_key key with
           | Some i =>
               Ret (match String.get i s with
                    | Some c => JStr (String c "")
                    | None => JUndefined
                    end)
           | None => Ret JUndefined
           end
  | JBool _ | JNum _ => Ret JUndefined
  end.

(** ToString, as a template literal and [Array.prototype.join] apply it.
    An object built by [JSON.parse] prints as "[object Object]" unless it
    has an own [toString] member: that member is not callable, the
    inherited [valueOf] gives back the object itself, and the conversion
    ends in a TypeError.  An array prints its elements joined by commas,
    [null] as the empty text. *)
Fixpoint ToString (rt : Runtime) (v : JSValue) : Outcome string :=
  match v with
  | JUndefined => Ret "undefined"
  | JNull => Ret "null"
  | JBool true => Ret "true"
  | JBool false => Ret "false"
  | JNum n => Ret (Number_toString rt n)
  | JStr s => Ret s
  | JArr elems =>
      (fix join_elems (l : list JSValue) : Outcome string :=
         match l with
         | [] => Ret ""
         | x :: rest =>
             let* shown := if nullish x then Ret "" else ToString rt x in
             match rest with
             | [] => Ret shown
             | _ :: _ =>
                 let* others := join_elems rest in
                 Ret (shown ++ "," ++ others)
             end
         end) elems
  | JObj fields =>
      match lookup_field "toString" fields with
      | Some _ => Throw (TypeError (NotPrimitive v))
      | None => Ret "[object Object]"
      end
  end.

(** [v > 0]: the operand is converted to a primitive, then to a number. *)
Definition above_zero (rt : Runtime) (v : JSValue) : Outcome bool :=
  match v with
  | JNum n => Ret (0 <? n)%Z
  | JBool b => Ret b
  | JStr s => Ret (string_above_zero rt s)
  | JArr _ =>
      let* shown := ToString rt v in
      Ret (string_above_zero rt shown)
  | JObj fields =>
      match lookup_field "toString" fields with
      | Some _ => Throw (TypeError (NotPrimitive v))
      | None => Ret false
      end
  | JUndefined | JNull => Ret false
  end.

(** [v?.key] *)
Definition OptGet (v : JSValue) (key : string) : JSValue :=
  match Get v key with
  | Ret x => x
  | Throw _ => JUndefined
  end.

(** [JSON.parse(text)] *)
Definition parse (rt : Runtime) (text : string) : Outcome JSValue :=
  match JSON_parse rt text with
  | Some v => Ret v
  | None => Throw (SyntaxError text)
  end.

(* ================================================================== *)
(** ** Effects: the network and the clock *)
(* ================================================================== *)

(** What [fetch] resolves to: the status line and the body, as text. *)
Record Response : Type := { status : Z; text : string }.

(** [response.ok] *)
Definition ok (r : Response) : bool :=
  (200 <=? status r)%Z && (status r <=? 299)%Z.

Inductive FetchOutcome : Type :=
| Resolves (r : Response)
| Rejects (reason : string).

(** The upstream service: the outcome of the k-th [fetch] of a run. *)
Definition Network : Type := nat -> FetchOutcome.

(** What a run leaves behind.  [Fetched url payload] stands for one [fetch]
    of [url] with method POST and body [JSON.stringify(payload)];
    [Slept ms] for a timer of [ms] milliseconds, to which the source adds a
    random jitter below one second. *)
Inductive Effect : Type :=
| Fetched (url : string) (payload : JSValue)
| Slept (ms : Z).

Record World : Type := { calls : nat; trace : list Effect }.

Definition start : World := {| calls := 0; trace := [] |}.

(** An asynchronous computation: it transforms the world and either
    resolves or rejects. *)
Definition M (A : Type) : Type := World -> Outcome A * World.

Definition ret {A} (a : A) : M A := fun w => (Ret a, w).

Definition throw {A} (e : Exn) : M A := fun w => (Throw e, w).

Definition bind {A B} (c : M A) (k : A -> M B) : M B :=
  fun w =>
    match c w with
    | (Ret a, w') => k a w'
    | (Throw e, w') => (Throw e, w')
    end.

(** [try { c } catch (error) { h error }] *)
Definition try_catch {A} (c : M A) (h : Exn -> M A) : M A :=
  fun w =>
    match c w with
    | (Ret a, w') => (Ret a, w')
    | (Throw e, w') => h e w'
    end.

(** A synchronous expression evaluated inside an asynchronous function. *)
Definition lift {A} (c : Outcome A) : M A := fun w => (c, w).

Notation "x <- c ;; k" := (bind c (fun x => k))
  (at level 100, c at next level, right associativity).
Notation "c ;;; k" := (bind c (fun _ => k))
  (at level 100, right associativity).

Definition record (e : Effect) (w : World) : World :=
  {| calls := calls w; trace := (trace w ++ [e])%list |}.

(** The world once one more [fetch] has been issued. *)
Definition after_fetch (url : string) (payload : JSValue) (w : World) : World :=
  {| calls := S (calls w);
     trace := (trace w ++ [Fetched url payload])%list |}.

(** [await new Promise(resolve => setTimeout(resolve, delay))] *)
Definition sleep (ms : Z) : M unit := fun w => (Ret tt, record (Slept ms) w).


Section Caller.

Variable rt : Runtime.
Variable net : Network.

(** [await fetch(url, { method: 'POST', headers, body: JSON.stringify(payload) })] *)
Definition fetch (url : string) (payload : JSValue) : M Response :=
  fun w =>
    match net (calls w) with
    | Resolves r => (Ret r, after_fetch url payload w)
    | Rejects reason => (Throw (FetchFailed reason), after_fetch url payload w)
    end.

(** How one turn of the retry loop ends: with [continue] (or by falling
    out of the [catch]), or at [return response.json()]. *)
Inductive Completion : Type :=
| Continue
| ReturnJson (response : Response).

(** The body of the [for] loop of [callApiWithBackoff], for loop index
    [i]. *)
Definition attempt (url : string) (payload : JSValue) (retries i : nat)
  : M Completion :=
  try_catch
    (response <- fetch url payload ;;
     if (status response =? 429)%Z then
       (sleep (2 ^ Z.of_nat i * 1000)%Z ;;;
        ret Continue)
     else if negb (ok response) then
       throw (ApiError (status response) (text response))
     else
       ret (ReturnJson response))
    (fun error =>
       if (i =? retries - 1)%nat then throw error else ret Continue).

(** The loop itself, with [remaining = retries - i] turns to go.  The
    promise of [response.json()] is returned without [await], so its
    rejection is not seen by the [catch] of the loop.  Leaving the loop
    ends the function without a [return]: the caller gets [undefined]. *)
Fixpoint attempts (url : string) (payload : JSValue) (retries remaining : nat)
  : M JSValue :=
  match remaining with
  | O => ret JUndefined
  | S remaining' =>
      c <- attempt url payload retries (retries - remaining) ;;
      match c with
      | Continue => attempts url payload retries remaining'
      | ReturnJson response => lift (parse rt (text response))
      end
  end.

Definition callApiWithBackoff (url : string) (payload : JSValue) (retries : nat)
  : M JSValue :=
  attempts url payload retries retries.

End Caller.

(* ================================================================== *)
(** ** What the Netlify handlers share *)
(* ================================================================== *)

(** The inbound event.  [body] is [None] for an event without a body
    ([null]); [JSON.parse(null)] parses the text ["null"]. *)
Record Event : Type := { httpMethod : string; body : option string }.

Definition body_text (ev : Event) : string :=
  match body ev with
  | Some s => s
  | None => "null"
  end.

(** A response body: absent, a plain string, or [JSON.stringify(v)]. *)
Inductive Body : Type :=
| NoBody
| Text (s : string)
| Json (v : JSValue).

(** The object a handler returns; [headers] is empty when the object has
    no such member. *)
Record HttpResponse : Type := {
  statusCode : Z;
  headers : list (string * string);
  responseBody : Body
}.

Definition CORS_HEADERS : list (string * string) :=
  [ ("Access-Control-Allow-Origin", "*");
    ("Access-Control-Allow-Methods", "POST, OPTIONS");
    ("Access-Control-Allow-Headers", "Content-Type") ].

Fixpoint header (name : string) (hs : list (string * string)) : option string :=
  match hs with
  | [] => None
  | (n, v) :: rest => if n =? name then Some v else header name rest
  end.

Definition allows_origin (r : HttpResponse) : Prop :=
  header "Access-Control-Allow-Origin" (headers r) = Some "*".

(** [{ error: msg }] *)
Definition error_object (msg : JSValue) : JSValue := JObj [("error", msg)].

Definition is_error_body (b : Body) : Prop :=
  exists msg, b = Json (error_object msg).

(** [!API_KEY] is false: the variable is set and not empty. *)
Definition configured (API_KEY : option string) : bool :=
  match API_KEY with
  | Some k => negb (k =? "")
  | None => false
  end.

Definition key_text (API_KEY : option string) : string :=
  match API_KEY with
  | Some k => k
  | None => "undefined"
  end.

(** The responses of generateImage.js before the [try] block, the same in
    both variants. *)
Definition preflight : HttpResponse :=
  {| statusCode := 200; headers := CORS_HEADERS; responseBody := NoBody |}.

Definition method_not_allowed : HttpResponse :=
  {| statusCode := 405;
     headers := CORS_HEADERS;
     responseBody := Text "Method Not Allowed" |}.

Definition not_configured : HttpResponse :=
  {| statusCode := 500;
     headers := CORS_HEADERS;
     responseBody :=
       Json (error_object
               (JStr "CRITICAL: API Key not configured on the server.")) |}.

Definition missing_prompt : HttpResponse :=
  {| statusCode := 400;
     headers := CORS_HEADERS;
     responseBody := Text "Missing prompt" |}.

(** The template literal that wraps the image data into a data URI. *)
Definition imageUrl (rt : Runtime) (base64Data : JSValue) : Outcome string :=
  let* shown := ToString rt base64Data in
  Ret ("data:image/png;base64," ++ shown).

(** The success response of generateImage.js. *)
Definition image_response (url : string) : HttpResponse :=
  {| statusCode := 200;
     headers := CORS_HEADERS;
     responseBody := Json (JObj [ ("imageUrl", JStr url) ]) |}.

(** [errorMessage] of the branch without an image; [rating] is the value
    of [safetyRating]. *)
Definition errorMessage (rt : Runtime) (rating : JSValue) : Outcome string :=
  if truthy rating then
    let* shown := ToString rt rating in
    Ret ("Image was filtered by safety systems. Ratings: " ++ shown)
  else
    Ret "Could not extract image data from API response (check Netlify logs for full response).".

(** The 500 response of generateImage.js when the answer holds no
    image. *)
Definition no_image_response (shown : string) : HttpResponse :=
  {| statusCode := 500;
     headers := CORS_HEADERS;
     responseBody := Json (error_object (JStr ("Generation Error: " ++ shown))) |}.

(** [t] occurs in [s], decided. *)
Fixpoint occurs (t s : string) : bool :=
  match drop_prefix t s with
  | Some _ => true
  | None =>
      match s with
      | "" => false
      | String _ rest => occurs t rest
      end
  end.

(** *** The regular expression of the [catch] block *)

Fixpoint drop_digits (s : string) : string :=
  match s with
  | "" => ""
  | String c rest => if is_digit c then drop_digits rest else s
  end.

(** The pattern of the [catch] block is the text "External API Error ",
    one or more digits, ": ", and a group that takes the rest of the text
    (flag s: line breaks included).  A match that starts at the head of
    [s]: the captured group. *)
Definition match_here (s : string) : option string :=
  match drop_prefix "External API Error " s with
  | Some (String c rest) =>
      if is_digit c then drop_prefix ": " (drop_digits rest) else None
  | _ => None
  end.

(** [error.message.match(pattern)]: the group of the leftmost match. *)
Fixpoint match_api_error (s : string) : option string :=
  match match_here s with
  | Some group => Some group
  | None =>
      match s with
      | "" => None
      | String _ rest => match_api_error rest
      end
  end.

(** *** Methods called on parsed values *)

Definition not_callable {A} (v : JSValue) (method : string) : Outcome A :=
  if nullish v then Throw (TypeError (ReadOfNullish v method))
  else Throw (TypeError (NotAFunction method)).

(** [v.includes(',')] *)
Definition includes (v : JSValue) (c : ascii) : Outcome bool :=
  match v with
  | JStr s => Ret (includes_char c s)
  | JArr elems =>
      Ret (existsb (fun x => match x with
                             | JStr t => t =? String c ""
                             | _ => false
                             end) elems)
  | _ => not_callable v "includes"
  end.

(** [v.split(sep)] *)
Definition split (v : JSValue) (c : ascii) : Outcome (list string) :=
  match v with
  | JStr s => Ret (split_char c s)
  | _ => not_callable v "split"
  end.

(** [pieces[i]] on the array [split] returns. *)
Definition piece (pieces : list string) (i : nat) : JSValue :=
  match nth_error pieces i with
  | Some p => JStr p
  | None => JUndefined
  end.

(** [pieces.pop()] *)
Definition pop (pieces : list string) : JSValue :=
  match rev pieces with
  | p :: _ => JStr p
  | [] => JUndefined
  end.

(** What is left of a category once [split('_').pop()] has cut it down:
    the part after its last underscore. *)
Definition category_label (category : string) : string :=
  match pop (split_char "_" category) with
  | JStr label => label
  | _ => "undefined"
  end.

(** [parts.find(p => p.inlineData)] on the elements of an array. *)
Fixpoint find_inlineData (parts : list JSValue) : Outcome JSValue :=
  match parts with
  | [] => Ret JUndefined
  | p :: rest =>
      let* d := Get p "inlineData" in
      if truthy d then Ret p else find_inlineData rest
  end.

(** [parts?.find(p => p.inlineData)] *)
Definition find (parts : JSValue) : Outcome JSValue :=
  match parts with
  | JUndefined | JNull => Ret JUndefined
  | JArr elems => find_inlineData elems
  | _ => Throw (TypeError (NotAFunction "find"))
  end.

(** [response?.candidates?.[0]?.content?.parts?.find(p => p.inlineData)?.inlineData?.data] *)
Definition inlineImageData (response : JSValue) : Outcome JSValue :=
  let parts :=
    OptGet (OptGet (OptGet (OptGet response "candidates") "0") "content") "parts" in
  let* part := find parts in
  Ret (OptGet (OptGet part "inlineData") "data").

(** The callback of [safetyRatings.map]:
    [r => `${r.category.split('_').pop()}: ${r.probability}`] *)
Definition rating_text (rt : Runtime) (r : JSValue) : Outcome string :=
  let* category := Get r "category" in
  let* pieces := split category "_" in
  let* label := ToString rt (pop pieces) in
  let* probability := Get r "probability" in
  let* shown := ToString rt probability in
  Ret (label ++ ": " ++ shown).

(** The text [rating_text] makes of a rating whose category is a
    string. *)
Definition rating_line (rt : Runtime) (r : JSValue) : string :=
  match Get r "category", ToString rt (OptGet r "probability") with
  | Ret (JStr c), Ret shown => category_label c ++ ": " ++ shown
  | _, _ => ""
  end.

Fixpoint map_rating_text (rt : Runtime) (ratings : list JSValue)
  : Outcome (list string) :=
  match ratings with
  | [] => Ret []
  | r :: rest =>
      let* t := rating_text rt r in
      let* ts := map_rating_text rt rest in
      Ret (t :: ts)
  end.

(** [first?.safetyRatings?.map(...).join('; ')] for the first candidate
    [first]: [undefined] when the chain is cut short. *)
Definition safetyRating (rt : Runtime) (first : JSValue) : Outcome JSValue :=
  match OptGet first "safetyRatings" with
  | JUndefined | JNull => Ret JUndefined
  | JArr ratings =>
      let* ts := map_rating_text rt ratings in
      Ret (JStr (join "; " ts))
  | _ => Throw (TypeError (NotAFunction "map"))
  end.

Section CatchAll.

Variable rt : Runtime.

(** The inner [try] of the [catch] block: the message of the upstream
    error object when the exception text wraps one. *)
Definition unwrap (error : Exn) : Outcome (option JSValue) :=
  match match_api_error (message rt error) with
  | Some group =>
      if group =? "" then Ret None
      else
        let* apiError := parse rt group in
        let* inner := Get apiError "error" in
        let m := OptGet inner "message" in
        if truthy m then Ret (Some m) else Ret None
  | None => Ret None
  end.

Definition caughtMessage (error : Exn) : JSValue :=
  match unwrap error with
  | Ret (Some m) => m
  | _ => JStr (message rt error)
  end.

(** The response of the [catch] block of generateImage.js for the text
    [shown] of the message. *)
Definition failed_response (shown : string) : HttpResponse :=
  {| statusCode := 500;
     headers := CORS_HEADERS;
     responseBody :=
       Json (error_object
               (JStr ("Generation Error: Failed to generate image. " ++ shown))) |}.

(** The [catch] block of generateImage.js, in both variants.  The template
    literal that prints [errorMessage] stands after the inner [try]: when
    the conversion throws, the [catch] block throws. *)
Definition on_error (error : Exn) : Outcome HttpResponse :=
  let* shown := ToString rt (caughtMessage error) in
  Ret (failed_response shown).

End CatchAll.

(* ================================================================== *)
(** ** netlify/functions/generateImage.js, the Imagen variant *)
(* ================================================================== *)

Module Imagen.
Section Handler.

Variable rt : Runtime.
Variable API_KEY : option string.
Variable net : Network.

Definition MODEL_NAME : string := "imagen-4.0-generate-001".

Definition apiUrl : string :=
  "https://generativelanguage.googleapis.com/v1beta/models/"
    ++ MODEL_NAME ++ ":predict?key=" ++ key_text API_KEY.

Definition payload (prompt : JSValue) : JSValue :=
  JObj [ ("instances", JArr [ JObj [ ("prompt", prompt) ] ]);
         ("parameters", JObj [ ("sampleCount", JNum 1);
                               ("aspectRatio", JStr "1:1") ]) ].

(** [prediction && prediction.bytesBase64Encoded] for
    [prediction = response.predictions?.[0]] *)
Definition imageField (response : JSValue) : Outcome JSValue :=
  let* predictions := Get response "predictions" in
  let prediction := OptGet predictions "0" in
  if truthy prediction then Get prediction "bytesBase64Encoded"
  else Ret prediction.

(** The handler from the answer of the upstream call on. *)
Definition respond (response : JSValue) : Outcome HttpResponse :=
  let* base64Data := imageField response in
  if truthy base64Data then
    let* url := imageUrl rt base64Data in
    Ret (image_response url)
  else
    let* candidates := Get response "candidates" in
    let* rating := safetyRating rt (OptGet candidates "0") in
    let* shown := errorMessage rt rating in
    Ret (no_image_response shown).

(** The [try] block up to the upstream call: the payload to send, or
    [None] when the prompt is missing. *)
Definition request (ev : Event) : Outcome (option JSValue) :=
  let* parsed := parse rt (body_text ev) in
  let* prompt := Get parsed "prompt" in
  if negb (truthy prompt) then Ret None
  else Ret (Some (payload prompt)).

(** The [try] block. *)
Definition serve (ev : Event) : M HttpResponse :=
  req <- lift (request ev) ;;
  match req with
  | None => ret missing_prompt
  | Some body =>
      response <- callApiWithBackoff rt net apiUrl body 3 ;;
      lift (respond response)
  end.

Definition handler (ev : Event) : M HttpResponse :=
  if httpMethod ev =? "OPTIONS" then ret preflight
  else if negb (httpMethod ev =? "POST") then ret method_not_allowed
  else if negb (configured API_KEY) then ret not_configured
  else try_catch (serve ev) (fun error => lift (on_error rt error)).

(** Handling [ev] from the world [w], the handler called the upstream
    and the call returned [response], leaving the world [w']. *)
Definition answered (ev : Event) (w : World) (response : JSValue) (w' : World)
  : Prop :=
  httpMethod ev = "POST" /\
  configured API_KEY = true /\
  exists sent,
    request ev = Ret (Some sent) /\
    callApiWithBackoff rt net apiUrl sent 3 w = (Ret response, w').

End Handler.
End Imagen.

(* ================================================================== *)
(** ** generateImage.js, the multi-modal variant (prompt and logo) *)
(* ================================================================== *)

Module Multimodal.
Section Handler.

Variable rt : Runtime.
Variable API_KEY : option string.
Variable net : Network.

Definition MODEL_NAME : string := "gemini-2.5-flash-image-preview".

Definition apiUrl : string :=
  "https://generativelanguage.googleapis.com/v1beta/models/"
    ++ MODEL_NAME ++ ":generateContent?key=" ++ key_text API_KEY.

(** [let rawBase64Data = logoData.data;
     if (rawBase64Data.includes(',')) rawBase64Data = rawBase64Data.split(',')[1];] *)
Definition rawBase64Data (logoData : JSValue) : Outcome JSValue :=
  let* data := Get logoData "data" in
  let* has_comma := includes data "," in
  if has_comma then
    let* pieces := split data "," in
    Ret (piece pieces 1)
  else Ret data.

Definition payload (prompt mimeType data : JSValue) : JSValue :=
  JObj [ ("contents",
          JArr [ JObj [ ("parts",
                         JArr [ JObj [ ("text", prompt) ];
                                JObj [ ("inlineData",
                                        JObj [ ("mimeType", mimeType);
                                               ("data", data) ]) ] ]) ] ]);
         ("generationConfig",
          JObj [ ("responseModalities", JArr [ JStr "TEXT"; JStr "IMAGE" ]) ]) ].

Definition rejected : HttpResponse :=
  {| statusCode := 400;
     headers := CORS_HEADERS;
     responseBody :=
       Json (error_object
               (JStr "Generation Error: The input or prompt may violate safety guidelines, or the model failed to generate output.")) |}.

(** The handler from the answer of the upstream call on. *)
Definition respond (response : JSValue) : Outcome HttpResponse :=
  let* base64Data := inlineImageData response in
  if truthy base64Data then
    let* url := imageUrl rt base64Data in
    Ret (image_response url)
  else
    let* found := Get response "candidates" in
    let candidates := js_or found (JArr []) in
    let* len := Get candidates "length" in
    if strictly_zero len then Ret rejected
    else
      let* first := Get candidates "0" in
      let* rating := safetyRating rt first in
      let* shown := errorMessage rt rating in
      Ret (no_image_response shown).

(** The [try] block up to the upstream call: the payload to send, or
    [None] when the prompt is missing.  The [console.log] of the input
    size reads [rawBase64Data.length]. *)
Definition request (ev : Event) : Outcome (option JSValue) :=
  let* parsed := parse rt (body_text ev) in
  let* prompt := Get parsed "prompt" in
  let* logoData := Get parsed "logoData" in
  if negb (truthy prompt) then Ret None
  else
    let* data := rawBase64Data logoData in
    let* _ := Get data "length" in
    let* mimeType := Get logoData "mimeType" in
    Ret (Some (payload prompt mimeType data)).

(** The [try] block. *)
Definition serve (ev : Event) : M HttpResponse :=
  req <- lift (request ev) ;;
  match req with
  | None => ret missing_prompt
  | Some body =>
      response <- callApiWithBackoff rt net apiUrl body 3 ;;
      lift (respond response)
  end.

Definition handler (ev : Event) : M HttpResponse :=
  if httpMethod ev =? "OPTIONS" then ret preflight
  else if negb (httpMethod ev =? "POST") then ret method_not_allowed
  else if negb (configured API_KEY) then ret not_configured
  else try_catch (serve ev) (fun error => lift (on_error rt error)).

(** Handling [ev] from the world [w], the handler called the upstream
    and the call returned [response], leaving the world [w']. *)
Definition answered (ev : Event) (w : World) (response : JSValue) (w' : World)
  : Prop :=
  httpMethod ev = "POST" /\
  configured API_KEY = true /\
  exists sent,
    request ev = Ret (Some sent) /\
    callApiWithBackoff rt net apiUrl sent 3 w = (Ret response, w').

End Handler.
End Multimodal.

(* ================================================================== *)
(** ** netlify/functions/generate-jersey.js *)
(* ================================================================== *)

Module Jersey.
Section Handler.

Variable rt : Runtime.
Variable API_KEY : option string.
Variable net : Network.

Definition GEMINI_MODEL : string := "gemini-2.5-flash-image-preview".

Definition GEMINI_API_URL : string :=
  "https://generativelanguage.googleapis.com/v1beta/models/"
    ++ GEMINI_MODEL ++ ":generateContent?key=" ++ key_text API_KEY.

Definition payload (prompt mimeType data : JSValue) : JSValue :=
  JObj [ ("contents",
          JArr [ JObj [ ("parts",
                         JArr [ JObj [ ("text", prompt) ];
                                JObj [ ("inlineData",
                                        JObj [ ("mimeType", mimeType);
                                               ("data", data) ]) ] ]) ] ]);
         ("generationConfig",
          JObj [ ("responseModalities", JArr [ JStr "TEXT"; JStr "IMAGE" ]) ]) ].

Definition allow_origin : list (string * string) :=
  [ ("Access-Control-Allow-Origin", "*") ].

(** The branch [if (!apiResponse.ok)]. *)
Definition forward_error (apiResponse : Response) : Outcome HttpResponse :=
  let* errorBody := parse rt (text apiResponse) in
  let* inner := Get errorBody "error" in
  Ret {| statusCode := status apiResponse;
         headers := allow_origin;
         responseBody :=
           Json (error_object
                   (js_or (OptGet inner "message")
                          (JStr "Gemini API call failed."))) |}.

Definition image_response (base64Data : JSValue) : HttpResponse :=
  {| statusCode := 200;
     headers := allow_origin;
     responseBody := Json (JObj [ ("base64Data", base64Data) ]) |}.

Definition no_image_response : HttpResponse :=
  {| statusCode := 500;
     headers := allow_origin;
     responseBody :=
       Json (error_object (JStr "Image generation failed to return data.")) |}.

(** The handler from a successful upstream answer on. *)
Definition respond (result : JSValue) : Outcome HttpResponse :=
  let* base64Data := inlineImageData result in
  if truthy base64Data then Ret (image_response base64Data)
  else Ret no_image_response.

(** The [try] block up to the upstream call: the payload to send. *)
Definition request (ev : Event) : Outcome JSValue :=
  let* parsed := parse rt (body_text ev) in
  let* prompt := Get parsed "prompt" in
  let* logoData := Get parsed "logoData" in
  let* mimeType := Get logoData "mimeType" in
  let* data := Get logoData "data" in
  Ret (payload prompt mimeType data).

(** What the handler makes of the upstream answer. *)
Definition answer (apiResponse : Response) : Outcome HttpResponse :=
  if negb (ok apiResponse) then forward_error apiResponse
  else
    let* result := parse rt (text apiResponse) in
    respond result.

(** The [try] block. *)
Definition serve (ev : Event) : M HttpResponse :=
  body <- lift (request ev) ;;
  apiResponse <- fetch net GEMINI_API_URL body ;;
  lift (answer apiResponse).

Definition preflight : HttpResponse :=
  {| statusCode := 200;
     headers := [ ("Access-Control-Allow-Origin", "*");
                  ("Access-Control-Allow-Methods", "POST, OPTIONS");
                  ("Access-Control-Allow-Headers", "Content-Type") ];
     responseBody := NoBody |}.

Definition not_configured : HttpResponse :=
  {| statusCode := 500;
     headers := [];
     responseBody :=
       Json (error_object
               (JStr "CRITICAL: API Key not configured on the server.")) |}.

Definition method_not_allowed : HttpResponse :=
  {| statusCode := 405;
     headers := [];
     responseBody := Json (error_object (JStr "Method Not Allowed")) |}.

(** The [catch] block. *)
Definition on_error (error : Exn) : HttpResponse :=
  {| statusCode := 500;
     headers := allow_origin;
     responseBody :=
       Json (error_object
               (JStr ("Internal server error: " ++ message rt error))) |}.

Definition handler (ev : Event) : M HttpResponse :=
  if httpMethod ev =? "OPTIONS" then ret preflight
  else if negb (configured API_KEY) then ret not_configured
  else if negb (httpMethod ev =? "POST") then ret method_not_allowed
  else try_catch (serve ev) (fun error => ret (on_error error)).

(** Handling [ev] from the world [w], the handler called the upstream,
    which answered with [apiResponse]. *)
Definition answered (ev : Event) (w : World) (apiResponse : Response)
  : Prop :=
  httpMethod ev = "POST" /\
  configured API_KEY = true /\
  (exists sent, request ev = Ret sent) /\
  net (calls w) = Resolves apiResponse.

End Handler.
End Jersey.

(* ================================================================== *)
(** ** The Google Apps Script variant *)
(* ================================================================== *)

Module AppsScript.
Section Script.

Variable rt : Runtime.
(** [PropertiesService.getScriptProperties().getProperty(API_KEY_PROPERTY)] *)
Variable apiKey : option string.
Variable net : Network.

Definition IMAGE_MODEL : string := "imagen-4.0-generate-001".

Definition MAX_RETRIES : nat := 3.

Definition API_URL : string :=
  "https://generativelanguage.googleapis.com/v1beta/models/"
    ++ IMAGE_MODEL ++ ":predict?key=" ++ key_text apiKey.

Definition payload (prompt : JSValue) : JSValue :=
  JObj [ ("instances", JArr [ JObj [ ("prompt", prompt) ] ]);
         ("parameters", JObj [ ("sampleCount", JNum 1);
                               ("outputMimeType", JStr "image/png") ]) ].

(** The branch [responseCode === 200]: the image, or [null]. *)
Definition image_of (result : JSValue) : Outcome JSValue :=
  let* predictions := Get result "predictions" in
  if negb (truthy predictions) then Ret JNull
  else
    let* len := Get predictions "length" in
    let* positive := above_zero rt len in
    if negb positive then Ret JNull
    else
      let* first := Get predictions "0" in
      let* base64Image := Get first "bytesBase64Encoded" in
      if truthy base64Image then Ret base64Image else Ret JNull.

(** The retry loop, with [remaining = MAX_RETRIES - i] turns to go.
    [UrlFetchApp.fetch] is called with [muteHttpExceptions], so an HTTP
    error status comes back as a response. *)
Fixpoint loop (prompt : JSValue) (remaining : nat) : M JSValue :=
  match remaining with
  | O => ret JNull
  | S remaining' =>
      let i := (MAX_RETRIES - remaining)%nat in
      response <- fetch net API_URL (payload prompt) ;;
      if (status response =? 200)%Z then
        (result <- lift (parse rt (text response)) ;;
         lift (image_of result))
      else if (status response =? 429)%Z && (i <? MAX_RETRIES - 1)%nat then
        (sleep (2 ^ Z.of_nat i * 1000)%Z ;;;
         loop prompt remaining')
      else ret JNull
  end.

(** The [Logger.log] that prints the prompt stands before the [try]: its
    template literal converts the prompt to a string. *)
Definition generateImage (prompt : JSValue) : M JSValue :=
  if negb (configured apiKey) then ret JNull
  else if negb (truthy prompt) then ret JNull
  else
    _ <- lift (ToString rt prompt) ;;
    try_catch (loop prompt MAX_RETRIES) (fun _ => ret JNull).

End Script.
End AppsScript.

(* ================================================================== *)
(** ** A runtime to run the handlers on concrete events *)
(* ================================================================== *)

(** The functions of this part stand for [JSON.stringify] and [JSON.parse]
    on documents whose strings need no escape sequence and whose numbers
    are integers of at most 2^53 in size; the parser reports any other
    text as not well-formed.
    The general statements below hold for every runtime; this one serves
    to evaluate the handlers on explicit inputs. *)

Definition quote : string := String "034"%char "".

Fixpoint render (v : JSValue) : string :=
  match v with
  | JUndefined => "undefined"
  | JNull => "null"
  | JBool true => "true"
  | JBool false => "false"
  | JNum n => string_of_Z n
  | JStr s => quote ++ s ++ quote
  | JArr elems =>
      "[" ++ (fix render_elems (l : list JSValue) : string :=
                match l with
                | [] => ""
                | [x] => render x
                | x :: rest => render x ++ "," ++ render_elems rest
                end) elems ++ "]"
  | JObj fields =>
      "{" ++ (fix render_fields (l : list (string * JSValue)) : string :=
                match l with
                | [] => ""
                | [(k, x)] => quote ++ k ++ quote ++ ":" ++ render x
                | (k, x) :: rest =>
                    quote ++ k ++ quote ++ ":" ++ render x ++ ","
                      ++ render_fields rest
                end) fields ++ "}"
  end.

Definition is_space (c : ascii) : bool :=
  let n := nat_of_ascii c in
  (n =? 32)%nat || (n =? 9)%nat || (n =? 10)%nat || (n =? 13)%nat.

Fixpoint skip_ws (s : string) : string :=
  match s with
  | "" => ""
  | String c rest => if is_space c then skip_ws rest else s
  end.

(** The characters of a string literal up to its closing quote. *)
Fixpoint scan_string (s : string) : option (string * string) :=
  match s with
  | "" => None
  | String c rest =>
      if Ascii.eqb c "034" then Some ("", rest)
      else if Ascii.eqb c "092" then None
      else if (nat_of_ascii c <? 32)%nat then None
      else match scan_string rest with
           | Some (str, rest') => Some (String c str, rest')
           | None => None
           end
  end.

Fixpoint scan_digits (acc : Z) (s : string) : Z * string :=
  match s with
  | "" => (acc, "")
  | String c rest =>
      if is_digit c
      then scan_digits (10 * acc + Z.of_nat (nat_of_ascii c - 48))%Z rest
      else (acc, s)
  end.

Definition scan_number (s : string) : option (Z * string) :=
  match s with
  | String "0" rest => Some (0%Z, rest)
  | String c _ => if is_digit c then Some (scan_digits 0 s) else None
  | "" => None
  end.

Section Documents.

Variable value : string -> option (JSValue * string).

Fixpoint scan_elems (n : nat) (s : string) : option (list JSValue * string) :=
  match n with
  | O => None
  | S n' =>
      match value s with
      | Some (x, rest) =>
          match skip_ws rest with
          | String "," rest' =>
              match scan_elems n' rest' with
              | Some (xs, rest'') => Some (x :: xs, rest'')
              | None => None
              end
          | String "]" rest' => Some ([x], rest')
          | _ => None
          end
      | None => None
      end
  end.

Fixpoint scan_fields (n : nat) (s : string)
  : option (list (string * JSValue) * string) :=
  match n with
  | O => None
  | S n' =>
      match skip_ws s with
      | String "034" afterq =>
          match scan_string afterq with
          | Some (k, rest) =>
              match skip_ws rest with
              | String ":" rest1 =>
                  match value rest1 with
                  | Some (x, rest2) =>
                      match skip_ws rest2 with
                      | String "," rest3 =>
                          match scan_fields n' rest3 with
                          | Some (fs, rest4) => Some ((k, x) :: fs, rest4)
                          | None => None
                          end
                      | String "}" rest3 => Some ([(k, x)], rest3)
                      | _ => None
                      end
                  | None => None
                  end
              | _ => None
              end
          | None => None
          end
      | _ => None
      end
  end.

End Documents.

Fixpoint scan_value (fuel : nat) (s : string) : option (JSValue * string) :=
  match fuel with
  | O => None
  | S fuel' =>
      match skip_ws s with
      | "" => None
      | String c rest =>
          if Ascii.eqb c "034" then
            match scan_string rest with
            | Some (str, rest') => Some (JStr str, rest')
            | None => None
            end
          else if Ascii.eqb c "[" then
            match skip_ws rest with
            | String "]" rest' => Some (JArr [], rest')
            | _ =>
                match scan_elems (scan_value fuel') fuel' rest with
                | Some (xs, rest') => Some (JArr xs, rest')
                | None => None
                end
            end
          else if Ascii.eqb c "{" then
            match skip_ws rest with
            | String "}" rest' => Some (JObj [], rest')
            | _ =>
                match scan_fields (scan_value fuel') fuel' rest with
                | Some (fs, rest') => Some (JObj fs, rest')
                | None => None
                end
            end
          else if Ascii.eqb c "-" then
            match scan_number rest with
            | Some (n, rest') =>
                if (n <=? 2 ^ 53)%Z then Some (JNum (- n), rest') else None
            | None => None
            end
          else if is_digit c then
            match scan_number (String c rest) with
            | Some (n, rest') =>
                if (n <=? 2 ^ 53)%Z then Some (JNum n, rest') else None
            | None => None
            end
          else
            match drop_prefix "null" (String c rest),
                  drop_prefix "true" (String c rest),
                  drop_prefix "false" (String c rest) with
            | Some rest', _, _ => Some (JNull, rest')
            | _, Some rest', _ => Some (JBool true, rest')
            | _, _, Some rest' => Some (JBool false, rest')
            | None, None, None => None
            end
      end
  end.

Definition read_document (s : string) : option JSValue :=
  match scan_value (S (String.length s)) s with
  | Some (v, rest) => if skip_ws rest =? "" then Some v else None
  | None => None
  end.

(** Messages in the style of Node.js, not its exact wording; no general
    statement below depends on the wording.  The conversion of a string to
    a number is the one of integer literals, and numbers print as
    integers, which is what JavaScript prints for them up to 2^53. *)
Definition node_message (e : Exn) : string :=
  match e with
  | TypeError (ReadOfNullish base prop) =>
      "Cannot read properties of "
        ++ match base with JNull => "null" | _ => "undefined" end
        ++ " (reading '" ++ prop ++ "')"
  | TypeError (NotAFunction prop) => prop ++ " is not a function"
  | TypeError (NotPrimitive _) => "Cannot convert object to primitive value"
  | SyntaxError _ => "Unexpected token in JSON"
  | ApiError st errorBody =>
      "External API Error " ++ string_of_Z st ++ ": " ++ errorBody
  | FetchFailed reason => reason
  end.

Definition node : Runtime :=
  {| JSON_parse := read_document;
     engine_message := node_message;
     string_above_zero :=
       fun s => match read_document s with
                | Some (JNum n) => (0 <? n)%Z
                | _ => false
                end;
     Number_toString := string_of_Z |}.

(** An upstream that answers every call with the same response. *)
Definition always (r : Response) : Network := fun _ => Resolves r.

(** An upstream that answers the k-th call with the k-th response of the
    list, and with status 503 after that. *)
Definition scripted (rs : list Response) : Network :=
  fun k => Resolves (nth k rs {| status := 503; text := "" |}).

Definition post (v : JSValue) : Event :=
  {| httpMethod := "POST"; body := Some (render v) |}.

Definition internal_error : Response := {| status := 500; text := "boom" |}.

(** An error answer whose body is an error object with the message
    [msg]. *)
Definition error_answer (st : Z) (msg : JSValue) : Response :=
  {| status := st;
     text := render (JObj [ ("error", JObj [ ("message", msg) ]) ]) |}.

(** An answer of the generateContent endpoint with one inline image. *)
Definition content_answer (data : string) : Response :=
  {| status := 200;
     text := render
       (JObj [ ("candidates",
                JArr [ JObj [ ("content",
                  JObj [ ("parts",
                    JArr [ JObj [ ("inlineData",
                      JObj [ ("mimeType", JStr "image/png");
                             ("data", JStr data) ]) ] ]) ]) ] ]) ]) |}.

(** An answer of the generateContent endpoint with [candidates] and no
    image. *)
Definition candidates_answer (candidates : JSValue) : Response :=
  {| status := 200; text := render (JObj [ ("candidates", candidates) ]) |}.

(** An answer of the predict endpoint with one prediction. *)
Definition prediction_answer (bytes : string) : Response :=
  {| status := 200;
     text := render
       (JObj [ ("predictions",
                JArr [ JObj [ ("bytesBase64Encoded", JStr bytes) ] ]) ]) |}.

Definition logo (data : string) : JSValue :=
  JObj [ ("mimeType", JStr "image/png"); ("data", JStr data) ].

Definition rating_of (category probability : string) : JSValue :=
  JObj [ ("category", JStr category); ("probability", JStr probability) ].

(** An answer whose only candidate carries safety ratings and no content. *)
Definition filtered_answer (ratings : list JSValue) : Response :=
  candidates_answer (JArr [ JObj [ ("safetyRatings", JArr ratings) ] ]).

(* ================================================================== *)
(** ** The rest of the Apps Script file *)
(* ================================================================== *)

Module ScriptProperties.

(** The store behind [PropertiesService.getScriptProperties()]. *)
Definition Properties : Type := string -> option string.

Definition getProperty (props : Properties) (key : string) : option string :=
  props key.

Definition setProperty (key value : string) (props : Properties) : Properties :=
  fun k => if k =? key then Some value else props k.

Definition API_KEY_PROPERTY : string := "GEMINI_API_KEY".

Section SetApiKey.

(** The string literal that the source assigns to [myApiKey]; the guard of
    [setApiKey] compares [myApiKey] with the same literal. *)
Variable key_literal : string.

Definition myApiKey : string := key_literal.

(** [setApiKey()]: the store it leaves and the lines it logs. *)
Definition setApiKey (props : Properties) : Properties * list string :=
  if myApiKey =? key_literal then
    (props,
     ["Error: Please replace 'YOUR_GEMINI_API_KEY_HERE' with your actual key before running setApiKey()."])
  else
    (setProperty API_KEY_PROPERTY myApiKey props,
     ["API Key saved securely to PropertiesService."]).

End SetApiKey.

(** What [runTest] reports with the last line it logs. *)
Inductive TestReport : Type :=
| SetupRequired
| ImageReceived
| GenerationFailed.

Definition testPrompt : string :=
  "A photorealistic image of a golden retriever wearing a tiny chef hat, standing in a brightly lit kitchen.".

(** [runTest()] on the store [props]. *)
Definition runTest (rt : Runtime) (props : Properties) (net : Network)
  : M TestReport :=
  if negb (configured (getProperty props API_KEY_PROPERTY)) then
    ret SetupRequired
  else
    base64Data <- AppsScript.generateImage rt
                    (getProperty props API_KEY_PROPERTY) net (JStr testPrompt) ;;
    if truthy base64Data then ret ImageReceived else ret GenerationFailed.

End ScriptProperties.

(* ================================================================== *)
(** ** Vocabulary for the statements *)
(* ================================================================== *)

(** The pauses among the effects of a run. *)
Fixpoint sleeps (effects : list Effect) : list Z :=
  match effects with
  | [] => []
  | Slept ms :: rest => ms :: sleeps rest
  | Fetched _ _ :: rest => sleeps rest
  end.

(** The pause [callApiWithBackoff] takes after a 429 on turn [i], without
    the jitter. *)
Definition backoff (i : nat) : Z := (2 ^ Z.of_nat i * 1000)%Z.

(** The error that an attempt of [callApiWithBackoff] raises on a given
    outcome of [fetch]: none for a 429 and for a success. *)
Definition failure (o : FetchOutcome) : option Exn :=
  match o with
  | Rejects reason => Some (FetchFailed reason)
  | Resolves r =>
      if (status r =? 429)%Z then None
      else if ok r then None
      else Some (ApiError (status r) (text r))
  end.

(** The world after [n] more [fetch] calls of the same request and no
    pause. *)
Fixpoint after_fetches (n : nat) (url : string) (payload : JSValue) (w : World)
  : World :=
  match n with
  | O => w
  | S n' => after_fetches n' url payload (after_fetch url payload w)
  end.

Fixpoint all_digits (s : string) : bool :=
  match s with
  | "" => true
  | String c rest => is_digit c && all_digits rest
  end.

(* ================================================================== *)
(** * Properties *)
(* ================================================================== *)

Ltac run :=
  unfold bind, try_catch, ret, throw, lift, sleep, fetch; cbn beta iota.

(** ** The retry loop *)

Section CallerFacts.

Variable rt : Runtime.
Variable net : Network.
Variables (url : string) (payload : JSValue).

Lemma ok_not_429 (r : Response) : ok r = true -> (status r =? 429)%Z = false.
Proof. unfold ok. intros H. apply andb_prop in H. lia. Qed.

(** A rate-limited turn sleeps [2^i] seconds and goes on, whatever [i]. *)
Lemma attempt_rate_limited retries i w r :
  net (calls w) = Resolves r -> status r = 429%Z ->
  attempt net url payload retries i w =
    (Ret Continue,
     record (Slept (2 ^ Z.of_nat i * 1000)) (after_fetch url payload w)).
Proof.
  intros Hnet Hst. unfold attempt. run. rewrite Hnet, Hst. reflexivity.
Qed.

Lemma attempt_ok retries i w r :
  net (calls w) = Resolves r -> ok r = true ->
  attempt net url payload retries i w =
    (Ret (ReturnJson r), after_fetch url payload w).
Proof.
  intros Hnet Hok. unfold attempt. run.
  rewrite Hnet, (ok_not_429 _ Hok), Hok. reflexivity.
Qed.

(** An error status throws inside the [try]; the [catch] lets the error
    out on the last turn only. *)
Lemma attempt_error_status retries i w r :
  net (calls w) = Resolves r -> status r <> 429%Z -> ok r = false ->
  attempt net url payload retries i w =
    (if (i =? retries - 1)%nat
     then Throw (ApiError (status r) (text r))
     else Ret Continue,
     after_fetch url payload w).
Proof.
  intros Hnet Hst Hok. unfold attempt. run. rewrite Hnet.
  destruct (Z.eqb_spec (status r) 429) as [E|_]; [contradiction|].
  rewrite Hok. cbn. destruct (i =? retries - 1)%nat; reflexivity.
Qed.

Lemma attempt_rejected retries i w reason :
  net (calls w) = Rejects reason ->
  attempt net url payload retries i w =
    (if (i =? retries - 1)%nat
     then Throw (FetchFailed reason)
     else Ret Continue,
     after_fetch url payload w).
Proof.
  intros Hnet. unfold attempt. run. rewrite Hnet.
  destruct (i =? retries - 1)%nat; reflexivity.
Qed.

Lemma attempts_step retries remaining w :
  attempts rt net url payload retries (S remaining) w =
    match attempt net url payload retries (retries - S remaining) w with
    | (Ret Continue, w') => attempts rt net url payload retries remaining w'
    | (Ret (ReturnJson response), w') => (parse rt (text response), w')
    | (Throw e, w') => (Throw e, w')
    end.
Proof.
  cbn [attempts]. unfold bind.
  destruct (attempt net url payload retries (retries - S remaining) w)
    as [[[|response]|e] w']; reflexivity.
Qed.

(** The whole call when the first answer is a success. *)
Lemma callApiWithBackoff_first_ok retries w r :
  net (calls w) = Resolves r -> ok r = true ->
  callApiWithBackoff rt net url payload (S retries) w =
    (parse rt (text r), after_fetch url payload w).
Proof.
  intros Hnet Hok. unfold callApiWithBackoff.
  rewrite attempts_step, (attempt_ok _ _ _ Hnet Hok). reflexivity.
Qed.

(** Every turn rate limited: the loop runs dry and the function ends
    without a value and without an error. *)
Lemma attempts_all_rate_limited retries :
  (forall k, exists t, net k = Resolves {| status := 429; text := t |}) ->
  forall remaining w,
    fst (attempts rt net url payload retries remaining w) = Ret JUndefined /\
    calls (snd (attempts rt net url payload retries remaining w)) =
      (calls w + remaining)%nat.
Proof.
  intros Hall. induction remaining as [|remaining IH]; intros w.
  - cbn. split; [reflexivity | lia].
  - rewrite attempts_step. destruct (Hall (calls w)) as [t Ht].
    rewrite (attempt_rate_limited _ _ _ Ht eq_refl).
    destruct (IH (record (Slept (2 ^ Z.of_nat (retries - S remaining) * 1000))
                         (after_fetch url payload w))) as [Hv Hc].
    split; [exact Hv|]. rewrite Hc. cbn. lia.
Qed.

(** Every turn answered by an error status: as many calls as turns, no
    pause, and the error of the last answer comes out. *)
Lemma attempts_all_errors retries r :
  (forall k, net k = Resolves r) -> status r <> 429%Z -> ok r = false ->
  forall remaining w,
    (S remaining <= retries)%nat ->
    fst (attempts rt net url payload retries (S remaining) w) =
      Throw (ApiError (status r) (text r)) /\
    calls (snd (attempts rt net url payload retries (S remaining) w)) =
      (calls w + S remaining)%nat.
Proof.
  intros Hall Hst Hok. induction remaining as [|remaining IH]; intros w Hle.
  - rewrite attempts_step, (attempt_error_status _ _ _ (Hall _) Hst Hok).
    replace (retries - 1 =? retries - 1)%nat with true
      by (symmetry; apply Nat.eqb_refl).
    cbn. split; [reflexivity | lia].
  - rewrite attempts_step, (attempt_error_status _ _ _ (Hall _) Hst Hok).
    destruct (Nat.eqb_spec (retries - S (S remaining)) (retries - 1)) as [E|_];
      [lia|].
    destruct (IH (after_fetch url payload w)) as [Hv Hc]; [lia|].
    split; [exact Hv|]. rewrite Hc. cbn. lia.
Qed.

(** The first effect of a call with at least one turn is a [fetch] of
    the payload. *)
Lemma attempt_world retries i w :
  exists rest,
    trace (snd (attempt net url payload retries i w)) =
      (trace w ++ Fetched url payload :: rest)%list.
Proof.
  unfold attempt. run.
  destruct (net (calls w)) as [r|reason].
  - destruct (status r =? 429)%Z.
    + exists [Slept (2 ^ Z.of_nat i * 1000)]. cbn.
      rewrite <- app_assoc. reflexivity.
    + destruct (negb (ok r)); cbn.
      * destruct (i =? retries - 1)%nat; exists []; reflexivity.
      * exists []. reflexivity.
  - destruct (i =? retries - 1)%nat; exists []; reflexivity.
Qed.

Lemma attempts_trace_grows retries remaining w :
  exists rest,
    trace (snd (attempts rt net url payload retries remaining w)) =
      (trace w ++ rest)%list.
Proof.
  revert w. induction remaining as [|remaining IH]; intros w.
  - exists []. cbn. now rewrite app_nil_r.
  - rewrite attempts_step.
    destruct (attempt_world retries (retries - S remaining) w) as [rest Hrest].
    destruct (attempt net url payload retries (retries - S remaining) w)
      as [[[|response]|e] w']; cbn in Hrest |- *.
    + destruct (IH w') as [rest' Hrest']. rewrite Hrest', Hrest.
      rewrite <- app_assoc. eauto.
    + eauto.
    + eauto.
Qed.

Lemma callApiWithBackoff_first_effect retries w :
  exists rest,
    trace (snd (callApiWithBackoff rt net url payload (S retries) w)) =
      (trace w ++ Fetched url payload :: rest)%list.
Proof.
  unfold callApiWithBackoff. rewrite attempts_step.
  destruct (attempt_world (S retries) (S retries - S retries) w) as [rest Hrest].
  destruct (attempt net url payload (S retries) (S retries - S retries) w)
    as [[[|response]|e] w']; cbn in Hrest |- *.
  - destruct (attempts_trace_grows (S retries) retries w') as [rest' Hrest'].
    rewrite Hrest', Hrest, <- app_assoc. cbn. eauto.
  - eauto.
  - eauto.
Qed.

End CallerFacts.

(** C1 (amended).  When an attempt of [callApiWithBackoff] is answered with
    a status that is neither 429 nor 2xx, the error that carries the status
    code and the body text leaves the caller only if that attempt is the
    last one of the [retries]; on an earlier attempt the [catch] of the
    loop swallows it and the next attempt follows at once, without a
    pause. *)
Theorem C1_error_status_fails_on_last_attempt_only :
  forall (rt : Runtime) (net : Network) (url : string) (payload : JSValue)
         (retries remaining : nat) (w : World) (r : Response),
    net (calls w) = Resolves r ->
    status r <> 429%Z ->
    ok r = false ->
    (S remaining <= retries)%nat ->
    attempts rt net url payload retries (S remaining) w =
      match remaining with
      | O => (Throw (ApiError (status r) (text r)), after_fetch url payload w)
      | S _ => attempts rt net url payload retries remaining
                 (after_fetch url payload w)
      end
    /\ message rt (ApiError (status r) (text r)) =
         "External API Error " ++ string_of_Z (status r) ++ ": " ++ text r.
Proof.
  intros rt net url payload retries remaining w r Hnet Hst Hok Hle.
  split; [|reflexivity].
  rewrite attempts_step.
  rewrite attempt_error_status with (r := r) by assumption.
  destruct remaining as [|remaining].
  - replace (retries - 1 =? retries - 1)%nat with true
      by (symmetry; apply Nat.eqb_refl).
    reflexivity.
  - destruct (Nat.eqb_spec (retries - S (S remaining)) (retries - 1)) as [E|_];
      [lia | reflexivity].
Qed.

Lemma C1_error_status_witness :
  attempts node (always internal_error) "u" JNull 3 1 start =
    (Throw (ApiError 500 "boom"), after_fetch "u" JNull start)
  /\ message node (ApiError 500 "boom") = "External API Error 500: boom".
Proof.
  apply (C1_error_status_fails_on_last_attempt_only
           node (always internal_error) "u" JNull (retries := 3) (remaining := 0)
           start (r := internal_error)).
  - reflexivity.
  - cbn. discriminate.
  - reflexivity.
  - repeat constructor.
Defined.

(** C1 as stated fails: the first answer has status 500, yet the caller
    does not fail; it calls the upstream a second time and returns what
    that call gives. *)
Lemma C1_counterexample_retry_after_error_status :
  status internal_error <> 429%Z /\
  ok internal_error = false /\
  callApiWithBackoff node
    (scripted [internal_error; {| status := 200; text := render (JObj []) |}])
    "u" JNull 3 start
  = (Ret (JObj []),
     {| calls := 2; trace := [Fetched "u" JNull; Fetched "u" JNull] |}).
Proof.
  split; [cbn; discriminate|]. split; reflexivity.
Qed.

(** C2 (the code at the failing input).  With three answers of status 429
    the caller does not fail: it sleeps after each of them, the last one
    included, falls out of the loop and returns [undefined].  The Imagen
    handler then trips over [response.predictions] and answers 500 with the
    message of that TypeError; no rate-limit reason is in the response. *)
Theorem C2_rate_limit_exhaustion_returns_undefined :
  forall (rt : Runtime) (url : string) (payload : JSValue) (t : string),
    callApiWithBackoff rt (always {| status := 429; text := t |}) url payload 3 start
    = (Ret JUndefined,
       {| calls := 3;
          trace := [ Fetched url payload; Slept 1000;
                     Fetched url payload; Slept 2000;
                     Fetched url payload; Slept 4000 ] |})
    /\ fst (Imagen.handler node (Some "k") (always {| status := 429; text := t |})
              (post (JObj [("prompt", JStr "a cat")])) start)
       = Ret (failed_response
                (message node (TypeError (ReadOfNullish JUndefined "predictions"))))
    /\ fst (Multimodal.handler node (Some "k")
              (always {| status := 429; text := t |})
              (post (JObj [("prompt", JStr "a cat"); ("logoData", logo "AAA")]))
              start)
       = Ret (failed_response
                (message node (TypeError (ReadOfNullish JUndefined "candidates")))).
Proof.
  intros rt url payload t. repeat split; reflexivity.
Qed.

(** The Apps Script loop retries a 429 only while [i < MAX_RETRIES - 1]:
    the third 429 ends the function with [null], and no pause follows
    it. *)
Lemma AppsScript_rate_limit_exhaustion :
  forall (rt : Runtime) (t : string),
    AppsScript.generateImage rt (Some "k")
      (always {| status := 429; text := t |}) (JStr "a cat") start
    = (Ret JNull,
       {| calls := 3;
          trace :=
            [ Fetched (AppsScript.API_URL (Some "k"))
                (AppsScript.payload (JStr "a cat"));
              Slept 1000;
              Fetched (AppsScript.API_URL (Some "k"))
                (AppsScript.payload (JStr "a cat"));
              Slept 2000;
              Fetched (AppsScript.API_URL (Some "k"))
                (AppsScript.payload (JStr "a cat")) ] |}).
Proof. intros rt t. reflexivity. Qed.

(** ** What the handlers can answer *)

Lemma obind_Ret {A B} (c : Outcome A) (k : A -> Outcome B) (b : B) :
  obind c k = Ret b -> exists a, c = Ret a /\ k a = Ret b.
Proof. destruct c as [a|e]; cbn; [eauto | discriminate]. Qed.

Ltac invert_obind H :=
  let a := fresh "a" in
  let Ha := fresh "Ha" in
  apply obind_Ret in H; destruct H as (a & Ha & H).



Lemma on_error_inv (rt : Runtime) (e : Exn) (r : HttpResponse) :
  on_error rt e = Ret r -> exists shown, r = failed_response shown.
Proof.
  unfold on_error. intros H. invert_obind H. inversion H. eauto.
Qed.

(** An exception whose text does not hold the pattern of an upstream error
    is printed as it is. *)
Lemma on_error_plain (rt : Runtime) (e : Exn) :
  match_api_error (message rt e) = None ->
  on_error rt e = Ret (failed_response (message rt e)).
Proof.
  intros H. unfold on_error, caughtMessage, unwrap. rewrite H. reflexivity.
Qed.

Section ImagenFacts.

Variable rt : Runtime.
Variable API_KEY : option string.
Variable net : Network.

(** The two ways [respond] can end well. *)
Lemma Imagen_respond_cases response r :
  Imagen.respond rt response = Ret r ->
  (exists base64Data shown,
      Imagen.imageField response = Ret base64Data /\
      truthy base64Data = true /\
      ToString rt base64Data = Ret shown /\
      r = image_response ("data:image/png;base64," ++ shown))
  \/ (exists shown, r = no_image_response shown).
Proof.
  unfold Imagen.respond. intros H. invert_obind H.
  destruct (truthy a) eqn:Ht.
  - left. unfold imageUrl in H.
    destruct (ToString rt a) as [shown|e] eqn:Hshown; [|discriminate].
    inversion H. exists a, shown. auto.
  - right. invert_obind H. invert_obind H. invert_obind H. inversion H. eauto.
Qed.

(** A property that holds of the responses of all the branches of the
    handler holds of every response it returns. *)
Lemma Imagen_handler_inv (P : HttpResponse -> Prop) :
  P preflight -> P method_not_allowed -> P not_configured ->
  P missing_prompt ->
  (forall shown, P (failed_response shown)) ->
  (forall response r, Imagen.respond rt response = Ret r -> P r) ->
  forall ev w r w',
    Imagen.handler rt API_KEY net ev w = (Ret r, w') -> P r.
Proof.
  intros Hpre Hmeth Hcfg Hmiss Herr Hresp ev w r w'. unfold Imagen.handler.
  assert (Hcatch : forall e w0,
            (on_error rt e, w0) = (Ret r, w') -> P r).
  { intros e w0 H. inversion H as [[H1 H2]].
    destruct (on_error_inv _ _ H1) as [shown ->]. apply Herr. }
  destruct (httpMethod ev =? "OPTIONS"); [run; intros H; now inversion H|].
  destruct (negb (httpMethod ev =? "POST")); [run; intros H; now inversion H|].
  destruct (negb (configured API_KEY)); [run; intros H; now inversion H|].
  unfold Imagen.serve. run.
  destruct (Imagen.request rt ev) as [[sent|]|e];
    [| intros H; now inversion H | apply Hcatch].
  destruct (callApiWithBackoff rt net (Imagen.apiUrl API_KEY) sent 3 w)
    as [[response|e] w0]; [| apply Hcatch].
  destruct (Imagen.respond rt response) as [r0|e] eqn:Hr; [| apply Hcatch].
  intros H. inversion H. subst. eapply Hresp, Hr.
Qed.


(** The run of the handler once the upstream call has returned. *)
Lemma Imagen_handler_answered ev w response w' :
  Imagen.answered rt API_KEY net ev w response w' ->
  Imagen.handler rt API_KEY net ev w =
    (match Imagen.respond rt response with
     | Ret r => Ret r
     | Throw e => on_error rt e
     end, w').
Proof.
  intros (Hpost & Hcfg & sent & Hreq & Hcall). unfold Imagen.handler.
  rewrite Hpost, Hcfg. cbn [String.eqb Ascii.eqb Bool.eqb negb].
  unfold Imagen.serve. run. rewrite Hreq, Hcall.
  destruct (Imagen.respond rt response); reflexivity.
Qed.

(** What the [try] block does then. *)
Lemma Imagen_serve_answered ev w response w' :
  Imagen.answered rt API_KEY net ev w response w' ->
  Imagen.serve rt API_KEY net ev w = (Imagen.respond rt response, w').
Proof.
  intros (Hpost & Hcfg & sent & Hreq & Hcall).
  unfold Imagen.serve. run. rewrite Hreq, Hcall. reflexivity.
Qed.

End ImagenFacts.

Section MultimodalFacts.

Variable rt : Runtime.
Variable API_KEY : option string.
Variable net : Network.

Lemma Multimodal_respond_cases response r :
  Multimodal.respond rt response = Ret r ->
  (exists base64Data shown,
      inlineImageData response = Ret base64Data /\
      truthy base64Data = true /\
      ToString rt base64Data = Ret shown /\
      r = image_response ("data:image/png;base64," ++ shown))
  \/ r = Multimodal.rejected
  \/ (exists shown, r = no_image_response shown).
Proof.
  unfold Multimodal.respond. intros H. invert_obind H.
  destruct (truthy a) eqn:Ht.
  - left. unfold imageUrl in H.
    destruct (ToString rt a) as [shown|e] eqn:Hshown; [|discriminate].
    inversion H. exists a, shown. auto.
  - right. invert_obind H. invert_obind H.
    destruct (strictly_zero a1).
    + left. now inversion H.
    + right. invert_obind H. invert_obind H. invert_obind H.
      inversion H. eauto.
Qed.

Lemma Multimodal_handler_inv (P : HttpResponse -> Prop) :
  P preflight -> P method_not_allowed -> P not_configured ->
  P missing_prompt ->
  (forall shown, P (failed_response shown)) ->
  (forall response r, Multimodal.respond rt response = Ret r -> P r) ->
  forall ev w r w',
    Multimodal.handler rt API_KEY net ev w = (Ret r, w') -> P r.
Proof.
  intros Hpre Hmeth Hcfg Hmiss Herr Hresp ev w r w'. unfold Multimodal.handler.
  assert (Hcatch : forall e w0,
            (on_error rt e, w0) = (Ret r, w') -> P r).
  { intros e w0 H. inversion H as [[H1 H2]].
    destruct (on_error_inv _ _ H1) as [shown ->]. apply Herr. }
  destruct (httpMethod ev =? "OPTIONS"); [run; intros H; now inversion H|].
  destruct (negb (httpMethod ev =? "POST")); [run; intros H; now inversion H|].
  destruct (negb (configured API_KEY)); [run; intros H; now inversion H|].
  unfold Multimodal.serve. run.
  destruct (Multimodal.request rt ev) as [[sent|]|e];
    [| intros H; now inversion H | apply Hcatch].
  destruct (callApiWithBackoff rt net (Multimodal.apiUrl API_KEY) sent 3 w)
    as [[response|e] w0]; [| apply Hcatch].
  destruct (Multimodal.respond rt response) as [r0|e] eqn:Hr; [| apply Hcatch].
  intros H. inversion H. subst. eapply Hresp, Hr.
Qed.


Lemma Multimodal_handler_answered ev w response w' :
  Multimodal.answered rt API_KEY net ev w response w' ->
  Multimodal.handler rt API_KEY net ev w =
    (match Multimodal.respond rt response with
     | Ret r => Ret r
     | Throw e => on_error rt e
     end, w').
Proof.
  intros (Hpost & Hcfg & sent & Hreq & Hcall). unfold Multimodal.handler.
  rewrite Hpost, Hcfg. cbn [String.eqb Ascii.eqb Bool.eqb negb].
  unfold Multimodal.serve. run. rewrite Hreq, Hcall.
  destruct (Multimodal.respond rt response); reflexivity.
Qed.

Lemma Multimodal_serve_answered ev w response w' :
  Multimodal.answered rt API_KEY net ev w response w' ->
  Multimodal.serve rt API_KEY net ev w = (Multimodal.respond rt response, w').
Proof.
  intros (Hpost & Hcfg & sent & Hreq & Hcall).
  unfold Multimodal.serve. run. rewrite Hreq, Hcall. reflexivity.
Qed.

End MultimodalFacts.

Section JerseyFacts.

Variable rt : Runtime.
Variable API_KEY : option string.
Variable net : Network.

Lemma Jersey_answer_cases apiResponse r :
  Jersey.answer rt apiResponse = Ret r ->
  (ok apiResponse = false /\
   statusCode r = status apiResponse /\
   headers r = Jersey.allow_origin /\
   is_error_body (responseBody r))
  \/ (exists result base64Data,
        ok apiResponse = true /\
        JSON_parse rt (text apiResponse) = Some result /\
        inlineImageData result = Ret base64Data /\
        truthy base64Data = true /\ r = Jersey.image_response base64Data)
  \/ r = Jersey.no_image_response.
Proof.
  unfold Jersey.answer. destruct (ok apiResponse); cbn [negb]; intros H.
  - right. invert_obind H. unfold Jersey.respond in H. invert_obind H.
    unfold parse in Ha.
    destruct (JSON_parse rt (text apiResponse)) as [result|] eqn:Hp;
      [|discriminate].
    inversion Ha; subst a.
    destruct (truthy a0) eqn:Ht; inversion H; [left | right; reflexivity].
    exists result, a0. auto.
  - left. unfold Jersey.forward_error in H. invert_obind H. invert_obind H.
    inversion H. cbn. unfold is_error_body. eauto.
Qed.

Lemma Jersey_handler_inv (P : HttpResponse -> Prop) :
  P Jersey.preflight -> P Jersey.not_configured ->
  P Jersey.method_not_allowed ->
  (forall e, P (Jersey.on_error rt e)) ->
  (forall apiResponse r, Jersey.answer rt apiResponse = Ret r -> P r) ->
  forall ev w,
  exists r w', Jersey.handler rt API_KEY net ev w = (Ret r, w') /\ P r.
Proof.
  intros Hpre Hcfg Hmeth Herr Hans ev w. unfold Jersey.handler.
  destruct (httpMethod ev =? "OPTIONS"); [run; eauto|].
  destruct (negb (configured API_KEY)); [run; eauto|].
  destruct (negb (httpMethod ev =? "POST")); [run; eauto|].
  unfold Jersey.serve. run.
  destruct (Jersey.request rt ev) as [sent|e]; [| eauto].
  destruct (net (calls w)) as [apiResponse|reason]; [| eauto].
  destruct (Jersey.answer rt apiResponse) as [r|e] eqn:Hr; eauto.
Qed.

Lemma Jersey_handler_answered ev w apiResponse :
  Jersey.answered rt API_KEY net ev w apiResponse ->
  exists sent,
    Jersey.request rt ev = Ret sent /\
    Jersey.handler rt API_KEY net ev w =
      (match Jersey.answer rt apiResponse with
       | Ret r => Ret r
       | Throw e => Ret (Jersey.on_error rt e)
       end, after_fetch (Jersey.GEMINI_API_URL API_KEY) sent w).
Proof.
  intros (Hpost & Hcfg & (sent & Hreq) & Hnet). exists sent. split; [exact Hreq|].
  unfold Jersey.handler.
  rewrite Hpost, Hcfg. cbn [String.eqb Ascii.eqb Bool.eqb negb].
  unfold Jersey.serve. run. rewrite Hreq, Hnet.
  destruct (Jersey.answer rt apiResponse); reflexivity.
Qed.

End JerseyFacts.

Lemma Get_defined (v : JSValue) (k : string) (x : JSValue) :
  Get v k = Ret x -> forall k', Get v k' = Ret (OptGet v k').
Proof.
  intros H k'. unfold OptGet.
  destruct v; cbn in H |- *; try discriminate; try reflexivity.
  - destruct (k' =? "length"); [reflexivity|].
    destruct (index_of_key k'); reflexivity.
  - destruct (k' =? "length"); [reflexivity|].
    destruct (index_of_key k'); reflexivity.
Qed.

(** ** Validation of the prompt *)

(** X24.  In both variants of generateImage.js, a POST request that reaches a
    server with the API key configured, whose body parses to a value other
    than [null] with a missing or otherwise falsy [prompt], is answered
    with status 400, and the world is left as it was: no upstream call is
    made. *)
Theorem generateImage_missing_prompt_is_400_without_upstream_call :
  forall (rt : Runtime) (API_KEY : option string) (net : Network)
         (ev : Event) (w : World) (parsed prompt : JSValue),
    httpMethod ev = "POST" ->
    configured API_KEY = true ->
    JSON_parse rt (body_text ev) = Some parsed ->
    Get parsed "prompt" = Ret prompt ->
    truthy prompt = false ->
    Imagen.handler rt API_KEY net ev w = (Ret missing_prompt, w) /\
    Multimodal.handler rt API_KEY net ev w = (Ret missing_prompt, w) /\
    statusCode missing_prompt = 400%Z.
Proof.
  intros rt API_KEY net ev w parsed prompt Hpost Hcfg Hparse Hprompt Hfalsy.
  split; [|split; [|reflexivity]].
  - unfold Imagen.handler. rewrite Hpost, Hcfg.
    cbn [String.eqb Ascii.eqb Bool.eqb negb].
    unfold Imagen.serve, Imagen.request, parse. run.
    rewrite Hparse. cbn [obind]. rewrite Hprompt. cbn [obind].
    rewrite Hfalsy. reflexivity.
  - unfold Multimodal.handler. rewrite Hpost, Hcfg.
    cbn [String.eqb Ascii.eqb Bool.eqb negb].
    unfold Multimodal.serve, Multimodal.request, parse. run.
    rewrite Hparse. cbn [obind]. rewrite Hprompt. cbn [obind].
    rewrite (Get_defined _ _ Hprompt "logoData"). cbn [obind].
    rewrite Hfalsy. reflexivity.
Qed.

Lemma generateImage_missing_prompt_witness :
  Imagen.handler node (Some "k") (always internal_error)
    (post (JObj [("prompt", JStr "")])) start = (Ret missing_prompt, start) /\
  Multimodal.handler node (Some "k") (always internal_error)
    (post (JObj [("prompt", JStr "")])) start = (Ret missing_prompt, start) /\
  statusCode missing_prompt = 400%Z.
Proof.
  apply (generateImage_missing_prompt_is_400_without_upstream_call
           node (Some "k") (always internal_error)
           (post (JObj [("prompt", JStr "")])) start
           (parsed := JObj [("prompt", JStr "")]) (prompt := JStr ""));
    reflexivity.
Defined.

(** C4 (the code at the failing inputs).  generate-jersey.js has no check
    of the prompt, unlike both variants of generateImage.js.  A POST
    request with a logo and a missing or empty prompt is not turned down:
    the handler calls the upstream once, with the falsy prompt as the text
    part of the payload, and its answer is what it makes of the upstream
    answer. *)
Theorem C4_jersey_calls_upstream_without_prompt :
  forall (rt : Runtime) (API_KEY : option string) (net : Network)
         (ev : Event) (w : World)
         (parsed prompt logoData mimeType data : JSValue)
         (apiResponse : Response),
    httpMethod ev = "POST" ->
    configured API_KEY = true ->
    JSON_parse rt (body_text ev) = Some parsed ->
    Get parsed "prompt" = Ret prompt ->
    truthy prompt = false ->
    Get parsed "logoData" = Ret logoData ->
    Get logoData "mimeType" = Ret mimeType ->
    Get logoData "data" = Ret data ->
    net (calls w) = Resolves apiResponse ->
    Jersey.handler rt API_KEY net ev w =
      (match Jersey.answer rt apiResponse with
       | Ret r => Ret r
       | Throw e => Ret (Jersey.on_error rt e)
       end,
       {| calls := S (calls w);
          trace := (trace w
                      ++ [Fetched (Jersey.GEMINI_API_URL API_KEY)
                            (Jersey.payload prompt mimeType data)])%list |}).
Proof.
  intros rt API_KEY net ev w parsed prompt logoData mimeType data apiResponse
         Hpost Hcfg Hparse Hprompt Hfalsy Hlogo Hmime Hdata Hnet.
  unfold Jersey.handler. rewrite Hpost, Hcfg.
  cbn [String.eqb Ascii.eqb Bool.eqb negb].
  unfold Jersey.serve, Jersey.request, parse. run.
  rewrite Hparse. cbn [obind]. rewrite Hprompt. cbn [obind].
  rewrite Hlogo. cbn [obind]. rewrite Hmime. cbn [obind].
  rewrite Hdata. cbn [obind]. rewrite Hnet.
  destruct (Jersey.answer rt apiResponse); reflexivity.
Qed.

(** A request with a logo and no prompt gets the image the upstream made
    of the undefined text: status 200, one upstream call. *)
Lemma C4_jersey_witness :
  Jersey.handler node (Some "k") (always (content_answer "QUJD"))
    (post (JObj [("logoData", logo "AAA")])) start
  = (match Jersey.answer node (content_answer "QUJD") with
     | Ret r => Ret r
     | Throw e => Ret (Jersey.on_error node e)
     end,
     {| calls := S (calls start);
        trace := (trace start
                    ++ [Fetched (Jersey.GEMINI_API_URL (Some "k"))
                          (Jersey.payload JUndefined (JStr "image/png")
                             (JStr "AAA"))])%list |}).
Proof.
  apply (C4_jersey_calls_upstream_without_prompt
           node (Some "k") (always (content_answer "QUJD"))
           (post (JObj [("logoData", logo "AAA")])) start
           (parsed := JObj [("logoData", logo "AAA")])
           (prompt := JUndefined) (logoData := logo "AAA")
           (mimeType := JStr "image/png") (data := JStr "AAA")
           (apiResponse := content_answer "QUJD"));
    reflexivity.
Defined.

(** The same run, evaluated: the answer has status 200 and holds the image
    of the upstream. *)
Lemma Jersey_forwards_without_prompt :
  Jersey.handler node (Some "k") (always (content_answer "QUJD"))
    (post (JObj [("logoData", logo "AAA")])) start
  = (Ret (Jersey.image_response (JStr "QUJD")),
     after_fetch (Jersey.GEMINI_API_URL (Some "k"))
       (Jersey.payload JUndefined (JStr "image/png") (JStr "AAA")) start)
  /\ statusCode (Jersey.image_response (JStr "QUJD")) = 200%Z.
Proof. split; reflexivity. Qed.

(** ** The payload *)

Lemma Get_nullish (v : JSValue) (k : string) :
  nullish v = true -> Get v k = Throw (TypeError (ReadOfNullish v k)).
Proof. destruct v; cbn; intros H; try discriminate H; reflexivity. Qed.

(** C5 (amended).  For a POST request with a truthy prompt (API key
    configured): the Imagen variant of generateImage.js sends upstream a
    payload made of the prompt alone, whether or not the body holds a
    [logoData], and the payload is the first thing it sends.  The
    multi-modal variant and generate-jersey.js need the logo: when
    [logoData] is missing or [null] they read a member of it unguarded,
    send nothing upstream and end in their [catch] block; and every
    payload they build holds the prompt together with the inline image
    data. *)
Theorem C5_payload_with_and_without_logo :
  forall (rt : Runtime) (API_KEY : option string) (net : Network)
         (ev : Event) (w : World) (parsed prompt : JSValue),
    httpMethod ev = "POST" ->
    configured API_KEY = true ->
    JSON_parse rt (body_text ev) = Some parsed ->
    Get parsed "prompt" = Ret prompt ->
    truthy prompt = true ->
    (Imagen.request rt ev =
       Ret (Some (JObj [ ("instances", JArr [ JObj [ ("prompt", prompt) ] ]);
                         ("parameters", JObj [ ("sampleCount", JNum 1);
                                               ("aspectRatio", JStr "1:1") ]) ]))
     /\ exists rest,
          trace (snd (Imagen.handler rt API_KEY net ev w)) =
            (trace w ++ Fetched (Imagen.apiUrl API_KEY) (Imagen.payload prompt)
                          :: rest)%list)
    /\ (nullish (OptGet parsed "logoData") = true ->
        Multimodal.handler rt API_KEY net ev w =
          (on_error rt
             (TypeError (ReadOfNullish (OptGet parsed "logoData") "data")), w)
        /\ Jersey.handler rt API_KEY net ev w =
          (Ret (Jersey.on_error rt
                  (TypeError (ReadOfNullish (OptGet parsed "logoData") "mimeType"))),
           w)
        /\ statusCode
             (Jersey.on_error rt
                (TypeError (ReadOfNullish (OptGet parsed "logoData") "mimeType")))
           = 500%Z)
    /\ (forall sent,
          Multimodal.request rt ev = Ret (Some sent) ->
          exists mimeType data,
            Multimodal.rawBase64Data (OptGet parsed "logoData") = Ret data /\
            Get (OptGet parsed "logoData") "mimeType" = Ret mimeType /\
            sent =
              JObj [ ("contents",
                      JArr [ JObj [ ("parts",
                        JArr [ JObj [ ("text", prompt) ];
                               JObj [ ("inlineData",
                                       JObj [ ("mimeType", mimeType);
                                              ("data", data) ]) ] ]) ] ]);
                     ("generationConfig",
                      JObj [ ("responseModalities",
                              JArr [ JStr "TEXT"; JStr "IMAGE" ]) ]) ])
    /\ (forall sent,
          Jersey.request rt ev = Ret sent ->
          exists mimeType data,
            Get (OptGet parsed "logoData") "mimeType" = Ret mimeType /\
            Get (OptGet parsed "logoData") "data" = Ret data /\
            sent =
              JObj [ ("contents",
                      JArr [ JObj [ ("parts",
                        JArr [ JObj [ ("text", prompt) ];
                               JObj [ ("inlineData",
                                       JObj [ ("mimeType", mimeType);
                                              ("data", data) ]) ] ]) ] ]);
                     ("generationConfig",
                      JObj [ ("responseModalities",
                              JArr [ JStr "TEXT"; JStr "IMAGE" ]) ]) ]).
Proof.
  intros rt API_KEY net ev w parsed prompt Hpost Hcfg Hparse Hprompt Htruthy.
  pose proof (Get_defined _ _ Hprompt "logoData") as Hlogo.
  split; [|split; [|split]].
  - assert (Hreq : Imagen.request rt ev = Ret (Some (Imagen.payload prompt))).
    { unfold Imagen.request, parse. rewrite Hparse. cbn [obind].
      rewrite Hprompt. cbn [obind]. rewrite Htruthy. reflexivity. }
    split; [exact Hreq|].
    unfold Imagen.handler. rewrite Hpost, Hcfg.
    cbn [String.eqb Ascii.eqb Bool.eqb negb].
    unfold Imagen.serve. run. rewrite Hreq.
    destruct (callApiWithBackoff_first_effect rt net (Imagen.apiUrl API_KEY)
                (Imagen.payload prompt) 2 w) as [rest Hrest].
    exists rest.
    destruct (callApiWithBackoff rt net (Imagen.apiUrl API_KEY)
                (Imagen.payload prompt) 3 w) as [[response|e] w'];
      cbn [snd] in Hrest |- *.
    + destruct (Imagen.respond rt response); exact Hrest.
    + exact Hrest.
  - intros Hnone. split; [|split; [|reflexivity]].
    + unfold Multimodal.handler. rewrite Hpost, Hcfg.
      cbn [String.eqb Ascii.eqb Bool.eqb negb].
      unfold Multimodal.serve, Multimodal.request, parse. run.
      rewrite Hparse. cbn [obind]. rewrite Hprompt. cbn [obind].
      rewrite Hlogo. cbn [obind]. rewrite Htruthy. cbn [negb].
      unfold Multimodal.rawBase64Data.
      rewrite (Get_nullish _ "data" Hnone). reflexivity.
    + unfold Jersey.handler. rewrite Hpost, Hcfg.
      cbn [String.eqb Ascii.eqb Bool.eqb negb].
      unfold Jersey.serve, Jersey.request, parse. run.
      rewrite Hparse. cbn [obind]. rewrite Hprompt. cbn [obind].
      rewrite Hlogo. cbn [obind].
      rewrite (Get_nullish _ "mimeType" Hnone). reflexivity.
  - intros sent. unfold Multimodal.request, parse.
    rewrite Hparse. cbn [obind]. rewrite Hprompt. cbn [obind].
    rewrite Hlogo. cbn [obind]. rewrite Htruthy. cbn [negb].
    destruct (Multimodal.rawBase64Data (OptGet parsed "logoData"))
      as [data|e]; [|discriminate]. cbn [obind].
    destruct (Get data "length") as [len|e]; [|discriminate]. cbn [obind].
    destruct (Get (OptGet parsed "logoData") "mimeType") as [mimeType|e];
      [|discriminate]. cbn [obind].
    intros H. inversion H. exists mimeType, data. auto.
  - intros sent. unfold Jersey.request, parse.
    rewrite Hparse. cbn [obind]. rewrite Hprompt. cbn [obind].
    rewrite Hlogo. cbn [obind].
    destruct (Get (OptGet parsed "logoData") "mimeType") as [mimeType|e];
      [|discriminate]. cbn [obind].
    destruct (Get (OptGet parsed "logoData") "data") as [data|e];
      [|discriminate]. cbn [obind].
    intros H. inversion H. exists mimeType, data. auto.
Qed.

(** A request with a prompt and no logo: the Imagen variant sends the
    prompt, the other two handlers send nothing. *)
Lemma C5_payload_witness :
  (Imagen.request node (post (JObj [("prompt", JStr "a cat")])) =
     Ret (Some (JObj [ ("instances", JArr [ JObj [ ("prompt", JStr "a cat") ] ]);
                       ("parameters", JObj [ ("sampleCount", JNum 1);
                                             ("aspectRatio", JStr "1:1") ]) ]))
   /\ exists rest,
        trace (snd (Imagen.handler node (Some "k") (always internal_error)
                      (post (JObj [("prompt", JStr "a cat")])) start)) =
          (trace start
             ++ Fetched (Imagen.apiUrl (Some "k")) (Imagen.payload (JStr "a cat"))
                  :: rest)%list)
  /\ Multimodal.handler node (Some "k") (always internal_error)
       (post (JObj [("prompt", JStr "a cat")])) start
     = (on_error node (TypeError (ReadOfNullish JUndefined "data")), start)
  /\ Jersey.handler node (Some "k") (always internal_error)
       (post (JObj [("prompt", JStr "a cat")])) start
     = (Ret (Jersey.on_error node
               (TypeError (ReadOfNullish JUndefined "mimeType"))), start).
Proof.
  destruct (C5_payload_with_and_without_logo
              node (Some "k") (always internal_error)
              (post (JObj [("prompt", JStr "a cat")])) start
              (parsed := JObj [("prompt", JStr "a cat")])
              (prompt := JStr "a cat")
              eq_refl eq_refl eq_refl eq_refl eq_refl)
    as (Himagen & Hlogo & _).
  destruct (Hlogo eq_refl) as (Hmulti & Hjersey & _).
  split; [exact Himagen|]. split; [exact Hmulti | exact Hjersey].
Defined.

(** C5 as stated fails: the multi-modal handlers read [logoData.data] (or
    [logoData.mimeType]) unguarded, so a request with a prompt and no logo
    ends in the [catch] block: status 500, nothing sent upstream. *)
Lemma C5_counterexample_logo_required :
  Multimodal.handler node (Some "k") (always internal_error)
    (post (JObj [("prompt", JStr "a cat")])) start
  = (Ret (failed_response
            (message node (TypeError (ReadOfNullish JUndefined "data")))),
     start)
  /\ statusCode
       (failed_response
          (message node (TypeError (ReadOfNullish JUndefined "data"))))
     = 500%Z
  /\ Jersey.handler node (Some "k") (always internal_error)
       (post (JObj [("prompt", JStr "a cat")])) start
     = (Ret (Jersey.on_error node
               (TypeError (ReadOfNullish JUndefined "mimeType"))), start)
  /\ statusCode
       (Jersey.on_error node (TypeError (ReadOfNullish JUndefined "mimeType")))
     = 500%Z.
Proof. repeat split; reflexivity. Qed.

(** ** The CORS header *)

(** Both variants of generateImage.js put [CORS_HEADERS] on every
    response they return. *)
Lemma generateImage_responses_allow_origin :
  forall (rt : Runtime) (API_KEY : option string) (net : Network)
         (ev : Event) (w w' : World) (r : HttpResponse),
    (Imagen.handler rt API_KEY net ev w = (Ret r, w') -> allows_origin r) /\
    (Multimodal.handler rt API_KEY net ev w = (Ret r, w') -> allows_origin r).
Proof.
  intros rt API_KEY net ev w w' r. split.
  - apply Imagen_handler_inv; try reflexivity.
    intros response r0 Hr.
    destruct (Imagen_respond_cases _ _ Hr)
      as [(b & shown & _ & _ & _ & ->) | (shown & ->)]; reflexivity.
  - apply Multimodal_handler_inv; try reflexivity.
    intros response r0 Hr.
    destruct (Multimodal_respond_cases _ _ Hr)
      as [(b & shown & _ & _ & _ & ->) | [-> | (shown & ->)]]; reflexivity.
Qed.

(** generate-jersey.js does so on the preflight response and on the
    responses of its [try] and [catch] blocks. *)
Lemma Jersey_responses_allow_origin_past_the_guards :
  forall (rt : Runtime) (API_KEY : option string) (net : Network)
         (ev : Event) (w : World),
    httpMethod ev = "OPTIONS" \/
      (httpMethod ev = "POST" /\ configured API_KEY = true) ->
    exists r w', Jersey.handler rt API_KEY net ev w = (Ret r, w')
                 /\ allows_origin r.
Proof.
  intros rt API_KEY net ev w Hguard.
  destruct (Jersey_handler_inv rt API_KEY net
              (fun r => r = Jersey.not_configured \/ r = Jersey.method_not_allowed
                        \/ allows_origin r)) with (ev := ev) (w := w)
    as (r & w' & Hrun & Hr); auto.
  - right. right. reflexivity.
  - intros e. right. right. reflexivity.
  - intros apiResponse r Hr. right. right.
    destruct (Jersey_answer_cases _ _ Hr)
      as [(_ & _ & Hh & _) | [(res & b & _ & _ & _ & _ & ->) | ->]];
      try reflexivity.
    unfold allows_origin. rewrite Hh. reflexivity.
  - exists r, w'. split; [exact Hrun|].
    destruct Hr as [-> | [-> | Hr]]; [| | exact Hr]; exfalso;
      revert Hrun; unfold Jersey.handler;
      destruct Hguard as [Hopt | [Hpost Hcfg]];
      try (rewrite Hopt; cbn [String.eqb Ascii.eqb Bool.eqb negb]; run;
           discriminate);
      rewrite Hpost, Hcfg; cbn [String.eqb Ascii.eqb Bool.eqb negb];
      unfold Jersey.serve; run;
      destruct (Jersey.request rt ev) as [sent|e]; try discriminate;
      destruct (net (calls w)) as [apiResponse|reason]; try discriminate;
      destruct (Jersey.answer rt apiResponse) as [r|e] eqn:Hans;
      try discriminate;
      intros Heq; inversion Heq; subst r;
      destruct (Jersey_answer_cases _ _ Hans)
        as [(_ & _ & Hh & _) | [(res & b & _ & _ & _ & _ & Hb) | Hb]];
      discriminate.
Qed.

(** C6 (the code at the failing inputs).  generate-jersey.js returns its
    two early failure responses, the 500 for a missing API key and the 405
    for a method other than POST, without any header: the
    Access-Control-Allow-Origin header that its other branches set is
    missing there. *)
Theorem C6_jersey_early_returns_lack_cors_header :
  forall (rt : Runtime) (net : Network) (w : World),
    Jersey.handler rt (Some "k") net {| httpMethod := "GET"; body := None |} w
      = (Ret Jersey.method_not_allowed, w) /\
    Jersey.handler rt None net {| httpMethod := "POST"; body := None |} w
      = (Ret Jersey.not_configured, w) /\
    ~ allows_origin Jersey.method_not_allowed /\
    ~ allows_origin Jersey.not_configured.
Proof.
  intros rt net w. repeat split; try reflexivity; intros H; discriminate H.
Qed.

(** ** Classification of an answer without candidates *)

Lemma inlineImageData_no_candidates (response : JSValue) :
  Get response "candidates" = Ret (JArr []) ->
  inlineImageData response = Ret JUndefined.
Proof.
  intros H. unfold inlineImageData, OptGet at 4. rewrite H. reflexivity.
Qed.

(** C7.  When the upstream call of the multi-modal handler returns a
    response whose [candidates] is the empty list, the handler answers
    with the input-rejected response: status 400 and the message about the
    safety guidelines, which is not the message of a safety-filtered
    image. *)
Theorem C7_empty_candidates_is_input_rejected :
  forall (rt : Runtime) (API_KEY : option string) (net : Network)
         (ev : Event) (w w' : World) (response : JSValue),
    Multimodal.answered rt API_KEY net ev w response w' ->
    Get response "candidates" = Ret (JArr []) ->
    Multimodal.handler rt API_KEY net ev w = (Ret Multimodal.rejected, w') /\
    statusCode Multimodal.rejected = 400%Z /\
    responseBody Multimodal.rejected =
      Json (error_object (JStr "Generation Error: The input or prompt may violate safety guidelines, or the model failed to generate output.")) /\
    (forall rating, Multimodal.rejected <> no_image_response rating).
Proof.
  intros rt API_KEY net ev w w' response Hans Hcand.
  split; [|split; [reflexivity | split; [reflexivity | discriminate]]].
  rewrite (Multimodal_handler_answered Hans).
  unfold Multimodal.respond.
  rewrite (inlineImageData_no_candidates _ Hcand). cbn [obind truthy].
  rewrite Hcand. reflexivity.
Qed.

Lemma C7_empty_candidates_witness :
  Multimodal.handler node (Some "k") (always (candidates_answer (JArr [])))
    (post (JObj [("prompt", JStr "a cat"); ("logoData", logo "AAA")])) start
  = (Ret Multimodal.rejected,
     after_fetch (Multimodal.apiUrl (Some "k"))
       (Multimodal.payload (JStr "a cat") (JStr "image/png") (JStr "AAA"))
       start) /\
  statusCode Multimodal.rejected = 400%Z /\
  responseBody Multimodal.rejected =
    Json (error_object (JStr "Generation Error: The input or prompt may violate safety guidelines, or the model failed to generate output.")) /\
  (forall rating, Multimodal.rejected <> no_image_response rating).
Proof.
  apply (C7_empty_candidates_is_input_rejected
           (rt := node) (API_KEY := Some "k")
           (net := always (candidates_answer (JArr [])))
           (ev := post (JObj [("prompt", JStr "a cat"); ("logoData", logo "AAA")]))
           (w := start) (response := JObj [("candidates", JArr [])])).
  - split; [reflexivity|]. split; [reflexivity|].
    exists (Multimodal.payload (JStr "a cat") (JStr "image/png") (JStr "AAA")).
    split; reflexivity.
  - reflexivity.
Defined.

(** ** No exception leaves a handler *)




(** Without the proviso the two variants of generateImage.js can throw.
    The upstream fails every call with status 500 and an error object
    whose message is an object with a [toString] member: the [catch] block
    takes that message, the template literal that prints it throws, and
    the exception leaves the handler after the three upstream calls. *)
Lemma generateImage_throws_on_a_message_without_text :
  Imagen.handler node (Some "k")
    (always (error_answer 500 (JObj [("toString", JNum 0)])))
    (post (JObj [("prompt", JStr "a cat")])) start
  = (Throw (TypeError (NotPrimitive (JObj [("toString", JNum 0)]))),
     after_fetches 3 (Imagen.apiUrl (Some "k")) (Imagen.payload (JStr "a cat"))
       start)
  /\ Multimodal.handler node (Some "k")
       (always (error_answer 500 (JObj [("toString", JNum 0)])))
       (post (JObj [("prompt", JStr "a cat"); ("logoData", logo "AAA")])) start
     = (Throw (TypeError (NotPrimitive (JObj [("toString", JNum 0)]))),
        after_fetches 3 (Multimodal.apiUrl (Some "k"))
          (Multimodal.payload (JStr "a cat") (JStr "image/png") (JStr "AAA"))
          start).
Proof. split; reflexivity. Qed.

(** ** The data-URI prefix *)

Section Splitting.

Variable c : ascii.

Lemma split_char_not_nil (s : string) : split_char c s <> [].
Proof.
  destruct s as [|d rest]; cbn; [discriminate|].
  destruct (Ascii.eqb d c); [discriminate|].
  destruct (split_char c rest); discriminate.
Qed.

Lemma split_char_without_separator (s : string) :
  includes_char c s = false -> split_char c s = [s].
Proof.
  induction s as [|d rest IH]; cbn; [reflexivity|].
  intros H. apply orb_false_elim in H. destruct H as [Hd Hrest].
  rewrite Hd, (IH Hrest). reflexivity.
Qed.

Lemma includes_after_first (s t : string) :
  after_first c s = Some t -> includes_char c s = true.
Proof.
  induction s as [|d rest IH]; cbn; [discriminate|].
  destruct (Ascii.eqb d c); [reflexivity|]. exact IH.
Qed.

(** The pieces of [s] are its part before the first separator and the
    pieces of what follows that separator. *)
Lemma split_char_after_first (s t : string) :
  after_first c s = Some t ->
  exists before, split_char c s = before :: split_char c t.
Proof.
  induction s as [|d rest IH]; cbn; [discriminate|].
  destruct (Ascii.eqb d c).
  - intros H. inversion H. subst. eauto.
  - intros H. destruct (IH H) as [before Hb]. rewrite Hb. eauto.
Qed.

End Splitting.

(** What [rawBase64Data] keeps of a string with a comma: of the text after
    the first comma, the part up to the next comma. *)
Lemma rawBase64Data_comma (logoData : JSValue) (s t : string) :
  Get logoData "data" = Ret (JStr s) ->
  after_first "," s = Some t ->
  Multimodal.rawBase64Data logoData = Ret (JStr (hd "" (split_char "," t))).
Proof.
  intros Hdata Hafter. unfold Multimodal.rawBase64Data.
  rewrite Hdata. cbn [obind includes split].
  rewrite (includes_after_first _ _ Hafter).
  destruct (split_char_after_first _ _ Hafter) as [before Hsplit].
  rewrite Hsplit. unfold piece. cbn [nth_error].
  pose proof (split_char_not_nil "," t) as Hne.
  destruct (split_char "," t); [contradiction | reflexivity].
Qed.

(** With one comma only, that is the whole text after the comma. *)
Lemma rawBase64Data_single_comma (logoData : JSValue) (s t : string) :
  Get logoData "data" = Ret (JStr s) ->
  after_first "," s = Some t ->
  includes_char "," t = false ->
  Multimodal.rawBase64Data logoData = Ret (JStr t).
Proof.
  intros Hdata Hafter Hnone.
  rewrite (rawBase64Data_comma _ Hdata Hafter).
  rewrite (split_char_without_separator _ _ Hnone). reflexivity.
Qed.

(** A string without a comma goes through as it is. *)
Lemma rawBase64Data_no_comma (logoData : JSValue) (s : string) :
  Get logoData "data" = Ret (JStr s) ->
  includes_char "," s = false ->
  Multimodal.rawBase64Data logoData = Ret (JStr s).
Proof.
  intros Hdata Hnone. unfold Multimodal.rawBase64Data.
  rewrite Hdata. cbn [obind includes]. rewrite Hnone. reflexivity.
Qed.

(** C3 (the code at the failing inputs).  For a [logoData.data] with two
    commas the multi-modal handler forwards the text between the first and
    the second comma, not the text after the first comma; and
    generate-jersey.js forwards [logoData.data] as it came, prefix
    included. *)
Theorem C3_forwarded_data_is_not_the_text_after_the_first_comma :
  after_first "," "data:image/png;base64,AAA,BBB" = Some "AAA,BBB" /\
  Multimodal.request node
    (post (JObj [ ("prompt", JStr "a cat");
                  ("logoData", logo "data:image/png;base64,AAA,BBB") ]))
  = Ret (Some (Multimodal.payload (JStr "a cat") (JStr "image/png") (JStr "AAA")))
  /\
  after_first "," "data:image/png;base64,AAA" = Some "AAA" /\
  Jersey.request node
    (post (JObj [ ("prompt", JStr "a cat");
                  ("logoData", logo "data:image/png;base64,AAA") ]))
  = Ret (Jersey.payload (JStr "a cat") (JStr "image/png")
           (JStr "data:image/png;base64,AAA")).
Proof. repeat split; reflexivity. Qed.

(** ** The safety ratings in the error message *)

Lemma append_assoc (a b c : string) : (a ++ b) ++ c = a ++ (b ++ c).
Proof. induction a as [|x a IH]; cbn; [reflexivity | now rewrite IH]. Qed.

Lemma append_nil_r (a : string) : a ++ "" = a.
Proof. induction a as [|x a IH]; cbn; [reflexivity | now rewrite IH]. Qed.

Lemma contains_refl (s : string) : contains s s.
Proof. exists "", "". cbn. now rewrite append_nil_r. Qed.

Lemma contains_trans (s t u : string) :
  contains s t -> contains t u -> contains s u.
Proof.
  intros (b1 & a1 & ->) (b2 & a2 & ->).
  exists (b1 ++ b2), (a2 ++ a1). now rewrite !append_assoc.
Qed.

Lemma contains_append_l (a b : string) : contains (a ++ b) a.
Proof. exists "", b. reflexivity. Qed.

Lemma contains_append_r (a b : string) : contains (a ++ b) b.
Proof. exists a, "". now rewrite append_nil_r. Qed.

Lemma drop_prefix_append (t rest : string) : drop_prefix t (t ++ rest) = Some rest.
Proof.
  induction t as [|x t IH]; cbn; [reflexivity|].
  now rewrite Ascii.eqb_refl.
Qed.

(** [occurs] finds every occurrence. *)
Lemma contains_occurs (s t : string) : contains s t -> occurs t s = true.
Proof.
  intros (before & after & ->).
  induction before as [|x before IH].
  - cbn [append]. destruct (t ++ after) eqn:E; cbn [occurs];
      rewrite <- E, drop_prefix_append; reflexivity.
  - cbn [append occurs].
    destruct (drop_prefix t (String x (before ++ t ++ after)));
      [reflexivity | exact IH].
Qed.

Lemma join_contains (sep p : string) (ps : list string) :
  In p ps -> contains (join sep ps) p.
Proof.
  induction ps as [|q ps IH]; [contradiction|].
  intros [-> | Hin].
  - destruct ps; cbn; [apply contains_refl | apply contains_append_l].
  - destruct ps as [|q' ps']; [contradiction|].
    change (join sep (q :: q' :: ps')) with (q ++ sep ++ join sep (q' :: ps')).
    eapply contains_trans; [apply contains_append_r|].
    eapply contains_trans; [apply contains_append_r|].
    apply IH, Hin.
Qed.

Lemma category_label_text (rt : Runtime) (c : string) :
  ToString rt (pop (split_char "_" c)) = Ret (category_label c).
Proof.
  unfold category_label.
  destruct (pop (split_char "_" c)) eqn:E; try reflexivity;
    unfold pop in E; destruct (rev (split_char "_" c)); discriminate E.
Qed.

(** The text of a rating whose category is a string and whose probability
    converts to a string. *)
Lemma rating_text_line (rt : Runtime) (r : JSValue) (c p : string) :
  Get r "category" = Ret (JStr c) ->
  ToString rt (OptGet r "probability") = Ret p ->
  rating_text rt r = Ret (category_label c ++ ": " ++ p) /\
  rating_line rt r = category_label c ++ ": " ++ p.
Proof.
  intros Hc Hp. unfold rating_text, rating_line. rewrite Hc, Hp.
  cbn [obind split]. rewrite category_label_text. cbn [obind].
  rewrite (Get_defined _ _ Hc "probability"). cbn [obind]. rewrite Hp.
  split; reflexivity.
Qed.

Lemma map_rating_text_lines (rt : Runtime) (ratings : list JSValue) :
  Forall (fun r => exists c p,
            Get r "category" = Ret (JStr c) /\
            ToString rt (OptGet r "probability") = Ret p) ratings ->
  map_rating_text rt ratings = Ret (map (rating_line rt) ratings).
Proof.
  induction 1 as [|r ratings (c & p & Hc & Hp) _ IH]; [reflexivity|].
  cbn [map_rating_text map].
  destruct (@rating_text_line rt r c p Hc Hp) as [-> ->]. cbn [obind].
  rewrite IH. reflexivity.
Qed.

Lemma rating_line_not_empty (rt : Runtime) (r : JSValue) (c p : string) :
  Get r "category" = Ret (JStr c) ->
  ToString rt (OptGet r "probability") = Ret p ->
  rating_line rt r <> "".
Proof.
  intros Hc Hp. destruct (@rating_text_line rt r c p Hc Hp) as [_ ->].
  destruct (category_label c); cbn; discriminate.
Qed.

Lemma join_not_empty (sep p : string) (ps : list string) :
  p <> "" -> join sep (p :: ps) <> "".
Proof.
  intros Hp. destruct p as [|x p]; [contradiction|].
  destruct ps; cbn; discriminate.
Qed.

(** The value of [safetyRating] on a candidate with a non-empty list of
    ratings, each with a string for category and a probability that
    converts to a string: the lines of the ratings, joined. *)
Lemma safetyRating_lines (rt : Runtime) (first : JSValue)
      (ratings : list JSValue) :
  OptGet first "safetyRatings" = JArr ratings ->
  ratings <> [] ->
  Forall (fun r => exists c p,
            Get r "category" = Ret (JStr c) /\
            ToString rt (OptGet r "probability") = Ret p) ratings ->
  safetyRating rt first =
    Ret (JStr (join "; " (map (rating_line rt) ratings))) /\
  truthy (JStr (join "; " (map (rating_line rt) ratings))) = true.
Proof.
  intros Hratings Hne Hall. unfold safetyRating. rewrite Hratings.
  rewrite (@map_rating_text_lines rt ratings Hall). split; [reflexivity|].
  destruct ratings as [|r ratings]; [contradiction|].
  inversion Hall as [|? ? (c & p & Hc & Hp) _]; subst.
  cbn [map truthy].
  destruct (String.eqb_spec
              (join "; " (rating_line rt r :: map (rating_line rt) ratings)) "")
    as [E|_]; [|reflexivity].
  exfalso. revert E. apply join_not_empty, (@rating_line_not_empty rt r c p Hc Hp).
Qed.

(** C8 (amended).  When the upstream call of the multi-modal handler
    returns a response without inline image data whose first candidate has
    a non-empty list of safety ratings, each with a string for category
    and a probability that converts to a string, the handler answers 500
    with an error string that contains, for every rating, the part of its
    category after the last underscore (not the category itself) and its
    probability as the template literal prints it. *)
Theorem C8_error_string_has_label_and_probability_of_each_rating :
  forall (rt : Runtime) (API_KEY : option string) (net : Network)
         (ev : Event) (w w' : World)
         (response image first : JSValue) (others ratings : list JSValue),
    Multimodal.answered rt API_KEY net ev w response w' ->
    inlineImageData response = Ret image ->
    truthy image = false ->
    Get response "candidates" = Ret (JArr (first :: others)) ->
    OptGet first "safetyRatings" = JArr ratings ->
    ratings <> [] ->
    Forall (fun r => exists c p,
              Get r "category" = Ret (JStr c) /\
              ToString rt (OptGet r "probability") = Ret p) ratings ->
    exists msg,
      Multimodal.handler rt API_KEY net ev w =
        (Ret {| statusCode := 500;
                headers := CORS_HEADERS;
                responseBody := Json (error_object (JStr msg)) |}, w') /\
      forall r c p,
        In r ratings ->
        Get r "category" = Ret (JStr c) ->
        ToString rt (OptGet r "probability") = Ret p ->
        contains msg (category_label c) /\ contains msg p.
Proof.
  intros rt API_KEY net ev w w' response image first others ratings
         Hans Himage Hfalsy Hcand Hratings Hne Hall.
  destruct (@safetyRating_lines rt first ratings Hratings Hne Hall)
    as [Hsafety Htruthy].
  set (joined := join "; " (map (rating_line rt) ratings)) in *.
  exists ("Generation Error: "
            ++ "Image was filtered by safety systems. Ratings: " ++ joined).
  split.
  - rewrite (Multimodal_handler_answered Hans). unfold Multimodal.respond.
    rewrite Himage. cbn [obind]. rewrite Hfalsy, Hcand. cbn [obind].
    unfold js_or. cbn [truthy Get String.eqb Ascii.eqb Bool.eqb].
    cbn [obind strictly_zero List.length Z.of_nat Z.eqb index_of_key nth].
    rewrite Hsafety. cbn [obind]. unfold errorMessage.
    rewrite Htruthy. cbn [ToString obind]. reflexivity.
  - intros r c p Hin Hc Hp.
    assert (Hline : contains joined (rating_line rt r)).
    { apply join_contains, in_map, Hin. }
    assert (Hmsg : forall part, contains (rating_line rt r) part ->
              contains ("Generation Error: "
                          ++ "Image was filtered by safety systems. Ratings: "
                          ++ joined) part).
    { intros part Hpart.
      eapply contains_trans; [apply contains_append_r|].
      eapply contains_trans; [apply contains_append_r|].
      eapply contains_trans; [exact Hline | exact Hpart]. }
    destruct (@rating_text_line rt r c p Hc Hp) as [_ Hr]. rewrite Hr in Hmsg.
    split; apply Hmsg.
    + apply contains_append_l.
    + eapply contains_trans; [apply contains_append_r|].
      apply contains_append_r.
Qed.

Lemma C8_error_string_witness :
  exists msg,
    Multimodal.handler node (Some "k")
      (always (filtered_answer [ rating_of "HARM_CATEGORY_HATE_SPEECH" "LOW";
                                 rating_of "HARM_CATEGORY_HARASSMENT" "HIGH" ]))
      (post (JObj [("prompt", JStr "a cat"); ("logoData", logo "AAA")])) start
    = (Ret {| statusCode := 500;
              headers := CORS_HEADERS;
              responseBody := Json (error_object (JStr msg)) |},
       after_fetch (Multimodal.apiUrl (Some "k"))
         (Multimodal.payload (JStr "a cat") (JStr "image/png") (JStr "AAA"))
         start) /\
    forall r c p,
      In r [ rating_of "HARM_CATEGORY_HATE_SPEECH" "LOW";
             rating_of "HARM_CATEGORY_HARASSMENT" "HIGH" ] ->
      Get r "category" = Ret (JStr c) ->
      ToString node (OptGet r "probability") = Ret p ->
      contains msg (category_label c) /\ contains msg p.
Proof.
  apply (C8_error_string_has_label_and_probability_of_each_rating
           (rt := node) (API_KEY := Some "k")
           (net := always (filtered_answer
                             [ rating_of "HARM_CATEGORY_HATE_SPEECH" "LOW";
                               rating_of "HARM_CATEGORY_HARASSMENT" "HIGH" ]))
           (ev := post (JObj [("prompt", JStr "a cat"); ("logoData", logo "AAA")]))
           (w := start)
           (response :=
              JObj [ ("candidates",
                      JArr [ JObj [ ("safetyRatings",
                        JArr [ rating_of "HARM_CATEGORY_HATE_SPEECH" "LOW";
                               rating_of "HARM_CATEGORY_HARASSMENT" "HIGH" ]) ] ]) ])
           (image := JUndefined)
           (first := JObj [ ("safetyRatings",
                        JArr [ rating_of "HARM_CATEGORY_HATE_SPEECH" "LOW";
                               rating_of "HARM_CATEGORY_HARASSMENT" "HIGH" ]) ])
           (others := [])).
  - split; [reflexivity|]. split; [reflexivity|].
    exists (Multimodal.payload (JStr "a cat") (JStr "image/png") (JStr "AAA")).
    split; reflexivity.
  - reflexivity.
  - reflexivity.
  - reflexivity.
  - reflexivity.
  - discriminate.
  - repeat constructor;
      [exists "HARM_CATEGORY_HATE_SPEECH", "LOW"
      | exists "HARM_CATEGORY_HARASSMENT", "HIGH"];
      split; reflexivity.
Defined.

(** C8 as stated fails: for a rating of category HARM_CATEGORY_HATE_SPEECH
    the error string names SPEECH only; the category does not occur in
    it. *)
Lemma C8_counterexample_category_is_cut :
  fst (Multimodal.handler node (Some "k")
         (always (filtered_answer [ rating_of "HARM_CATEGORY_HATE_SPEECH" "LOW" ]))
         (post (JObj [("prompt", JStr "a cat"); ("logoData", logo "AAA")])) start)
  = Ret {| statusCode := 500;
           headers := CORS_HEADERS;
           responseBody :=
             Json (error_object
                     (JStr "Generation Error: Image was filtered by safety systems. Ratings: SPEECH: LOW")) |}
  /\ ~ contains
         "Generation Error: Image was filtered by safety systems. Ratings: SPEECH: LOW"
         "HARM_CATEGORY_HATE_SPEECH".
Proof.
  split; [reflexivity|].
  intros H. apply contains_occurs in H. discriminate H.
Qed.

(** A rating whose probability is an object with a [toString] member has
    no text: the callback of [map] throws, and the handler ends in its
    [catch] block with the message of that TypeError. *)
Lemma rating_without_text_ends_in_the_catch_block :
  rating_text node
    (JObj [ ("category", JStr "HARM_CATEGORY_HATE_SPEECH");
            ("probability", JObj [("toString", JNum 0)]) ])
  = Throw (TypeError (NotPrimitive (JObj [("toString", JNum 0)])))
  /\ fst (Multimodal.handler node (Some "k")
            (always (filtered_answer
                       [ JObj [ ("category", JStr "HARM_CATEGORY_HATE_SPEECH");
                                ("probability", JObj [("toString", JNum 0)]) ] ]))
            (post (JObj [("prompt", JStr "a cat"); ("logoData", logo "AAA")]))
            start)
     = Ret (failed_response
              (message node
                 (TypeError (NotPrimitive (JObj [("toString", JNum 0)]))))).
Proof. split; reflexivity. Qed.

(** The Imagen variant builds the same message from the first candidate of
    an answer that holds no prediction with image bytes. *)
Lemma Imagen_error_string_has_label_and_probability_of_each_rating :
  forall (rt : Runtime) (response image candidates : JSValue)
         (ratings : list JSValue),
    Imagen.imageField response = Ret image ->
    truthy image = false ->
    Get response "candidates" = Ret candidates ->
    OptGet (OptGet candidates "0") "safetyRatings" = JArr ratings ->
    ratings <> [] ->
    Forall (fun r => exists c p,
              Get r "category" = Ret (JStr c) /\
              ToString rt (OptGet r "probability") = Ret p) ratings ->
    Imagen.respond rt response =
      Ret (no_image_response
             ("Image was filtered by safety systems. Ratings: "
                ++ join "; " (map (rating_line rt) ratings))).
Proof.
  intros rt response image candidates ratings
         Himage Hfalsy Hcand Hratings Hne Hall.
  destruct (@safetyRating_lines rt (OptGet candidates "0") ratings
              Hratings Hne Hall) as [Hsafety Htruthy].
  unfold Imagen.respond. rewrite Himage. cbn [obind].
  rewrite Hfalsy, Hcand. cbn [obind]. rewrite Hsafety. cbn [obind].
  unfold errorMessage. rewrite Htruthy. reflexivity.
Qed.

(** ** Reading the image off an answer *)

Lemma Get_OptGet (v : JSValue) (k : string) :
  nullish v = false -> Get v k = Ret (OptGet v k).
Proof.
  intros H. unfold OptGet. destruct v; try discriminate H; cbn;
    try reflexivity.
  - destruct (k =? "length"); [reflexivity|].
    destruct (index_of_key k); reflexivity.
  - destruct (k =? "length"); [reflexivity|].
    destruct (index_of_key k); reflexivity.
Qed.

Lemma truthy_not_nullish (v : JSValue) : truthy v = true -> nullish v = false.
Proof. destruct v; cbn; congruence. Qed.

Lemma OptGet_truthy_base (v : JSValue) (k : string) :
  truthy (OptGet v k) = true -> nullish v = false.
Proof. destruct v; cbn; congruence. Qed.

(** [find] returns the first part with a truthy [inlineData]; the parts
    before it, text parts for instance, are passed over. *)
Lemma find_inlineData_first (texts rest : list JSValue) (p : JSValue) :
  Forall (fun t => nullish t = false /\ truthy (OptGet t "inlineData") = false)
         texts ->
  truthy (OptGet p "inlineData") = true ->
  find_inlineData (texts ++ p :: rest) = Ret p.
Proof.
  intros Htexts Hp. induction Htexts as [|t texts [Hn Hf] _ IH].
  - cbn [app find_inlineData].
    rewrite Get_OptGet by (eapply OptGet_truthy_base; exact Hp). cbn [obind].
    now rewrite Hp.
  - cbn [app find_inlineData]. rewrite Get_OptGet by exact Hn. cbn [obind].
    rewrite Hf. exact IH.
Qed.

(** The data of an answer of the generateContent endpoint, read off its
    shape. *)
Lemma inlineImageData_of_shape
      (response first p : JSValue) (others texts rest : list JSValue) :
  Get response "candidates" = Ret (JArr (first :: others)) ->
  OptGet (OptGet first "content") "parts" = JArr (texts ++ p :: rest) ->
  Forall (fun t => nullish t = false /\ truthy (OptGet t "inlineData") = false)
         texts ->
  truthy (OptGet p "inlineData") = true ->
  inlineImageData response = Ret (OptGet (OptGet p "inlineData") "data").
Proof.
  intros Hcand Hparts Htexts Hp. unfold inlineImageData.
  unfold OptGet at 4. rewrite Hcand.
  change (OptGet (JArr (first :: others)) "0") with first.
  rewrite Hparts. cbn [find].
  rewrite find_inlineData_first by assumption. reflexivity.
Qed.

Lemma data_field_base (v : JSValue) (b : string) :
  OptGet v "data" = JStr b -> truthy v = true.
Proof. destruct v; cbn; try discriminate; reflexivity. Qed.

Lemma bytes_field_base (v : JSValue) (b : string) :
  Get v "bytesBase64Encoded" = Ret (JStr b) -> truthy v = true.
Proof.
  destruct v; try reflexivity; intros H; exfalso; revert H; lazy; discriminate.
Qed.

Lemma nonempty_truthy (b : string) : b <> "" -> truthy (JStr b) = true.
Proof.
  intros H. cbn. destruct (String.eqb_spec b ""); [contradiction | reflexivity].
Qed.



(** ** An empty image field *)



Section EmptyImage.

Variable rt : Runtime.
Variable API_KEY : option string.
Variable net : Network.








Lemma AppsScript_image_of_value result v :
  AppsScript.image_of rt result = Ret v ->
  v = JNull \/
  exists predictions first,
    Get result "predictions" = Ret predictions /\
    Get predictions "0" = Ret first /\
    Get first "bytesBase64Encoded" = Ret v /\
    truthy v = true.
Proof.
  unfold AppsScript.image_of.
  destruct (Get result "predictions") as [predictions|e]; [|discriminate].
  cbn [obind].
  destruct (negb (truthy predictions)); [intros H; inversion H; auto|].
  destruct (Get predictions "length") as [len|e]; [|discriminate].
  cbn [obind].
  destruct (above_zero rt len) as [[|]|e]; cbn [obind negb];
    [| intros H; inversion H; auto | discriminate].
  destruct (Get predictions "0") as [first|e] eqn:Hfirst; [|discriminate].
  cbn [obind].
  destruct (Get first "bytesBase64Encoded") as [b|e] eqn:Hb; [|discriminate].
  cbn [obind].
  destruct (truthy b) eqn:Ht; intros H; inversion H; subst; [|auto].
  right. exists predictions, first. auto.
Qed.

(** A value other than [null] comes from an answer of status 200 to one
    of the calls of the loop. *)
Lemma AppsScript_loop_value prompt remaining :
  forall w v w',
    AppsScript.loop rt API_KEY net prompt remaining w = (Ret v, w') ->
    v = JNull \/
    exists k r result predictions first,
      (calls w <= k)%nat /\
      net k = Resolves r /\
      status r = 200%Z /\
      JSON_parse rt (text r) = Some result /\
      Get result "predictions" = Ret predictions /\
      Get predictions "0" = Ret first /\
      Get first "bytesBase64Encoded" = Ret v /\
      truthy v = true.
Proof.
  induction remaining as [|remaining IH]; intros w v w'.
  - cbn. run. intros H. inversion H. auto.
  - cbn [AppsScript.loop]. run.
    destruct (net (calls w)) as [r|reason] eqn:Hnet; [|discriminate].
    destruct (Z.eqb_spec (status r) 200) as [Hst|Hst].
    + unfold parse. destruct (JSON_parse rt (text r)) as [result|] eqn:Hparse;
        [|discriminate].
      destruct (AppsScript.image_of rt result) as [v'|e] eqn:Hv;
        [|discriminate].
      intros H. inversion H. subst.
      destruct (AppsScript_image_of_value _ Hv)
        as [-> | (predictions & first & Hp & Hfirst & Hb & Ht)]; [auto|].
      right. exists (calls w), r, result, predictions, first. auto 10.
    + destruct ((status r =? 429)%Z
                && (AppsScript.MAX_RETRIES - S remaining
                    <? AppsScript.MAX_RETRIES - 1)%nat).
      * intros H. destruct (IH _ _ _ H)
          as [-> | (k & r' & result & predictions & first & Hk & Hrest)];
          [auto|].
        right. exists k, r', result, predictions, first.
        split; [|exact Hrest]. cbn in Hk. lia.
      * intros H. inversion H. auto.
Qed.



End EmptyImage.



(** The same run, evaluated: the failure branch throws at [map], and the
    [catch] block answers 500 with the message of that TypeError. *)
Lemma empty_image_field_in_catch_block :
  Imagen.handler node (Some "k")
    (always {| status := 200;
               text := render
                 (JObj [ ("predictions",
                          JArr [ JObj [ ("bytesBase64Encoded", JStr "") ] ]);
                         ("candidates",
                          JArr [ JObj [ ("safetyRatings", JStr "x") ] ]) ]) |})
    (post (JObj [("prompt", JStr "a cat")])) start
  = (Ret (failed_response (message node (TypeError (NotAFunction "map")))),
     after_fetch (Imagen.apiUrl (Some "k")) (Imagen.payload (JStr "a cat"))
       start).
Proof. reflexivity. Qed.

(* ================================================================== *)
(** * Further properties of the code *)
(* ================================================================== *)

(** ** The retry loop: calls and pauses *)

Section CallerBounds.

Variable rt : Runtime.
Variable net : Network.
Variables (url : string) (payload : JSValue).

(** What one turn does to the world: one [fetch], and after a 429 one
    pause of [backoff i]. *)
Lemma attempt_effects retries i w :
  snd (attempt net url payload retries i w) = after_fetch url payload w \/
  snd (attempt net url payload retries i w) =
    record (Slept (backoff i)) (after_fetch url payload w).
Proof.
  unfold attempt. run. destruct (net (calls w)) as [r|reason].
  - destruct (status r =? 429)%Z; [right; reflexivity|].
    destruct (negb (ok r)); cbn; [|left; reflexivity].
    destruct (i =? retries - 1)%nat; left; reflexivity.
  - destruct (i =? retries - 1)%nat; left; reflexivity.
Qed.

Lemma attempt_calls retries i w :
  calls (snd (attempt net url payload retries i w)) = S (calls w).
Proof.
  destruct (attempt_effects retries i w) as [E|E]; rewrite E; reflexivity.
Qed.

Lemma attempts_calls retries remaining :
  forall w,
    (calls w + Nat.min 1 remaining
       <= calls (snd (attempts rt net url payload retries remaining w))
       <= calls w + remaining)%nat.
Proof.
  induction remaining as [|remaining IH]; intros w.
  - cbn. lia.
  - rewrite attempts_step.
    pose proof (attempt_calls retries (retries - S remaining) w) as Hc.
    destruct (attempt net url payload retries (retries - S remaining) w)
      as [[[|response]|e] w']; cbn in Hc |- *.
    + specialize (IH w'). lia.
    + lia.
    + lia.
Qed.

Lemma sleeps_app (l1 l2 : list Effect) :
  sleeps (l1 ++ l2) = (sleeps l1 ++ sleeps l2)%list.
Proof.
  induction l1 as [|[u p|ms] l1 IH]; cbn; [reflexivity | exact IH |].
  now rewrite IH.
Qed.

(** The pauses of the last [remaining] turns: [backoff] of turn indices
    that go up, all of them among those turns. *)
Lemma attempts_pauses retries remaining :
  forall w,
    (remaining <= retries)%nat ->
    exists effects indices,
      trace (snd (attempts rt net url payload retries remaining w)) =
        (trace w ++ effects)%list /\
      sleeps effects = map backoff indices /\
      StronglySorted lt indices /\
      Forall (fun i => retries - remaining <= i < retries)%nat indices.
Proof.
  induction remaining as [|remaining IH]; intros w Hle.
  - exists [], []. cbn. rewrite app_nil_r. repeat split; constructor.
  - rewrite attempts_step.
    destruct (attempt_effects retries (retries - S remaining) w) as [E|E];
      destruct (attempt net url payload retries (retries - S remaining) w)
        as [[[|response]|e] w'] eqn:Hrun; cbn in E; subst w'; cbn [snd].
    + destruct (IH (after_fetch url payload w)) as (eff & ids & Ht & Hs & Hsort & Hall);
        [lia|].
      exists (Fetched url payload :: eff), ids. rewrite Ht. cbn.
      rewrite <- app_assoc. repeat split; auto.
      eapply Forall_impl; [|exact Hall]. cbn. intros; lia.
    + exists [Fetched url payload], []. repeat split; constructor.
    + exists [Fetched url payload], []. repeat split; constructor.
    + destruct (IH (record (Slept (backoff (retries - S remaining)))
                      (after_fetch url payload w)))
        as (eff & ids & Ht & Hs & Hsort & Hall); [lia|].
      exists (Fetched url payload :: Slept (backoff (retries - S remaining)) :: eff),
             ((retries - S remaining)%nat :: ids).
      rewrite Ht. cbn. rewrite <- !app_assoc. cbn. rewrite Hs.
      repeat split; auto.
      * constructor; [exact Hsort|].
        eapply Forall_impl; [|exact Hall]. cbn. intros; lia.
      * constructor; [lia|].
        eapply Forall_impl; [|exact Hall]. cbn. intros; lia.
    + exists [Fetched url payload; Slept (backoff (retries - S remaining))],
             [(retries - S remaining)%nat].
      cbn. rewrite <- app_assoc. repeat split; repeat constructor; lia.
    + exists [Fetched url payload; Slept (backoff (retries - S remaining))],
             [(retries - S remaining)%nat].
      cbn. rewrite <- app_assoc. repeat split; repeat constructor; lia.
Qed.

(** An attempt that fails, by a rejected [fetch] or by an error status,
    costs one call and no pause; its error leaves the loop on the last
    turn only. *)
Lemma attempt_failure retries i w e :
  failure (net (calls w)) = Some e ->
  attempt net url payload retries i w =
    (if (i =? retries - 1)%nat then Throw e else Ret Continue,
     after_fetch url payload w).
Proof.
  unfold failure. destruct (net (calls w)) as [r|reason] eqn:Hnet.
  - destruct (Z.eqb_spec (status r) 429) as [|Hst]; [discriminate|].
    destruct (ok r) eqn:Hok; [discriminate|].
    intros H. inversion H. subst e.
    now apply attempt_error_status.
  - intros H. inversion H. subst e. now apply attempt_rejected.
Qed.

Lemma attempts_recover retries k :
  forall remaining w r,
    (k < remaining <= retries)%nat ->
    (forall j, (j < k)%nat -> failure (net (calls w + j)) <> None) ->
    net (calls w + k) = Resolves r ->
    ok r = true ->
    attempts rt net url payload retries remaining w =
      (parse rt (text r), after_fetches (S k) url payload w).
Proof.
  induction k as [|k IH]; intros remaining w r Hk Hfail Hnet Hok.
  - destruct remaining as [|remaining]; [lia|].
    rewrite Nat.add_0_r in Hnet.
    rewrite attempts_step. rewrite attempt_ok with (r := r) by assumption.
    reflexivity.
  - destruct remaining as [|remaining]; [lia|].
    rewrite attempts_step.
    destruct (failure (net (calls w))) as [e|] eqn:He.
    2:{ exfalso. apply (Hfail 0%nat); [lia|]. now rewrite Nat.add_0_r. }
    rewrite (attempt_failure _ _ _ He).
    destruct (Nat.eqb_spec (retries - S remaining) (retries - 1)) as [E|_];
      [lia|].
    rewrite (IH remaining (after_fetch url payload w) r); try assumption.
    + reflexivity.
    + lia.
    + intros j Hj. cbn [calls after_fetch].
      replace (S (calls w) + j)%nat with (calls w + S j)%nat by lia.
      apply Hfail. lia.
    + cbn [calls after_fetch].
      replace (S (calls w) + k)%nat with (calls w + S k)%nat by lia.
      exact Hnet.
Qed.

Lemma attempts_exhaust retries remaining :
  forall w e,
    (S remaining <= retries)%nat ->
    (forall j, (j < remaining)%nat -> failure (net (calls w + j)) <> None) ->
    failure (net (calls w + remaining)) = Some e ->
    attempts rt net url payload retries (S remaining) w =
      (Throw e, after_fetches (S remaining) url payload w).
Proof.
  induction remaining as [|remaining IH]; intros w e Hle Hfail He.
  - rewrite Nat.add_0_r in He.
    rewrite attempts_step, (attempt_failure _ _ _ He).
    replace (retries - 1 =? retries - 1)%nat with true
      by (symmetry; apply Nat.eqb_refl).
    reflexivity.
  - rewrite attempts_step.
    destruct (failure (net (calls w))) as [e0|] eqn:He0.
    2:{ exfalso. apply (Hfail 0%nat); [lia|]. now rewrite Nat.add_0_r. }
    rewrite (attempt_failure _ _ _ He0).
    destruct (Nat.eqb_spec (retries - S (S remaining)) (retries - 1)) as [E|_];
      [lia|].
    rewrite (IH (after_fetch url payload w) e); try assumption.
    + reflexivity.
    + lia.
    + intros j Hj. cbn [calls after_fetch].
      replace (S (calls w) + j)%nat with (calls w + S j)%nat by lia.
      apply Hfail. lia.
    + cbn [calls after_fetch].
      replace (S (calls w) + remaining)%nat with (calls w + S remaining)%nat
        by lia.
      exact He.
Qed.

End CallerBounds.

(** X1.  Whatever the upstream does, [callApiWithBackoff] issues at most
    [retries] calls, and at least one when [retries] is positive. *)
Theorem callApiWithBackoff_makes_between_one_and_retries_calls :
  forall (rt : Runtime) (net : Network) (url : string) (payload : JSValue)
         (retries : nat) (w : World),
    (calls w + Nat.min 1 retries
       <= calls (snd (callApiWithBackoff rt net url payload retries w))
       <= calls w + retries)%nat.
Proof.
  intros. unfold callApiWithBackoff. apply attempts_calls.
Qed.

Lemma backoff_increasing (i j : nat) : (i < j)%nat -> (backoff i < backoff j)%Z.
Proof.
  intros H. unfold backoff.
  apply Z.mul_lt_mono_pos_r; [lia|].
  apply Z.pow_lt_mono_r; lia.
Qed.

Lemma sorted_backoff (indices : list nat) :
  StronglySorted lt indices -> StronglySorted Z.lt (map backoff indices).
Proof.
  induction 1 as [|i indices Hs IH Hall]; cbn; constructor; [exact IH|].
  apply Forall_map. eapply Forall_impl; [|exact Hall].
  intros j Hj. now apply backoff_increasing.
Qed.

(** X2.  The pauses of one call of [callApiWithBackoff] are [2^i] seconds
    for turn indices [i] below [retries] that go up strictly: each pause is
    longer than the one before, and none is longer than
    [2^(retries-1)] seconds (jitter apart). *)
Theorem callApiWithBackoff_pauses_grow :
  forall (rt : Runtime) (net : Network) (url : string) (payload : JSValue)
         (retries : nat) (w : World),
  exists effects indices,
    trace (snd (callApiWithBackoff rt net url payload retries w)) =
      (trace w ++ effects)%list /\
    sleeps effects = map backoff indices /\
    StronglySorted lt indices /\
    Forall (fun i => i < retries)%nat indices /\
    StronglySorted Z.lt (sleeps effects) /\
    Forall (fun ms => 1000 <= ms <= backoff (retries - 1))%Z (sleeps effects).
Proof.
  intros rt net url payload retries w. unfold callApiWithBackoff.
  destruct (@attempts_pauses rt net url payload retries retries w
              (Nat.le_refl retries))
    as (effects & indices & Ht & Hs & Hsort & Hall).
  exists effects, indices. repeat split; auto.
  - eapply Forall_impl; [|exact Hall]. cbn. intros; lia.
  - rewrite Hs. now apply sorted_backoff.
  - rewrite Hs. apply Forall_map. eapply Forall_impl; [|exact Hall].
    cbn. intros i Hi. split.
    + unfold backoff.
      assert (1 <= 2 ^ Z.of_nat i)%Z by (apply Z.pow_le_mono_r with (b := 0%Z); lia).
      lia.
    + destruct (Nat.eq_dec i (retries - 1)) as [->|Hne]; [lia|].
      apply Z.lt_le_incl, backoff_increasing. lia.
Qed.

(** X3.  Attempts that fail, by a rejected [fetch] or by an error status
    other than 429, are retried at once: if [k] of them, fewer than
    [retries], are followed by a success answer, the call returns the parse
    of that answer after [k + 1] calls and no pause. *)
Theorem callApiWithBackoff_recovers_from_failed_attempts :
  forall (rt : Runtime) (net : Network) (url : string) (payload : JSValue)
         (retries k : nat) (w : World) (r : Response),
    (k < retries)%nat ->
    (forall j, (j < k)%nat -> failure (net (calls w + j)) <> None) ->
    net (calls w + k) = Resolves r ->
    ok r = true ->
    callApiWithBackoff rt net url payload retries w =
      (parse rt (text r), after_fetches (S k) url payload w).
Proof.
  intros rt net url payload retries k w r Hk Hfail Hnet Hok.
  unfold callApiWithBackoff.
  apply attempts_recover; auto; lia.
Qed.

Lemma callApiWithBackoff_recovers_witness :
  callApiWithBackoff node
    (fun k => match k with
              | O => Rejects "socket hang up"
              | S O => Resolves internal_error
              | _ => Resolves (prediction_answer "QUJD")
              end)
    "u" JNull 3 start
  = (parse node (text (prediction_answer "QUJD")),
     after_fetches 3 "u" JNull start).
Proof.
  apply (callApiWithBackoff_recovers_from_failed_attempts
           node
           (fun k => match k with
                     | O => Rejects "socket hang up"
                     | S O => Resolves internal_error
                     | _ => Resolves (prediction_answer "QUJD")
                     end)
           "u" JNull (retries := 3) (k := 2) start
           (r := prediction_answer "QUJD")).
  - repeat constructor.
  - intros [|[|j]] Hj; cbn; try discriminate.
    exfalso. apply Nat.succ_lt_mono, Nat.succ_lt_mono in Hj. inversion Hj.
  - reflexivity.
  - reflexivity.
Defined.

(** X4.  When every one of the [retries] attempts fails, by a rejected
    [fetch] or by an error status other than 429, the call makes exactly
    [retries] calls without a pause and throws the error of the last
    attempt; the errors of the earlier attempts are lost. *)
Theorem callApiWithBackoff_throws_error_of_last_attempt :
  forall (rt : Runtime) (net : Network) (url : string) (payload : JSValue)
         (retries : nat) (w : World) (e : Exn),
    (forall j, (j < retries)%nat -> failure (net (calls w + j)) <> None) ->
    failure (net (calls w + retries)) = Some e ->
    callApiWithBackoff rt net url payload (S retries) w =
      (Throw e, after_fetches (S retries) url payload w).
Proof.
  intros rt net url payload retries w e Hfail He.
  unfold callApiWithBackoff. apply attempts_exhaust; auto.
Qed.

Lemma callApiWithBackoff_throws_last_witness :
  callApiWithBackoff node
    (fun k => match k with
              | O => Resolves internal_error
              | S O => Rejects "socket hang up"
              | _ => Resolves {| status := 403; text := "denied" |}
              end)
    "u" JNull 3 start
  = (Throw (ApiError 403 "denied"), after_fetches 3 "u" JNull start).
Proof.
  apply (callApiWithBackoff_throws_error_of_last_attempt
           node
           (fun k => match k with
                     | O => Resolves internal_error
                     | S O => Rejects "socket hang up"
                     | _ => Resolves {| status := 403; text := "denied" |}
                     end)
           "u" JNull (retries := 2) start).
  - intros [|[|j]] Hj; cbn; discriminate.
  - reflexivity.
Defined.

(** ** The [catch] block of generateImage.js *)

Lemma all_digits_uint (d : Decimal.uint) :
  all_digits (NilEmpty.string_of_uint d) = true.
Proof. induction d; cbn; auto. Qed.

(** The decimal text of a status that is not negative: digits, at least
    one. *)
Lemma string_of_Z_digits (n : Z) :
  (0 <= n)%Z ->
  exists c rest,
    string_of_Z n = String c rest /\ is_digit c = true /\ all_digits rest = true.
Proof.
  intros Hn. unfold string_of_Z.
  destruct n as [|p|p]; [cbn; eauto | | lia].
  cbn [Z.to_int NilZero.string_of_int]. unfold NilZero.string_of_uint.
  pose proof (all_digits_uint (Pos.to_uint p)) as Hd.
  destruct (Pos.to_uint p); cbn in Hd |- *; eauto;
    apply andb_prop in Hd; destruct Hd; eauto.
Qed.

Lemma drop_digits_stops (ds rest : string) :
  all_digits ds = true -> drop_digits (ds ++ ": " ++ rest) = ": " ++ rest.
Proof.
  induction ds as [|c ds IH]; cbn; [reflexivity|].
  intros H. apply andb_prop in H. destruct H as [Hc Hds].
  rewrite Hc. exact (IH Hds).
Qed.

(** The pattern of the [catch] block finds the body text in the message of
    the error that [callApiWithBackoff] creates. *)
Lemma match_api_error_message (rt : Runtime) (st : Z) (errorBody : string) :
  (0 <= st)%Z ->
  match_api_error (message rt (ApiError st errorBody)) = Some errorBody.
Proof.
  intros Hst. destruct (string_of_Z_digits Hst) as (c & rest & Hs & Hc & Hrest).
  cbn [message]. rewrite Hs.
  assert (Hhere : match_here ("External API Error "
                                ++ String c rest ++ ": " ++ errorBody)
                  = Some errorBody).
  { unfold match_here. rewrite drop_prefix_append.
    change (String c rest ++ ": " ++ errorBody)
      with (String c (rest ++ ": " ++ errorBody)).
    cbv beta iota. rewrite Hc. rewrite drop_digits_stops by exact Hrest.
    apply (drop_prefix_append ": "). }
  destruct ("External API Error " ++ String c rest ++ ": " ++ errorBody);
    cbn [match_api_error]; now rewrite Hhere.
Qed.

Section CatchBlock.

Variable rt : Runtime.
Variable API_KEY : option string.
Variable net : Network.

Lemma Imagen_handler_call_throws ev w w' sent e :
  httpMethod ev = "POST" ->
  configured API_KEY = true ->
  Imagen.request rt ev = Ret (Some sent) ->
  callApiWithBackoff rt net (Imagen.apiUrl API_KEY) sent 3 w = (Throw e, w') ->
  Imagen.handler rt API_KEY net ev w = (on_error rt e, w').
Proof.
  intros Hpost Hcfg Hreq Hcall. unfold Imagen.handler.
  rewrite Hpost, Hcfg. cbn [String.eqb Ascii.eqb Bool.eqb negb].
  unfold Imagen.serve. run. rewrite Hreq, Hcall. reflexivity.
Qed.

Lemma Multimodal_handler_call_throws ev w w' sent e :
  httpMethod ev = "POST" ->
  configured API_KEY = true ->
  Multimodal.request rt ev = Ret (Some sent) ->
  callApiWithBackoff rt net (Multimodal.apiUrl API_KEY) sent 3 w = (Throw e, w') ->
  Multimodal.handler rt API_KEY net ev w = (on_error rt e, w').
Proof.
  intros Hpost Hcfg Hreq Hcall. unfold Multimodal.handler.
  rewrite Hpost, Hcfg. cbn [String.eqb Ascii.eqb Bool.eqb negb].
  unfold Multimodal.serve. run. rewrite Hreq, Hcall. reflexivity.
Qed.

Lemma caughtMessage_unwrapped st errorBody apiError inner :
  (0 <= st)%Z ->
  errorBody <> "" ->
  JSON_parse rt errorBody = Some apiError ->
  Get apiError "error" = Ret inner ->
  truthy (OptGet inner "message") = true ->
  caughtMessage rt (ApiError st errorBody) = OptGet inner "message".
Proof.
  intros Hst Hne Hparse Hinner Hm. unfold caughtMessage, unwrap.
  rewrite match_api_error_message by exact Hst.
  destruct (String.eqb_spec errorBody "") as [E|_]; [contradiction|].
  unfold parse. rewrite Hparse. cbn [obind]. rewrite Hinner. cbn [obind].
  rewrite Hm. reflexivity.
Qed.

Lemma caughtMessage_raw st errorBody :
  (0 <= st)%Z ->
  JSON_parse rt errorBody = None ->
  caughtMessage rt (ApiError st errorBody) =
    JStr ("External API Error " ++ string_of_Z st ++ ": " ++ errorBody).
Proof.
  intros Hst Hparse. unfold caughtMessage, unwrap.
  rewrite match_api_error_message by exact Hst.
  destruct (errorBody =? ""); [reflexivity|].
  unfold parse. rewrite Hparse. reflexivity.
Qed.

End CatchBlock.

(** X5.  When the upstream call of generateImage.js ends with the error of
    an error status whose body is a JSON document with a truthy
    [error.message] that converts to a string, the 500 response names that
    message, not the raw text of the exception. *)
Theorem generateImage_catch_unwraps_upstream_message :
  forall (rt : Runtime) (API_KEY : option string) (net : Network)
         (ev : Event) (w w' : World) (sent : JSValue)
         (st : Z) (errorBody : string) (apiError inner : JSValue)
         (shown : string),
    httpMethod ev = "POST" ->
    configured API_KEY = true ->
    Imagen.request rt ev = Ret (Some sent) ->
    callApiWithBackoff rt net (Imagen.apiUrl API_KEY) sent 3 w
      = (Throw (ApiError st errorBody), w') ->
    (0 <= st)%Z ->
    errorBody <> "" ->
    JSON_parse rt errorBody = Some apiError ->
    Get apiError "error" = Ret inner ->
    truthy (OptGet inner "message") = true ->
    ToString rt (OptGet inner "message") = Ret shown ->
    Imagen.handler rt API_KEY net ev w =
      (Ret {| statusCode := 500;
              headers := CORS_HEADERS;
              responseBody :=
                Json (error_object
                        (JStr ("Generation Error: Failed to generate image. "
                               ++ shown))) |}, w').
Proof.
  intros rt API_KEY net ev w w' sent st errorBody apiError inner shown
         Hpost Hcfg Hreq Hcall Hst Hne Hparse Hinner Hm Hshown.
  erewrite Imagen_handler_call_throws by eassumption.
  unfold on_error.
  erewrite caughtMessage_unwrapped by eassumption. rewrite Hshown. reflexivity.
Qed.

Lemma generateImage_catch_unwraps_witness :
  Imagen.handler node (Some "k")
    (always {| status := 403;
               text := render (JObj [ ("error",
                         JObj [ ("message", JStr "Quota exceeded") ]) ]) |})
    (post (JObj [("prompt", JStr "a cat")])) start
  = (Ret {| statusCode := 500;
            headers := CORS_HEADERS;
            responseBody :=
              Json (error_object
                      (JStr ("Generation Error: Failed to generate image. "
                             ++ "Quota exceeded"))) |},
     after_fetches 3 (Imagen.apiUrl (Some "k")) (Imagen.payload (JStr "a cat"))
       start).
Proof.
  apply (generateImage_catch_unwraps_upstream_message
           node (Some "k")
           (always {| status := 403;
                      text := render (JObj [ ("error",
                                JObj [ ("message", JStr "Quota exceeded") ]) ]) |})
           (post (JObj [("prompt", JStr "a cat")])) start
           (sent := Imagen.payload (JStr "a cat")) (st := 403)
           (errorBody := render (JObj [ ("error",
                            JObj [ ("message", JStr "Quota exceeded") ]) ]))
           (apiError := JObj [ ("error",
                            JObj [ ("message", JStr "Quota exceeded") ]) ])
           (inner := JObj [ ("message", JStr "Quota exceeded") ]));
    try reflexivity.
  - cbn. lia.
  - discriminate.
Defined.

(** X6.  When the body of the error status is not a JSON document, the 500
    response of generateImage.js carries the raw text of the exception:
    the status code and the body text. *)
Theorem generateImage_catch_keeps_raw_message :
  forall (rt : Runtime) (API_KEY : option string) (net : Network)
         (ev : Event) (w w' : World) (sent : JSValue)
         (st : Z) (errorBody : string),
    httpMethod ev = "POST" ->
    configured API_KEY = true ->
    Multimodal.request rt ev = Ret (Some sent) ->
    callApiWithBackoff rt net (Multimodal.apiUrl API_KEY) sent 3 w
      = (Throw (ApiError st errorBody), w') ->
    (0 <= st)%Z ->
    JSON_parse rt errorBody = None ->
    Multimodal.handler rt API_KEY net ev w =
      (Ret {| statusCode := 500;
              headers := CORS_HEADERS;
              responseBody :=
                Json (error_object
                        (JStr ("Generation Error: Failed to generate image. "
                               ++ "External API Error " ++ string_of_Z st
                               ++ ": " ++ errorBody))) |}, w').
Proof.
  intros rt API_KEY net ev w w' sent st errorBody
         Hpost Hcfg Hreq Hcall Hst Hparse.
  erewrite Multimodal_handler_call_throws by eassumption.
  unfold on_error. rewrite caughtMessage_raw by assumption. reflexivity.
Qed.

Lemma generateImage_catch_raw_witness :
  Multimodal.handler node (Some "k") (always internal_error)
    (post (JObj [("prompt", JStr "a cat"); ("logoData", logo "AAA")])) start
  = (Ret {| statusCode := 500;
            headers := CORS_HEADERS;
            responseBody :=
              Json (error_object
                      (JStr ("Generation Error: Failed to generate image. "
                             ++ "External API Error " ++ string_of_Z 500
                             ++ ": " ++ "boom"))) |},
     after_fetches 3 (Multimodal.apiUrl (Some "k"))
       (Multimodal.payload (JStr "a cat") (JStr "image/png") (JStr "AAA"))
       start).
Proof.
  apply (generateImage_catch_keeps_raw_message
           node (Some "k") (always internal_error)
           (post (JObj [("prompt", JStr "a cat"); ("logoData", logo "AAA")]))
           start
           (sent := Multimodal.payload (JStr "a cat") (JStr "image/png")
                      (JStr "AAA"))
           (st := 500) (errorBody := "boom"));
    try reflexivity.
  cbn. lia.
Defined.

(** X25.  The [catch] block of generateImage.js is not the last word.
    When the upstream call ends with the error of an error status whose
    body is a JSON document with a truthy [error.message] that does not
    convert to a string, the template literal of the [catch] block throws,
    and that exception leaves the handler. *)
Theorem generateImage_catch_throws_on_message_without_text :
  forall (rt : Runtime) (API_KEY : option string) (net : Network)
         (ev : Event) (w w' : World) (sent : JSValue)
         (st : Z) (errorBody : string) (apiError inner : JSValue)
         (thrown : Exn),
    httpMethod ev = "POST" ->
    configured API_KEY = true ->
    Imagen.request rt ev = Ret (Some sent) ->
    callApiWithBackoff rt net (Imagen.apiUrl API_KEY) sent 3 w
      = (Throw (ApiError st errorBody), w') ->
    (0 <= st)%Z ->
    errorBody <> "" ->
    JSON_parse rt errorBody = Some apiError ->
    Get apiError "error" = Ret inner ->
    truthy (OptGet inner "message") = true ->
    ToString rt (OptGet inner "message") = Throw thrown ->
    Imagen.handler rt API_KEY net ev w = (Throw thrown, w').
Proof.
  intros rt API_KEY net ev w w' sent st errorBody apiError inner thrown
         Hpost Hcfg Hreq Hcall Hst Hne Hparse Hinner Hm Hthrown.
  erewrite Imagen_handler_call_throws by eassumption.
  unfold on_error.
  erewrite caughtMessage_unwrapped by eassumption. rewrite Hthrown. reflexivity.
Qed.

Lemma generateImage_catch_throws_witness :
  Imagen.handler node (Some "k")
    (always (error_answer 500 (JObj [("toString", JNum 0)])))
    (post (JObj [("prompt", JStr "a cat")])) start
  = (Throw (TypeError (NotPrimitive (JObj [("toString", JNum 0)]))),
     after_fetches 3 (Imagen.apiUrl (Some "k")) (Imagen.payload (JStr "a cat"))
       start).
Proof.
  apply (generateImage_catch_throws_on_message_without_text
           node (Some "k")
           (always (error_answer 500 (JObj [("toString", JNum 0)])))
           (post (JObj [("prompt", JStr "a cat")])) start
           (sent := Imagen.payload (JStr "a cat")) (st := 500)
           (errorBody := render (JObj [ ("error",
                            JObj [ ("message", JObj [("toString", JNum 0)]) ]) ]))
           (apiError := JObj [ ("error",
                            JObj [ ("message", JObj [("toString", JNum 0)]) ]) ])
           (inner := JObj [ ("message", JObj [("toString", JNum 0)]) ]));
    try reflexivity.
  - cbn. lia.
  - discriminate.
Defined.

(** ** When the handlers call the upstream *)

Section UpstreamCalls.

Variable rt : Runtime.
Variable API_KEY : option string.
Variable net : Network.

(** The world a run of the Imagen handler leaves: the one of its upstream
    call when the request passes the guards and the validation, the one it
    found otherwise. *)
Lemma Imagen_handler_world ev w :
  snd (Imagen.handler rt API_KEY net ev w) =
    if (httpMethod ev =? "POST") && configured API_KEY then
      match Imagen.request rt ev with
      | Ret (Some sent) =>
          snd (callApiWithBackoff rt net (Imagen.apiUrl API_KEY) sent 3 w)
      | _ => w
      end
    else w.
Proof.
  unfold Imagen.handler.
  destruct (String.eqb_spec (httpMethod ev) "OPTIONS") as [E|_].
  { rewrite E. reflexivity. }
  destruct (httpMethod ev =? "POST"); [|reflexivity].
  destruct (configured API_KEY); [|reflexivity].
  cbn [negb andb]. unfold Imagen.serve. run.
  destruct (Imagen.request rt ev) as [[sent|]|e]; try reflexivity.
  destruct (callApiWithBackoff rt net (Imagen.apiUrl API_KEY) sent 3 w)
    as [[response|e] w']; [|reflexivity].
  destruct (Imagen.respond rt response) as [r|e]; [reflexivity|].
  cbn [snd]. destruct (on_error rt e); reflexivity.
Qed.

Lemma Multimodal_handler_world ev w :
  snd (Multimodal.handler rt API_KEY net ev w) =
    if (httpMethod ev =? "POST") && configured API_KEY then
      match Multimodal.request rt ev with
      | Ret (Some sent) =>
          snd (callApiWithBackoff rt net (Multimodal.apiUrl API_KEY) sent 3 w)
      | _ => w
      end
    else w.
Proof.
  unfold Multimodal.handler.
  destruct (String.eqb_spec (httpMethod ev) "OPTIONS") as [E|_].
  { rewrite E. reflexivity. }
  destruct (httpMethod ev =? "POST"); [|reflexivity].
  destruct (configured API_KEY); [|reflexivity].
  cbn [negb andb]. unfold Multimodal.serve. run.
  destruct (Multimodal.request rt ev) as [[sent|]|e]; try reflexivity.
  destruct (callApiWithBackoff rt net (Multimodal.apiUrl API_KEY) sent 3 w)
    as [[response|e] w']; [|reflexivity].
  destruct (Multimodal.respond rt response) as [r|e]; [reflexivity|].
  cbn [snd]. destruct (on_error rt e); reflexivity.
Qed.

Lemma Jersey_handler_world ev w :
  snd (Jersey.handler rt API_KEY net ev w) =
    if (httpMethod ev =? "POST") && configured API_KEY then
      match Jersey.request rt ev with
      | Ret sent => after_fetch (Jersey.GEMINI_API_URL API_KEY) sent w
      | Throw _ => w
      end
    else w.
Proof.
  unfold Jersey.handler.
  destruct (String.eqb_spec (httpMethod ev) "OPTIONS") as [E|_].
  { rewrite E. reflexivity. }
  destruct (configured API_KEY);
    [|cbn [negb]; rewrite andb_false_r; reflexivity].
  destruct (httpMethod ev =? "POST"); [|reflexivity].
  cbn [negb andb]. unfold Jersey.serve. run.
  destruct (Jersey.request rt ev) as [sent|e]; [|reflexivity].
  destruct (net (calls w)) as [apiResponse|reason]; [|reflexivity].
  destruct (Jersey.answer rt apiResponse); reflexivity.
Qed.

End UpstreamCalls.

(** X7.  A run of a generateImage.js handler makes at most three upstream
    calls, and it makes one at all exactly when the method is POST, the API
    key is configured and the body yields a payload (it parses and has a
    truthy prompt and, in the multi-modal variant, a usable logo). *)
Theorem generateImage_calls_upstream_exactly_for_valid_requests :
  forall (rt : Runtime) (API_KEY : option string) (net : Network)
         (ev : Event) (w : World),
    ((calls w <= calls (snd (Imagen.handler rt API_KEY net ev w))
        <= calls w + 3)%nat /\
     (calls (snd (Imagen.handler rt API_KEY net ev w)) <> calls w <->
      httpMethod ev = "POST" /\ configured API_KEY = true /\
      exists sent, Imagen.request rt ev = Ret (Some sent))) /\
    ((calls w <= calls (snd (Multimodal.handler rt API_KEY net ev w))
        <= calls w + 3)%nat /\
     (calls (snd (Multimodal.handler rt API_KEY net ev w)) <> calls w <->
      httpMethod ev = "POST" /\ configured API_KEY = true /\
      exists sent, Multimodal.request rt ev = Ret (Some sent))).
Proof.
  intros rt API_KEY net ev w. split.
  - rewrite Imagen_handler_world.
    destruct (String.eqb_spec (httpMethod ev) "POST") as [Hp|Hp];
      destruct (configured API_KEY); cbn [andb];
      try (split; [lia|]; split; [intros H; now contradiction H
                                 | intros (H1 & H2 & _); congruence]).
    destruct (Imagen.request rt ev) as [[sent|]|e];
      try (split; [lia|]; split;
           [intros H; now contradiction H
           | intros (_ & _ & s & Hs); discriminate Hs]).
    pose proof (attempts_calls rt net (Imagen.apiUrl API_KEY) sent 3 3 w)
      as Hb.
    fold (callApiWithBackoff rt net (Imagen.apiUrl API_KEY) sent 3) in Hb.
    cbn [Nat.min] in Hb. split; [lia|]. split; [eauto | lia].
  - rewrite Multimodal_handler_world.
    destruct (String.eqb_spec (httpMethod ev) "POST") as [Hp|Hp];
      destruct (configured API_KEY); cbn [andb];
      try (split; [lia|]; split; [intros H; now contradiction H
                                 | intros (H1 & H2 & _); congruence]).
    destruct (Multimodal.request rt ev) as [[sent|]|e];
      try (split; [lia|]; split;
           [intros H; now contradiction H
           | intros (_ & _ & s & Hs); discriminate Hs]).
    pose proof (attempts_calls rt net (Multimodal.apiUrl API_KEY) sent 3 3 w)
      as Hb.
    fold (callApiWithBackoff rt net (Multimodal.apiUrl API_KEY) sent 3) in Hb.
    cbn [Nat.min] in Hb. split; [lia|]. split; [eauto | lia].
Qed.

(** X8.  generate-jersey.js never retries: a run makes exactly one upstream
    call when the method is POST, the API key is configured and the body
    parses to a value with a [logoData], and none otherwise; the call
    carries the payload built from the body. *)
Theorem Jersey_calls_upstream_once_for_valid_requests :
  forall (rt : Runtime) (API_KEY : option string) (net : Network)
         (ev : Event) (w : World),
    (forall sent,
        httpMethod ev = "POST" -> configured API_KEY = true ->
        Jersey.request rt ev = Ret sent ->
        snd (Jersey.handler rt API_KEY net ev w) =
          after_fetch (Jersey.GEMINI_API_URL API_KEY) sent w) /\
    (~ (httpMethod ev = "POST" /\ configured API_KEY = true /\
        exists sent, Jersey.request rt ev = Ret sent) ->
     snd (Jersey.handler rt API_KEY net ev w) = w).
Proof.
  intros rt API_KEY net ev w. rewrite Jersey_handler_world. split.
  - intros sent Hp Hc Hr. rewrite Hp, Hc, Hr. reflexivity.
  - intros Hnot.
    destruct (String.eqb_spec (httpMethod ev) "POST") as [Hp|Hp];
      [|reflexivity].
    destruct (configured API_KEY); [|reflexivity].
    cbn [andb]. destruct (Jersey.request rt ev) as [sent|e]; [|reflexivity].
    exfalso. apply Hnot. eauto.
Qed.

Lemma Jersey_calls_upstream_once_witness :
  snd (Jersey.handler node (Some "k") (always internal_error)
         (post (JObj [("prompt", JStr "a cat"); ("logoData", logo "AAA")]))
         start)
  = after_fetch (Jersey.GEMINI_API_URL (Some "k"))
      (Jersey.payload (JStr "a cat") (JStr "image/png") (JStr "AAA")) start.
Proof.
  apply (proj1 (Jersey_calls_upstream_once_for_valid_requests
                  node (Some "k") (always internal_error)
                  (post (JObj [("prompt", JStr "a cat");
                               ("logoData", logo "AAA")]))
                  start));
    reflexivity.
Defined.

(** ** The image comes back as it was sent *)

(** X9.  Imagen variant of generateImage.js: when the upstream call returns
    an answer whose first prediction carries a non-empty string in
    [bytesBase64Encoded], the handler answers 200 and the string is in the
    body unchanged, behind the prefix [data:image/png;base64,]. *)
Theorem Imagen_returns_the_upstream_image :
  forall (rt : Runtime) (API_KEY : option string) (net : Network)
         (ev : Event) (w w' : World)
         (response first : JSValue) (others : list JSValue) (b : string),
    Imagen.answered rt API_KEY net ev w response w' ->
    Get response "predictions" = Ret (JArr (first :: others)) ->
    Get first "bytesBase64Encoded" = Ret (JStr b) ->
    b <> "" ->
    Imagen.handler rt API_KEY net ev w =
      (Ret {| statusCode := 200;
              headers := CORS_HEADERS;
              responseBody :=
                Json (JObj [ ("imageUrl",
                              JStr ("data:image/png;base64," ++ b)) ]) |}, w').
Proof.
  intros rt API_KEY net ev w w' response first others b Hans Hpred Hbytes Hb.
  rewrite (Imagen_handler_answered Hans).
  unfold Imagen.respond, Imagen.imageField. rewrite Hpred. cbn [obind].
  change (OptGet (JArr (first :: others)) "0") with first.
  erewrite bytes_field_base by exact Hbytes. rewrite Hbytes. cbn [obind].
  rewrite (nonempty_truthy Hb). reflexivity.
Qed.

Lemma Imagen_returns_the_upstream_image_witness :
  Imagen.handler node (Some "k")
    (scripted [ {| status := 429; text := "" |}; prediction_answer "QUJD" ])
    (post (JObj [("prompt", JStr "a cat")])) start
  = (Ret {| statusCode := 200;
            headers := CORS_HEADERS;
            responseBody :=
              Json (JObj [ ("imageUrl",
                            JStr ("data:image/png;base64," ++ "QUJD")) ]) |},
     after_fetch (Imagen.apiUrl (Some "k")) (Imagen.payload (JStr "a cat"))
       (record (Slept 1000)
          (after_fetch (Imagen.apiUrl (Some "k"))
             (Imagen.payload (JStr "a cat")) start))).
Proof.
  apply (Imagen_returns_the_upstream_image
           (rt := node) (API_KEY := Some "k")
           (net := scripted [ {| status := 429; text := "" |};
                              prediction_answer "QUJD" ])
           (ev := post (JObj [("prompt", JStr "a cat")])) (w := start)
           (response := JObj [ ("predictions",
                          JArr [ JObj [ ("bytesBase64Encoded", JStr "QUJD") ] ]) ])
           (first := JObj [ ("bytesBase64Encoded", JStr "QUJD") ])
           (others := [])).
  - split; [reflexivity|]. split; [reflexivity|].
    exists (Imagen.payload (JStr "a cat")). split; reflexivity.
  - reflexivity.
  - reflexivity.
  - discriminate.
Defined.

(** X10.  Multi-modal variant: the image is the [data] of the first part of
    the first candidate that has an [inlineData]; parts without one before
    it are skipped.  When that data is a non-empty string the handler
    answers 200 with the string unchanged behind the data-URI prefix. *)
Theorem Multimodal_returns_the_upstream_image :
  forall (rt : Runtime) (API_KEY : option string) (net : Network)
         (ev : Event) (w w' : World)
         (response first p : JSValue) (others texts rest : list JSValue)
         (b : string),
    Multimodal.answered rt API_KEY net ev w response w' ->
    Get response "candidates" = Ret (JArr (first :: others)) ->
    OptGet (OptGet first "content") "parts" = JArr (texts ++ p :: rest) ->
    Forall (fun t => nullish t = false /\ truthy (OptGet t "inlineData") = false)
           texts ->
    OptGet (OptGet p "inlineData") "data" = JStr b ->
    b <> "" ->
    Multimodal.handler rt API_KEY net ev w =
      (Ret {| statusCode := 200;
              headers := CORS_HEADERS;
              responseBody :=
                Json (JObj [ ("imageUrl",
                              JStr ("data:image/png;base64," ++ b)) ]) |}, w').
Proof.
  intros rt API_KEY net ev w w' response first p others texts rest b
         Hans Hcand Hparts Htexts Hdata Hb.
  rewrite (Multimodal_handler_answered Hans). unfold Multimodal.respond.
  erewrite inlineImageData_of_shape
    by first [eassumption | eapply data_field_base; eassumption].
  cbn [obind]. rewrite Hdata, (nonempty_truthy Hb). reflexivity.
Qed.

Lemma Multimodal_returns_the_upstream_image_witness :
  Multimodal.handler node (Some "k")
    (always {| status := 200;
               text := render
                 (JObj [ ("candidates",
                    JArr [ JObj [ ("content",
                      JObj [ ("parts",
                        JArr [ JObj [ ("text", JStr "Here it is") ];
                               JObj [ ("inlineData",
                                 JObj [ ("data", JStr "QUJD") ]) ] ]) ]) ] ]) ]) |})
    (post (JObj [("prompt", JStr "a cat"); ("logoData", logo "AAA")])) start
  = (Ret {| statusCode := 200;
            headers := CORS_HEADERS;
            responseBody :=
              Json (JObj [ ("imageUrl",
                            JStr ("data:image/png;base64," ++ "QUJD")) ]) |},
     after_fetch (Multimodal.apiUrl (Some "k"))
       (Multimodal.payload (JStr "a cat") (JStr "image/png") (JStr "AAA"))
       start).
Proof.
  apply (@Multimodal_returns_the_upstream_image
           node (Some "k")
           (always {| status := 200;
               text := render
                 (JObj [ ("candidates",
                    JArr [ JObj [ ("content",
                      JObj [ ("parts",
                        JArr [ JObj [ ("text", JStr "Here it is") ];
                               JObj [ ("inlineData",
                                 JObj [ ("data", JStr "QUJD") ]) ] ]) ]) ] ]) ]) |})
           (post (JObj [("prompt", JStr "a cat"); ("logoData", logo "AAA")]))
           start
           (after_fetch (Multimodal.apiUrl (Some "k"))
              (Multimodal.payload (JStr "a cat") (JStr "image/png") (JStr "AAA"))
              start)
           (JObj [ ("candidates",
                    JArr [ JObj [ ("content",
                      JObj [ ("parts",
                        JArr [ JObj [ ("text", JStr "Here it is") ];
                               JObj [ ("inlineData",
                                 JObj [ ("data", JStr "QUJD") ]) ] ]) ]) ] ]) ])
           (JObj [ ("content",
                      JObj [ ("parts",
                        JArr [ JObj [ ("text", JStr "Here it is") ];
                               JObj [ ("inlineData",
                                 JObj [ ("data", JStr "QUJD") ]) ] ]) ]) ])
           (JObj [ ("inlineData", JObj [ ("data", JStr "QUJD") ]) ])
           [] [ JObj [ ("text", JStr "Here it is") ] ] [] "QUJD").
  - split; [reflexivity|]. split; [reflexivity|].
    exists (Multimodal.payload (JStr "a cat") (JStr "image/png") (JStr "AAA")).
    split; reflexivity.
  - reflexivity.
  - reflexivity.
  - repeat constructor.
  - reflexivity.
  - discriminate.
Defined.

(** X11.  generate-jersey.js: on a success answer of the same shape the
    handler answers 200 with the string itself, without a prefix, as
    [base64Data]. *)
Theorem Jersey_returns_the_upstream_image :
  forall (rt : Runtime) (API_KEY : option string) (net : Network)
         (ev : Event) (w : World) (apiResponse : Response)
         (result first p : JSValue) (others texts rest : list JSValue)
         (b : string),
    Jersey.answered rt API_KEY net ev w apiResponse ->
    ok apiResponse = true ->
    JSON_parse rt (text apiResponse) = Some result ->
    Get result "candidates" = Ret (JArr (first :: others)) ->
    OptGet (OptGet first "content") "parts" = JArr (texts ++ p :: rest) ->
    Forall (fun t => nullish t = false /\ truthy (OptGet t "inlineData") = false)
           texts ->
    OptGet (OptGet p "inlineData") "data" = JStr b ->
    b <> "" ->
    fst (Jersey.handler rt API_KEY net ev w) =
      Ret {| statusCode := 200;
             headers := [ ("Access-Control-Allow-Origin", "*") ];
             responseBody := Json (JObj [ ("base64Data", JStr b) ]) |}.
Proof.
  intros rt API_KEY net ev w apiResponse result first p others texts rest b
         Hans Hok Hparse Hcand Hparts Htexts Hdata Hb.
  destruct (Jersey_handler_answered Hans) as (sent & _ & Hrun).
  rewrite Hrun. unfold Jersey.answer, parse, Jersey.respond.
  rewrite Hok, Hparse. cbn [negb obind fst].
  erewrite inlineImageData_of_shape
    by first [eassumption | eapply data_field_base; eassumption].
  cbn [obind]. rewrite Hdata, (nonempty_truthy Hb). reflexivity.
Qed.

Lemma Jersey_returns_the_upstream_image_witness :
  fst (Jersey.handler node (Some "k") (always (content_answer "QUJD"))
         (post (JObj [("prompt", JStr "a cat"); ("logoData", logo "AAA")]))
         start)
  = Ret {| statusCode := 200;
           headers := [ ("Access-Control-Allow-Origin", "*") ];
           responseBody := Json (JObj [ ("base64Data", JStr "QUJD") ]) |}.
Proof.
  apply (@Jersey_returns_the_upstream_image
           node (Some "k") (always (content_answer "QUJD"))
           (post (JObj [("prompt", JStr "a cat"); ("logoData", logo "AAA")]))
           start (content_answer "QUJD")
           (JObj [ ("candidates",
                JArr [ JObj [ ("content",
                  JObj [ ("parts",
                    JArr [ JObj [ ("inlineData",
                      JObj [ ("mimeType", JStr "image/png");
                             ("data", JStr "QUJD") ]) ] ]) ]) ] ]) ])
           (JObj [ ("content",
                  JObj [ ("parts",
                    JArr [ JObj [ ("inlineData",
                      JObj [ ("mimeType", JStr "image/png");
                             ("data", JStr "QUJD") ]) ] ]) ]) ])
           (JObj [ ("inlineData",
                      JObj [ ("mimeType", JStr "image/png");
                             ("data", JStr "QUJD") ]) ])
           [] [] [] "QUJD").
  - split; [reflexivity|]. split; [reflexivity|].
    split; [eexists; reflexivity | reflexivity].
  - reflexivity.
  - reflexivity.
  - reflexivity.
  - reflexivity.
  - constructor.
  - reflexivity.
  - discriminate.
Defined.

(** ** What an answer without an image leads to *)

Lemma inlineImageData_falsy_candidates (response c : JSValue) :
  Get response "candidates" = Ret c ->
  truthy c = false ->
  inlineImageData response = Ret JUndefined.
Proof.
  intros Hc Hf. unfold inlineImageData, OptGet at 4. rewrite Hc.
  destruct c as [| |[|]|n|s|elems|fields]; try discriminate Hf;
    try reflexivity.
  cbn in Hf. destruct (String.eqb_spec s "") as [->|]; [reflexivity|discriminate].
Qed.

(** X12.  Multi-modal variant: an answer whose [candidates] is missing,
    [null] or otherwise falsy is treated like an empty list of candidates:
    status 400 with the message about the safety guidelines. *)
Theorem Multimodal_falsy_candidates_is_input_rejected :
  forall (rt : Runtime) (API_KEY : option string) (net : Network)
         (ev : Event) (w w' : World) (response c : JSValue),
    Multimodal.answered rt API_KEY net ev w response w' ->
    Get response "candidates" = Ret c ->
    truthy c = false ->
    Multimodal.handler rt API_KEY net ev w = (Ret Multimodal.rejected, w').
Proof.
  intros rt API_KEY net ev w w' response c Hans Hc Hf.
  rewrite (Multimodal_handler_answered Hans). unfold Multimodal.respond.
  erewrite inlineImageData_falsy_candidates by eassumption.
  cbn [obind truthy]. rewrite Hc. cbn [obind]. unfold js_or. rewrite Hf.
  reflexivity.
Qed.

Lemma Multimodal_falsy_candidates_witness :
  Multimodal.handler node (Some "k")
    (always {| status := 200; text := render (JObj [("promptFeedback", JObj [])]) |})
    (post (JObj [("prompt", JStr "a cat"); ("logoData", logo "AAA")])) start
  = (Ret Multimodal.rejected,
     after_fetch (Multimodal.apiUrl (Some "k"))
       (Multimodal.payload (JStr "a cat") (JStr "image/png") (JStr "AAA"))
       start).
Proof.
  apply (Multimodal_falsy_candidates_is_input_rejected
           (rt := node) (API_KEY := Some "k")
           (net := always {| status := 200;
                             text := render (JObj [("promptFeedback", JObj [])]) |})
           (ev := post (JObj [("prompt", JStr "a cat"); ("logoData", logo "AAA")]))
           (w := start)
           (response := JObj [("promptFeedback", JObj [])]) (c := JUndefined)).
  - split; [reflexivity|]. split; [reflexivity|].
    exists (Multimodal.payload (JStr "a cat") (JStr "image/png") (JStr "AAA")).
    split; reflexivity.
  - reflexivity.
  - reflexivity.
Defined.

(** X13.  Multi-modal variant: when the answer has candidates but no image,
    and the first candidate has no safety ratings (none at all, or an
    empty list), the handler answers 500 with the fixed message that the
    image data could not be extracted. *)
Theorem Multimodal_no_ratings_gives_generic_message :
  forall (rt : Runtime) (API_KEY : option string) (net : Network)
         (ev : Event) (w w' : World)
         (response image first : JSValue) (others : list JSValue),
    Multimodal.answered rt API_KEY net ev w response w' ->
    inlineImageData response = Ret image ->
    truthy image = false ->
    Get response "candidates" = Ret (JArr (first :: others)) ->
    nullish (OptGet first "safetyRatings") = true
      \/ OptGet first "safetyRatings" = JArr [] ->
    Multimodal.handler rt API_KEY net ev w =
      (Ret {| statusCode := 500;
              headers := CORS_HEADERS;
              responseBody :=
                Json (error_object
                        (JStr "Generation Error: Could not extract image data from API response (check Netlify logs for full response).")) |},
       w').
Proof.
  intros rt API_KEY net ev w w' response image first others
         Hans Himage Hfalsy Hcand Hratings.
  rewrite (Multimodal_handler_answered Hans). unfold Multimodal.respond.
  rewrite Himage. cbn [obind]. rewrite Hfalsy, Hcand. cbn [obind].
  unfold js_or. cbn [truthy Get String.eqb Ascii.eqb Bool.eqb].
  cbn [obind strictly_zero List.length Z.of_nat Z.eqb index_of_key nth].
  unfold safetyRating.
  destruct Hratings as [Hn | ->].
  - destruct (OptGet first "safetyRatings"); try discriminate Hn; reflexivity.
  - reflexivity.
Qed.

Lemma Multimodal_no_ratings_witness :
  Multimodal.handler node (Some "k")
    (always (candidates_answer (JArr [ JObj [ ("finishReason", JStr "STOP") ] ])))
    (post (JObj [("prompt", JStr "a cat"); ("logoData", logo "AAA")])) start
  = (Ret {| statusCode := 500;
            headers := CORS_HEADERS;
            responseBody :=
              Json (error_object
                      (JStr "Generation Error: Could not extract image data from API response (check Netlify logs for full response).")) |},
     after_fetch (Multimodal.apiUrl (Some "k"))
       (Multimodal.payload (JStr "a cat") (JStr "image/png") (JStr "AAA"))
       start).
Proof.
  apply (Multimodal_no_ratings_gives_generic_message
           (rt := node) (API_KEY := Some "k")
           (net := always (candidates_answer
                             (JArr [ JObj [ ("finishReason", JStr "STOP") ] ])))
           (ev := post (JObj [("prompt", JStr "a cat"); ("logoData", logo "AAA")]))
           (w := start)
           (response := JObj [ ("candidates",
                          JArr [ JObj [ ("finishReason", JStr "STOP") ] ]) ])
           (image := JUndefined)
           (first := JObj [ ("finishReason", JStr "STOP") ]) (others := [])).
  - split; [reflexivity|]. split; [reflexivity|].
    exists (Multimodal.payload (JStr "a cat") (JStr "image/png") (JStr "AAA")).
    split; reflexivity.
  - reflexivity.
  - reflexivity.
  - reflexivity.
  - left. reflexivity.
Defined.

(** ** The label of a safety category *)

Lemma pop_single (x : string) : pop [x] = JStr x.
Proof. reflexivity. Qed.

Lemma pop_cons (x y : string) (l : list string) : pop (x :: y :: l) = pop (y :: l).
Proof.
  unfold pop. cbn [rev]. destruct (rev l) as [|z zs]; reflexivity.
Qed.

Lemma split_char_single (c : ascii) (s x : string) :
  split_char c s = [x] -> x = s /\ includes_char c s = false.
Proof.
  revert x. induction s as [|d rest IH]; intros x; cbn.
  - intros H. inversion H. auto.
  - destruct (Ascii.eqb d c) eqn:Hd.
    + intros H. inversion H. exfalso. eapply split_char_not_nil. eassumption.
    + destruct (split_char c rest) as [|piece pieces] eqn:Hs.
      * exfalso. eapply split_char_not_nil. exact Hs.
      * intros H. inversion H. subst.
        destruct (IH piece eq_refl) as [-> Hnone]. auto.
Qed.

(** X14.  What [category.split('_').pop()] keeps of a category is its part
    after the last underscore: the category is that label with a prefix in
    front that is empty or ends with an underscore, and the label holds no
    underscore. *)
Theorem category_label_is_the_part_after_the_last_underscore :
  forall category : string,
  exists before,
    category = before ++ category_label category /\
    includes_char "_" (category_label category) = false /\
    (before = "" \/ exists stem, before = stem ++ "_").
Proof.
  unfold category_label. induction category as [|d rest IH].
  - exists "". cbn. auto.
  - destruct IH as (before & Heq & Hnone & Hbefore).
    cbn [split_char]. destruct (Ascii.eqb_spec d "_") as [->|Hd].
    + pose proof (split_char_not_nil "_" rest) as Hne.
      destruct (split_char "_" rest) as [|piece pieces] eqn:Hs; [contradiction|].
      rewrite pop_cons. exists (String "_" before).
      split; [cbn; now rewrite <- Heq|]. split; [exact Hnone|].
      right. destruct Hbefore as [->|(stem & ->)].
      * exists "". reflexivity.
      * exists (String "_" stem). reflexivity.
    + pose proof (split_char_not_nil "_" rest) as Hne.
      destruct (split_char "_" rest) as [|piece pieces] eqn:Hs; [contradiction|].
      destruct pieces as [|piece' pieces].
      * destruct (split_char_single _ _ Hs) as [-> Hrest].
        exists "". cbn. split; [reflexivity|]. split; [|auto].
        destruct (Ascii.eqb_spec d "_"); [contradiction | exact Hrest].
      * rewrite pop_cons. rewrite pop_cons in Heq, Hnone.
        exists (String d before).
        split; [cbn; now rewrite <- Heq|]. split; [exact Hnone|].
        right. destruct Hbefore as [->|(stem & ->)].
        -- exfalso. cbn in Heq.
           rewrite Heq, (split_char_without_separator _ _ Hnone) in Hs.
           discriminate Hs.
        -- exists (String d stem). reflexivity.
Qed.

(** ** The request phase *)

(** X15.  Multi-modal variant: a [logoData.data] string without a comma is
    forwarded as it is, and one with exactly one comma is forwarded
    without everything up to and including that comma. *)
Theorem Multimodal_request_strips_the_data_uri_prefix :
  forall (rt : Runtime) (ev : Event)
         (parsed prompt logoData : JSValue) (s t : string),
    JSON_parse rt (body_text ev) = Some parsed ->
    Get parsed "prompt" = Ret prompt ->
    truthy prompt = true ->
    OptGet parsed "logoData" = logoData ->
    Get logoData "data" = Ret (JStr s) ->
    (includes_char "," s = false /\ t = s) \/
      (after_first "," s = Some t /\ includes_char "," t = false) ->
    Multimodal.request rt ev =
      Ret (Some (Multimodal.payload prompt (OptGet logoData "mimeType") (JStr t))).
Proof.
  intros rt ev parsed prompt logoData s t Hparse Hprompt Htruthy Hlogo Hdata Hs.
  assert (Hraw : Multimodal.rawBase64Data logoData = Ret (JStr t)).
  { destruct Hs as [[Hnone ->] | [Hafter Hnone]].
    - now apply rawBase64Data_no_comma.
    - eapply rawBase64Data_single_comma; eassumption. }
  unfold Multimodal.request, parse. rewrite Hparse. cbn [obind].
  rewrite Hprompt. cbn [obind].
  rewrite (Get_defined _ _ Hprompt "logoData"), Hlogo. cbn [obind].
  rewrite Htruthy. cbn [negb]. rewrite Hraw. cbn [obind].
  rewrite (Get_defined _ _ Hdata "mimeType").
  change (Get (JStr t) "length") with (Ret (JNum (Z.of_nat (String.length t)))).
  reflexivity.
Qed.

Lemma Multimodal_request_strips_witness :
  Multimodal.request node
    (post (JObj [ ("prompt", JStr "a cat");
                  ("logoData", logo "data:image/png;base64,AAA") ]))
  = Ret (Some (Multimodal.payload (JStr "a cat")
                 (OptGet (logo "data:image/png;base64,AAA") "mimeType")
                 (JStr "AAA"))).
Proof.
  apply (@Multimodal_request_strips_the_data_uri_prefix
           node
           (post (JObj [ ("prompt", JStr "a cat");
                         ("logoData", logo "data:image/png;base64,AAA") ]))
           (JObj [ ("prompt", JStr "a cat");
                   ("logoData", logo "data:image/png;base64,AAA") ])
           (JStr "a cat") (logo "data:image/png;base64,AAA")
           "data:image/png;base64,AAA" "AAA");
    try reflexivity.
  right. split; reflexivity.
Defined.

(** X16.  A POST body that is not well-formed JSON ends in the [catch]
    block of each handler, with no upstream call.  generate-jersey.js
    answers 500 with a JSON error body that carries the message of the
    parse error; so does generateImage.js, in both variants, when that
    message does not itself hold the pattern of an upstream error. *)
Theorem malformed_body_is_500_without_upstream_call :
  forall (rt : Runtime) (API_KEY : option string) (net : Network)
         (ev : Event) (w : World),
    httpMethod ev = "POST" ->
    configured API_KEY = true ->
    JSON_parse rt (body_text ev) = None ->
    Imagen.handler rt API_KEY net ev w
      = (on_error rt (SyntaxError (body_text ev)), w) /\
    Multimodal.handler rt API_KEY net ev w
      = (on_error rt (SyntaxError (body_text ev)), w) /\
    Jersey.handler rt API_KEY net ev w
      = (Ret (Jersey.on_error rt (SyntaxError (body_text ev))), w) /\
    (match_api_error (engine_message rt (SyntaxError (body_text ev))) = None ->
     on_error rt (SyntaxError (body_text ev)) =
       Ret {| statusCode := 500;
              headers := CORS_HEADERS;
              responseBody :=
                Json (error_object
                        (JStr ("Generation Error: Failed to generate image. "
                               ++ engine_message rt
                                    (SyntaxError (body_text ev))))) |}) /\
    statusCode (Jersey.on_error rt (SyntaxError (body_text ev))) = 500%Z /\
    responseBody (Jersey.on_error rt (SyntaxError (body_text ev))) =
      Json (error_object
              (JStr ("Internal server error: "
                     ++ engine_message rt (SyntaxError (body_text ev))))).
Proof.
  intros rt API_KEY net ev w Hpost Hcfg Hparse.
  split; [|split; [|split; [|split; [|split]]]]; try reflexivity.
  - unfold Imagen.handler. rewrite Hpost, Hcfg.
    cbn [String.eqb Ascii.eqb Bool.eqb negb].
    unfold Imagen.serve, Imagen.request, parse. run. rewrite Hparse.
    reflexivity.
  - unfold Multimodal.handler. rewrite Hpost, Hcfg.
    cbn [String.eqb Ascii.eqb Bool.eqb negb].
    unfold Multimodal.serve, Multimodal.request, parse. run. rewrite Hparse.
    reflexivity.
  - unfold Jersey.handler. rewrite Hpost, Hcfg.
    cbn [String.eqb Ascii.eqb Bool.eqb negb].
    unfold Jersey.serve, Jersey.request, parse. run. rewrite Hparse.
    reflexivity.
  - intros Hplain. exact (on_error_plain rt (SyntaxError (body_text ev)) Hplain).
Qed.

Lemma malformed_body_witness :
  Imagen.handler node (Some "k") (always internal_error)
    {| httpMethod := "POST"; body := Some "{prompt" |} start
    = (Ret (failed_response (engine_message node (SyntaxError "{prompt"))),
       start) /\
  Multimodal.handler node (Some "k") (always internal_error)
    {| httpMethod := "POST"; body := Some "{prompt" |} start
    = (Ret (failed_response (engine_message node (SyntaxError "{prompt"))),
       start) /\
  Jersey.handler node (Some "k") (always internal_error)
    {| httpMethod := "POST"; body := Some "{prompt" |} start
    = (Ret (Jersey.on_error node (SyntaxError "{prompt")), start) /\
  statusCode (failed_response (engine_message node (SyntaxError "{prompt")))
    = 500%Z /\
  statusCode (Jersey.on_error node (SyntaxError "{prompt")) = 500%Z.
Proof.
  destruct (malformed_body_is_500_without_upstream_call
              node (Some "k") (always internal_error)
              {| httpMethod := "POST"; body := Some "{prompt" |} start
              eq_refl eq_refl eq_refl)
    as (Himagen & Hmulti & Hjersey & Hplain & Hstatus & _).
  rewrite Himagen, Hmulti, Hjersey.
  split; [reflexivity|]. split; [reflexivity|]. split; [reflexivity|].
  split; [reflexivity | exact Hstatus].
Defined.

(** X17.  Without the API key no handler calls the upstream, and the order
    of the guards differs: generateImage.js answers 405 to a method other
    than POST and OPTIONS before it looks at the key, and 500 to a POST;
    generate-jersey.js looks at the key first and answers 500 to every
    method but OPTIONS. *)
Theorem missing_key_is_500_without_upstream_call :
  forall (rt : Runtime) (API_KEY : option string) (net : Network)
         (ev : Event) (w : World),
    configured API_KEY = false ->
    httpMethod ev <> "OPTIONS" ->
    Jersey.handler rt API_KEY net ev w = (Ret Jersey.not_configured, w) /\
    Imagen.handler rt API_KEY net ev w =
      (Ret (if httpMethod ev =? "POST" then not_configured
            else method_not_allowed), w) /\
    Multimodal.handler rt API_KEY net ev w =
      (Ret (if httpMethod ev =? "POST" then not_configured
            else method_not_allowed), w).
Proof.
  intros rt API_KEY net ev w Hcfg Hopt.
  unfold Jersey.handler, Imagen.handler, Multimodal.handler.
  destruct (String.eqb_spec (httpMethod ev) "OPTIONS") as [E|_];
    [contradiction|].
  rewrite Hcfg. cbn [negb].
  destruct (httpMethod ev =? "POST"); repeat split; reflexivity.
Qed.

Lemma missing_key_witness :
  Jersey.handler node None (always internal_error)
    {| httpMethod := "GET"; body := None |} start
    = (Ret Jersey.not_configured, start) /\
  Imagen.handler node None (always internal_error)
    {| httpMethod := "GET"; body := None |} start
    = (Ret method_not_allowed, start) /\
  Multimodal.handler node None (always internal_error)
    {| httpMethod := "GET"; body := None |} start
    = (Ret method_not_allowed, start).
Proof.
  apply (missing_key_is_500_without_upstream_call
           node None (always internal_error)
           {| httpMethod := "GET"; body := None |} start).
  - reflexivity.
  - discriminate.
Defined.

(** X18.  generate-jersey.js relays an upstream error status, 429 included,
    without a retry: the response has the status of the upstream answer
    and the [error.message] of its JSON body, or, when that is missing or
    falsy, the text "Gemini API call failed.". *)
Theorem Jersey_relays_upstream_error :
  forall (rt : Runtime) (API_KEY : option string) (net : Network)
         (ev : Event) (w : World) (apiResponse : Response)
         (errorBody inner : JSValue),
    Jersey.answered rt API_KEY net ev w apiResponse ->
    ok apiResponse = false ->
    JSON_parse rt (text apiResponse) = Some errorBody ->
    Get errorBody "error" = Ret inner ->
    fst (Jersey.handler rt API_KEY net ev w) =
      Ret {| statusCode := status apiResponse;
             headers := [ ("Access-Control-Allow-Origin", "*") ];
             responseBody :=
               Json (error_object
                       (if truthy (OptGet inner "message")
                        then OptGet inner "message"
                        else JStr "Gemini API call failed.")) |} /\
    calls (snd (Jersey.handler rt API_KEY net ev w)) = S (calls w).
Proof.
  intros rt API_KEY net ev w apiResponse errorBody inner
         Hans Hok Hparse Hinner.
  destruct (Jersey_handler_answered Hans) as (sent & _ & Hrun).
  rewrite Hrun. unfold Jersey.answer, Jersey.forward_error, parse.
  rewrite Hok, Hparse. cbn [negb obind]. rewrite Hinner. cbn [obind fst snd].
  split; reflexivity.
Qed.

Lemma Jersey_relays_upstream_error_witness :
  fst (Jersey.handler node (Some "k")
         (always {| status := 429;
                    text := render (JObj [ ("error",
                              JObj [ ("message", JStr "Quota exceeded") ]) ]) |})
         (post (JObj [("prompt", JStr "a cat"); ("logoData", logo "AAA")]))
         start)
  = Ret {| statusCode := 429;
           headers := [ ("Access-Control-Allow-Origin", "*") ];
           responseBody :=
             Json (error_object
                     (if truthy (OptGet (JObj [ ("message", JStr "Quota exceeded") ])
                                        "message")
                      then OptGet (JObj [ ("message", JStr "Quota exceeded") ])
                                  "message"
                      else JStr "Gemini API call failed.")) |} /\
  calls (snd (Jersey.handler node (Some "k")
         (always {| status := 429;
                    text := render (JObj [ ("error",
                              JObj [ ("message", JStr "Quota exceeded") ]) ]) |})
         (post (JObj [("prompt", JStr "a cat"); ("logoData", logo "AAA")]))
         start)) = 1%nat.
Proof.
  apply (@Jersey_relays_upstream_error
           node (Some "k")
           (always {| status := 429;
                      text := render (JObj [ ("error",
                                JObj [ ("message", JStr "Quota exceeded") ]) ]) |})
           (post (JObj [("prompt", JStr "a cat"); ("logoData", logo "AAA")]))
           start
           {| status := 429;
              text := render (JObj [ ("error",
                        JObj [ ("message", JStr "Quota exceeded") ]) ]) |}
           (JObj [ ("error", JObj [ ("message", JStr "Quota exceeded") ]) ])
           (JObj [ ("message", JStr "Quota exceeded") ])).
  - split; [reflexivity|]. split; [reflexivity|].
    split; [eexists; reflexivity | reflexivity].
  - reflexivity.
  - reflexivity.
  - reflexivity.
Defined.

(** ** The Apps Script functions *)

Section AppsScriptFacts.

Variable rt : Runtime.
Variable apiKey : option string.
Variable net : Network.
Variable prompt : JSValue.

Lemma AppsScript_loop_200 remaining w r :
  net (calls w) = Resolves r ->
  status r = 200%Z ->
  AppsScript.loop rt apiKey net prompt (S remaining) w =
    (obind (parse rt (text r)) (AppsScript.image_of rt),
     after_fetch (AppsScript.API_URL apiKey) (AppsScript.payload prompt) w).
Proof.
  intros Hnet Hst. cbn [AppsScript.loop]. run. rewrite Hnet, Hst.
  cbn [Z.eqb Pos.eqb].
  destruct (parse rt (text r)) as [result|e]; reflexivity.
Qed.

Lemma AppsScript_loop_429 remaining w r :
  net (calls w) = Resolves r ->
  status r = 429%Z ->
  (AppsScript.MAX_RETRIES - S remaining < AppsScript.MAX_RETRIES - 1)%nat ->
  AppsScript.loop rt apiKey net prompt (S remaining) w =
    AppsScript.loop rt apiKey net prompt remaining
      (record (Slept (backoff (AppsScript.MAX_RETRIES - S remaining)))
         (after_fetch (AppsScript.API_URL apiKey) (AppsScript.payload prompt) w)).
Proof.
  intros Hnet Hst Hi. cbn [AppsScript.loop]. run. rewrite Hnet, Hst.
  cbn [Z.eqb Pos.eqb andb].
  apply Nat.ltb_lt in Hi. rewrite Hi. reflexivity.
Qed.

(** Any other first outcome ends the loop. *)
Lemma AppsScript_loop_gives_up remaining w :
  (exists reason, net (calls w) = Rejects reason) \/
  (exists r, net (calls w) = Resolves r /\
             status r <> 200%Z /\ status r <> 429%Z) ->
  AppsScript.loop rt apiKey net prompt (S remaining) w =
    (match net (calls w) with
     | Rejects reason => Throw (FetchFailed reason)
     | Resolves _ => Ret JNull
     end,
     after_fetch (AppsScript.API_URL apiKey) (AppsScript.payload prompt) w).
Proof.
  intros [[reason Hnet] | (r & Hnet & H200 & H429)];
    cbn [AppsScript.loop]; run; rewrite Hnet; [reflexivity|].
  destruct (Z.eqb_spec (status r) 200); [contradiction|].
  destruct (Z.eqb_spec (status r) 429); [contradiction|].
  reflexivity.
Qed.

Lemma AppsScript_loop_calls remaining :
  forall w,
    (calls w
       <= calls (snd (AppsScript.loop rt apiKey net prompt remaining w))
       <= calls w + remaining)%nat.
Proof.
  induction remaining as [|remaining IH]; intros w.
  - cbn. lia.
  - cbn [AppsScript.loop]. run.
    destruct (net (calls w)) as [r|reason]; [|cbn; lia].
    destruct (status r =? 200)%Z.
    + destruct (parse rt (text r)) as [result|e]; [|cbn; lia].
      destruct (AppsScript.image_of rt result); cbn; lia.
    + destruct ((status r =? 429)%Z
                && (AppsScript.MAX_RETRIES - S remaining
                    <? AppsScript.MAX_RETRIES - 1)%nat); [|cbn; lia].
      specialize (IH (record (Slept (2 ^ Z.of_nat (AppsScript.MAX_RETRIES
                                                    - S remaining) * 1000))
                        (after_fetch (AppsScript.API_URL apiKey)
                           (AppsScript.payload prompt) w))).
      cbn in IH |- *. lia.
Qed.

Lemma AppsScript_image_of_first result first others b :
  Get result "predictions" = Ret (JArr (first :: others)) ->
  Get first "bytesBase64Encoded" = Ret (JStr b) ->
  b <> "" ->
  AppsScript.image_of rt result = Ret (JStr b).
Proof.
  intros Hp Hbytes Hb. unfold AppsScript.image_of. rewrite Hp. cbn [obind].
  cbn [truthy negb].
  change (Get (JArr (first :: others)) "length")
    with (Ret (JNum (Z.of_nat (S (List.length others))))).
  cbn [obind above_zero].
  replace (0 <? Z.of_nat (S (List.length others)))%Z with true
    by (symmetry; apply Z.ltb_lt; lia).
  cbn [negb].
  change (Get (JArr (first :: others)) "0") with (Ret first).
  cbn [obind]. rewrite Hbytes. cbn [obind].
  rewrite (nonempty_truthy Hb). reflexivity.
Qed.

(** Once the prompt is printed, nothing that happens in the [try] block
    leaves the function. *)
Lemma AppsScript_generateImage_returns shown w :
  ToString rt prompt = Ret shown ->
  exists v w',
    AppsScript.generateImage rt apiKey net prompt w = (Ret v, w') /\
    (v = JNull \/ truthy v = true) /\
    (calls w <= calls w' <= calls w + 3)%nat /\
    (configured apiKey = false \/ truthy prompt = false ->
     v = JNull /\ w' = w).
Proof.
  intros Hshown. unfold AppsScript.generateImage.
  destruct (configured apiKey) eqn:Hcfg; cbn [negb].
  2:{ exists JNull, w. run. repeat split; auto; lia. }
  destruct (truthy prompt) eqn:Hprompt; cbn [negb].
  2:{ exists JNull, w. run. repeat split; auto; lia. }
  run. rewrite Hshown.
  pose proof (AppsScript_loop_calls AppsScript.MAX_RETRIES w) as Hcalls.
  destruct (AppsScript.loop rt apiKey net prompt AppsScript.MAX_RETRIES w)
    as [[v|e] w'] eqn:Hloop; cbn [snd] in Hcalls.
  - exists v, w'. split; [reflexivity|]. split.
    + destruct (AppsScript_loop_value _ _ _ _ _ _ Hloop)
        as [-> | (k & r & result & predictions & first & H)]; [auto|].
      right. apply H.
    + split; [exact Hcalls|]. intros [H|H]; discriminate H.
  - exists JNull, w'. split; [reflexivity|]. split; [auto|].
    split; [exact Hcalls|]. intros [H|H]; discriminate H.
Qed.

End AppsScriptFacts.

(** X19.  [generateImage] of the Apps Script, given a prompt that can be
    printed, never throws and makes at most three upstream calls; what it
    returns is [null] or a truthy image value; and without the stored key,
    or with an empty prompt, it returns [null] without calling the
    upstream. *)
Theorem AppsScript_generateImage_always_returns :
  forall (rt : Runtime) (apiKey : option string) (net : Network)
         (prompt : JSValue) (shown : string) (w : World),
    ToString rt prompt = Ret shown ->
    exists v w',
      AppsScript.generateImage rt apiKey net prompt w = (Ret v, w') /\
      (v = JNull \/ truthy v = true) /\
      (calls w <= calls w' <= calls w + 3)%nat /\
      (configured apiKey = false \/ truthy prompt = false ->
       v = JNull /\ w' = w).
Proof.
  intros rt apiKey net prompt shown w Hshown.
  eapply AppsScript_generateImage_returns, Hshown.
Qed.

Lemma AppsScript_generateImage_always_returns_witness :
  exists v w',
    AppsScript.generateImage node (Some "k") (always internal_error)
      (JStr "a cat") start = (Ret v, w') /\
    (v = JNull \/ truthy v = true) /\
    (calls start <= calls w' <= calls start + 3)%nat /\
    (configured (Some "k") = false \/ truthy (JStr "a cat") = false ->
     v = JNull /\ w' = start).
Proof.
  apply (AppsScript_generateImage_always_returns
           node (Some "k") (always internal_error) (JStr "a cat")
           (shown := "a cat") start).
  reflexivity.
Defined.

(** A prompt that cannot be printed, an object with a [toString] member
    for instance, makes [generateImage] throw at the log line before the
    [try] block, before any upstream call. *)
Lemma AppsScript_generateImage_throws_on_a_prompt_without_text :
  AppsScript.generateImage node (Some "k") (always (prediction_answer "QUJD"))
    (JObj [("toString", JNum 0)]) start
  = (Throw (TypeError (NotPrimitive (JObj [("toString", JNum 0)]))), start).
Proof. reflexivity. Qed.

(** X20.  In the Apps Script only a 429 is retried: a first outcome that is
    a failed fetch, or a status other than 200 and 429, ends
    [generateImage] (called with a prompt that can be printed) with [null]
    after that one call. *)
Theorem AppsScript_gives_up_on_first_error :
  forall (rt : Runtime) (apiKey : option string) (net : Network)
         (prompt : JSValue) (shown : string) (w : World),
    configured apiKey = true ->
    truthy prompt = true ->
    ToString rt prompt = Ret shown ->
    (exists reason, net (calls w) = Rejects reason) \/
    (exists r, net (calls w) = Resolves r /\
               status r <> 200%Z /\ status r <> 429%Z) ->
    AppsScript.generateImage rt apiKey net prompt w =
      (Ret JNull,
       after_fetch (AppsScript.API_URL apiKey) (AppsScript.payload prompt) w).
Proof.
  intros rt apiKey net prompt shown w Hcfg Hprompt Hshown Hfirst.
  unfold AppsScript.generateImage. rewrite Hcfg, Hprompt. cbn [negb].
  run. rewrite Hshown. unfold AppsScript.MAX_RETRIES.
  rewrite AppsScript_loop_gives_up by exact Hfirst.
  destruct (net (calls w)); reflexivity.
Qed.

Lemma AppsScript_gives_up_witness :
  AppsScript.generateImage node (Some "k") (always internal_error)
    (JStr "a cat") start
  = (Ret JNull,
     after_fetch (AppsScript.API_URL (Some "k"))
       (AppsScript.payload (JStr "a cat")) start).
Proof.
  apply (AppsScript_gives_up_on_first_error
           node (Some "k") (always internal_error) (JStr "a cat")
           (shown := "a cat") start).
  - reflexivity.
  - reflexivity.
  - reflexivity.
  - right. exists internal_error.
    split; [reflexivity|]. split; cbn; discriminate.
Defined.

(** X21.  Apps Script, called with a prompt that can be printed: after [k]
    answers of status 429, [k] at most two, a 200 answer whose first
    prediction carries a non-empty string in [bytesBase64Encoded] makes
    [generateImage] return that string unchanged, after [k + 1] calls and
    pauses of 1, 2, ... seconds, one after each 429. *)
Theorem AppsScript_returns_the_upstream_image :
  forall (rt : Runtime) (apiKey : option string) (net : Network)
         (prompt : JSValue) (shown : string) (w : World) (k : nat)
         (r : Response)
         (result first : JSValue) (others : list JSValue) (b : string),
    configured apiKey = true ->
    truthy prompt = true ->
    ToString rt prompt = Ret shown ->
    (k <= 2)%nat ->
    (forall j, (j < k)%nat ->
               exists t, net (calls w + j) = Resolves {| status := 429; text := t |}) ->
    net (calls w + k) = Resolves r ->
    status r = 200%Z ->
    JSON_parse rt (text r) = Some result ->
    Get result "predictions" = Ret (JArr (first :: others)) ->
    Get first "bytesBase64Encoded" = Ret (JStr b) ->
    b <> "" ->
    exists effects,
      AppsScript.generateImage rt apiKey net prompt w =
        (Ret (JStr b),
         {| calls := calls w + S k; trace := (trace w ++ effects)%list |}) /\
      sleeps effects = map backoff (seq 0 k).
Proof.
  intros rt apiKey net prompt shown w k r result first others b
         Hcfg Hprompt Hshown Hk H429 Hnet Hst Hparse Hpred Hbytes Hb.
  assert (Himg : obind (parse rt (text r)) (AppsScript.image_of rt)
                 = Ret (JStr b)).
  { unfold parse. rewrite Hparse. cbn [obind].
    eapply AppsScript_image_of_first; eassumption. }
  unfold AppsScript.generateImage. rewrite Hcfg, Hprompt. cbn [negb].
  run. rewrite Hshown. change AppsScript.MAX_RETRIES with 3%nat.
  set (url := AppsScript.API_URL apiKey).
  set (sent := AppsScript.payload prompt).
  destruct k as [|[|[|k]]]; [| | |lia].
  - rewrite Nat.add_0_r in Hnet.
    rewrite (@AppsScript_loop_200 rt apiKey net prompt 2 w r Hnet Hst), Himg.
    exists [Fetched url sent]. split; [|reflexivity].
    unfold after_fetch. now rewrite Nat.add_1_r.
  - destruct (H429 0%nat) as [t0 H0]; [lia|]. rewrite Nat.add_0_r in H0.
    assert (Hi0 : (AppsScript.MAX_RETRIES - 3 < AppsScript.MAX_RETRIES - 1)%nat)
      by (cbn; lia).
    rewrite (@AppsScript_loop_429 rt apiKey net prompt 2 w _ H0 eq_refl Hi0).
    set (w1 := record _ _).
    assert (Hn1 : net (calls w1) = Resolves r).
    { subst w1. cbn [calls record after_fetch]. now rewrite <- Nat.add_1_r. }
    rewrite (@AppsScript_loop_200 rt apiKey net prompt 1 w1 r Hn1 Hst), Himg.
    exists [Fetched url sent; Slept (backoff 0); Fetched url sent].
    split; [|reflexivity]. subst w1.
    unfold after_fetch, record. cbn [calls trace]. rewrite <- !app_assoc.
    f_equal. f_equal. lia.
  - destruct (H429 0%nat) as [t0 H0]; [lia|]. rewrite Nat.add_0_r in H0.
    destruct (H429 1%nat) as [t1 H1]; [lia|].
    assert (Hi0 : (AppsScript.MAX_RETRIES - 3 < AppsScript.MAX_RETRIES - 1)%nat)
      by (cbn; lia).
    assert (Hi1 : (AppsScript.MAX_RETRIES - 2 < AppsScript.MAX_RETRIES - 1)%nat)
      by (cbn; lia).
    rewrite (@AppsScript_loop_429 rt apiKey net prompt 2 w _ H0 eq_refl Hi0).
    set (w1 := record _ _).
    assert (Hn1 : net (calls w1) = Resolves {| status := 429; text := t1 |}).
    { subst w1. cbn [calls record after_fetch]. now rewrite <- Nat.add_1_r. }
    rewrite (@AppsScript_loop_429 rt apiKey net prompt 1 w1 _ Hn1 eq_refl Hi1).
    set (w2 := record _ _).
    assert (Hn2 : net (calls w2) = Resolves r).
    { subst w2 w1. cbn [calls record after_fetch].
      replace (S (S (calls w))) with (calls w + 2)%nat by lia. exact Hnet. }
    rewrite (@AppsScript_loop_200 rt apiKey net prompt 0 w2 r Hn2 Hst), Himg.
    exists [Fetched url sent; Slept (backoff 0);
            Fetched url sent; Slept (backoff 1); Fetched url sent].
    split; [|reflexivity]. subst w2 w1.
    unfold after_fetch, record. cbn [calls trace]. rewrite <- !app_assoc.
    f_equal. f_equal. lia.
Qed.

Lemma AppsScript_returns_the_upstream_image_witness :
  exists effects,
    AppsScript.generateImage node (Some "k")
      (scripted [ {| status := 429; text := "" |}; prediction_answer "QUJD" ])
      (JStr "a cat") start
    = (Ret (JStr "QUJD"),
       {| calls := calls start + 2; trace := (trace start ++ effects)%list |}) /\
    sleeps effects = map backoff (seq 0 1).
Proof.
  apply (@AppsScript_returns_the_upstream_image
           node (Some "k")
           (scripted [ {| status := 429; text := "" |}; prediction_answer "QUJD" ])
           (JStr "a cat") "a cat" start 1 (prediction_answer "QUJD")
           (JObj [ ("predictions",
                    JArr [ JObj [ ("bytesBase64Encoded", JStr "QUJD") ] ]) ])
           (JObj [ ("bytesBase64Encoded", JStr "QUJD") ]) [] "QUJD");
    try reflexivity.
  - repeat constructor.
  - intros [|j] Hj; [exists ""; reflexivity|].
    exfalso. apply Nat.succ_lt_mono in Hj. inversion Hj.
  - discriminate.
Defined.

(** X22.  [setApiKey] as it is written never stores a key: its guard
    compares [myApiKey] with the very literal it was given, so the store
    is left as it was and an error line is logged.  If the key was not set
    before, it is not set after, [runTest] reports that the setup is
    required and [generateImage] returns [null], both without calling the
    upstream. *)
Theorem setApiKey_never_stores_the_key :
  forall (key_literal : string) (rt : Runtime) (net : Network)
         (props : ScriptProperties.Properties) (prompt : JSValue) (w : World),
    configured (ScriptProperties.getProperty props
                  ScriptProperties.API_KEY_PROPERTY) = false ->
    fst (ScriptProperties.setApiKey key_literal props) = props /\
    snd (ScriptProperties.setApiKey key_literal props) =
      ["Error: Please replace 'YOUR_GEMINI_API_KEY_HERE' with your actual key before running setApiKey()."] /\
    ScriptProperties.runTest rt
      (fst (ScriptProperties.setApiKey key_literal props)) net w
      = (Ret ScriptProperties.SetupRequired, w) /\
    AppsScript.generateImage rt
      (ScriptProperties.getProperty
         (fst (ScriptProperties.setApiKey key_literal props))
         ScriptProperties.API_KEY_PROPERTY) net prompt w
      = (Ret JNull, w).
Proof.
  intros key_literal rt net props prompt w Hcfg.
  unfold ScriptProperties.setApiKey, ScriptProperties.myApiKey.
  rewrite String.eqb_refl. cbn [fst snd].
  split; [reflexivity|]. split; [reflexivity|].
  unfold ScriptProperties.runTest, AppsScript.generateImage.
  rewrite Hcfg. split; reflexivity.
Qed.

Lemma setApiKey_never_stores_witness :
  fst (ScriptProperties.setApiKey "PLACEHOLDER" (fun _ => None)) = (fun _ => None) /\
  snd (ScriptProperties.setApiKey "PLACEHOLDER" (fun _ => None)) =
    ["Error: Please replace 'YOUR_GEMINI_API_KEY_HERE' with your actual key before running setApiKey()."] /\
  ScriptProperties.runTest node
    (fst (ScriptProperties.setApiKey "PLACEHOLDER" (fun _ => None)))
    (always internal_error) start
    = (Ret ScriptProperties.SetupRequired, start) /\
  AppsScript.generateImage node
    (ScriptProperties.getProperty
       (fst (ScriptProperties.setApiKey "PLACEHOLDER" (fun _ => None)))
       ScriptProperties.API_KEY_PROPERTY) (always internal_error)
    (JStr "a cat") start
    = (Ret JNull, start).
Proof.
  apply (setApiKey_never_stores_the_key
           "PLACEHOLDER" node (always internal_error) (fun _ => None)
           (JStr "a cat") start).
  reflexivity.
Defined.

(** X23.  [runTest] never throws.  It reports that the setup is required,
    without calling the upstream, exactly when the stored key is missing
    or empty; otherwise it makes at most three upstream calls and reports
    a received image or a failed generation. *)
Theorem runTest_always_reports :
  forall (rt : Runtime) (props : ScriptProperties.Properties)
         (net : Network) (w : World),
  exists report w',
    ScriptProperties.runTest rt props net w = (Ret report, w') /\
    (calls w <= calls w' <= calls w + 3)%nat /\
    (report = ScriptProperties.SetupRequired <->
     configured (ScriptProperties.getProperty props
                   ScriptProperties.API_KEY_PROPERTY) = false) /\
    (report = ScriptProperties.SetupRequired -> w' = w).
Proof.
  intros rt props net w. unfold ScriptProperties.runTest.
  destruct (configured (ScriptProperties.getProperty props
                          ScriptProperties.API_KEY_PROPERTY)) eqn:Hcfg;
    cbn [negb].
  - destruct (@AppsScript_generateImage_returns rt
                (ScriptProperties.getProperty props
                   ScriptProperties.API_KEY_PROPERTY)
                net (JStr ScriptProperties.testPrompt)
                ScriptProperties.testPrompt w eq_refl)
      as (v & w' & Hrun & _ & Hcalls & _).
    run. rewrite Hrun.
    destruct (truthy v); eexists; exists w';
      (split; [reflexivity|]); (split; [exact Hcalls|]);
      split; try (split; intros H; discriminate H); intros H; discriminate H.
  - exists ScriptProperties.SetupRequired, w. run.
    split; [reflexivity|]. split; [lia|]. split; [tauto | reflexivity].
Qed.
